(** * py6axis: the SixAxis controller state machine (sixaxis.py)

    A shallow embedding of [SixAxis] and [SixAxis.Axis]: the axis
    calibration and correction arithmetic, the button bitfield, the handler
    registry and its dispatch, and the connect life cycle.

    Python objects are mutated in place; here every method takes the object
    and returns the updated one.  A method that can raise returns a
    [result].  The reader thread is not modelled: it only delivers events,
    one at a time, to [handle_event]. *)

From Stdlib Require Import ZArith QArith Qabs Bool List String Lia Lqa.
From Stdlib Require Import PrimFloat Uint63.
Import ListNotations.

Set Warnings "-inexact-float".

(** ** Exceptions *)

Inductive exn : Type :=
| ZeroDivisionError
| ValueError
| IndexError
| AssertionError
| TypeError
| IOError.

Inductive result (A : Type) : Type :=
| Ok (a : A)
| Raise (e : exn).

Arguments Ok {A} a.
Arguments Raise {A} e.

Definition bind {A B : Type} (r : result A) (k : A -> result B) : result B :=
  match r with
  | Ok a => k a
  | Raise e => Raise e
  end.

Notation "x <- r ;; k" := (bind r (fun x => k))
  (at level 61, r at next level, right associativity).

(** ** Numbers

    The axis code computes with Python floats, which are IEEE binary64
    values.  The arithmetic the code uses is collected in one interface with
    two instances: [float] (Rocq's primitive binary64 numbers, the numbers
    Python computes with) and [Q] (the same expressions read exactly).
    Python raises [ZeroDivisionError] on a division by zero, so [div] is
    partial. *)

Class Num (F : Type) : Type := {
  lit : Q -> F;            (* a decimal literal of the source *)
  float_of_int : Z -> F;   (* float(n) for an int n *)
  add : F -> F -> F;
  sub : F -> F -> F;
  mul : F -> F -> F;
  opp : F -> F;
  div : F -> F -> result F;
  ltb : F -> F -> bool
}.

Declare Scope num_scope.
Delimit Scope num_scope with num.
Notation "x + y" := (add x y) : num_scope.
Notation "x - y" := (sub x y) : num_scope.
Notation "x * y" := (mul x y) : num_scope.
Notation "- x" := (opp x) : num_scope.
Notation "x / y" := (div x y) : num_scope.
Notation "x <? y" := (ltb x y) : num_scope.
Notation "x >? y" := (ltb y x) : num_scope.

Definition Qltb (x y : Q) : bool := negb (Qle_bool y x).

#[export] Instance Num_Q : Num Q := {
  lit q := q;
  float_of_int z := inject_Z z;
  add := Qplus;
  sub := Qminus;
  mul := Qmult;
  opp := Qopp;
  div x y := if Qeq_bool y 0 then Raise ZeroDivisionError else Ok (Qdiv x y);
  ltb := Qltb
}.

(** [float(n)]: exact for |n| < 2^53, which covers the 32-bit [value] field
    of an input event. *)
Definition float_of_Z (z : Z) : float :=
  if (z <? 0)%Z then PrimFloat.opp (PrimFloat.of_uint63 (Uint63.of_Z (- z)))
  else PrimFloat.of_uint63 (Uint63.of_Z z).

(** A decimal literal denotes the double nearest to it; for the literals of
    the source that is the correctly rounded quotient of two small integers
    (see [literals_are_doubles]). *)
Definition float_lit (q : Q) : float :=
  PrimFloat.div (float_of_Z (Qnum q)) (float_of_Z (Zpos (Qden q))).

#[export] Instance Num_float : Num float := {
  lit := float_lit;
  float_of_int := float_of_Z;
  add := PrimFloat.add;
  sub := PrimFloat.sub;
  mul := PrimFloat.mul;
  opp := PrimFloat.opp;
  div x y := if PrimFloat.eqb y 0%float then Raise ZeroDivisionError
             else Ok (PrimFloat.div x y);
  ltb := PrimFloat.ltb
}.

(** ** SixAxis.Axis *)

Section AxisDef.

Context {F : Type} `{Num F}.
Local Open Scope num_scope.

Record Axis : Type := mkAxis {
  name : string;
  centre : F;
  max : F;
  min : F;
  value : F;
  invert : bool;
  dead_zone : F;
  hot_zone : F
}.

(** [Axis.__init__(name, invert, dead_zone, hot_zone)] *)
Definition Axis_init (name : string) (invert : bool) (dead_zone hot_zone : F)
  : Axis :=
  {| name := name;
     centre := lit 0.5;
     max := lit 0.9;
     min := lit 0.1;
     value := lit 0.5;
     invert := invert;
     dead_zone := dead_zone;
     hot_zone := hot_zone |}.

(** [Axis.corrected_value()].  The source's [result = 0] is the int zero; it
    is rendered by the zero of [F]. *)
Definition corrected_value (self : Axis) : result F :=
  let high_range := max self - centre self in
  let high_start := centre self + dead_zone self * high_range in
  let high_end := max self - hot_zone self * high_range in
  let low_range := centre self - min self in
  let low_start := centre self - dead_zone self * low_range in
  let low_end := min self + hot_zone self * low_range in
  res <-
    (if value self >? high_start then
       if value self >? high_end then Ok (lit 1)
       else (value self - high_start) / (high_end - high_start)
     else if value self <? low_start then
       if value self <? low_end then Ok (- lit 1)
       else (value self - low_start) / (low_start - low_end)
     else Ok (lit 0)) ;;
  if negb (invert self) then Ok res else Ok (- res).

(** [Axis._reset()] *)
Definition _reset (self : Axis) : Axis :=
  {| name := name self;
     centre := lit 0.5;
     max := lit 0.9;
     min := lit 0.1;
     value := value self;
     invert := invert self;
     dead_zone := dead_zone self;
     hot_zone := hot_zone self |}.

(** [Axis._set(new_value)] *)
Definition _set (self : Axis) (new_value : F) : Axis :=
  if new_value >? max self then
    {| name := name self; centre := centre self;
       max := new_value;
       min := min self;
       value := new_value;
       invert := invert self; dead_zone := dead_zone self;
       hot_zone := hot_zone self |}
  else if new_value <? min self then
    {| name := name self; centre := centre self;
       max := max self;
       min := new_value;
       value := new_value;
       invert := invert self; dead_zone := dead_zone self;
       hot_zone := hot_zone self |}
  else
    {| name := name self; centre := centre self;
       max := max self;
       min := min self;
       value := new_value;
       invert := invert self; dead_zone := dead_zone self;
       hot_zone := hot_zone self |}.

(** The body of the loop of [SixAxis.set_axis_centres]:
    [axis.centre = axis.value]. *)
Definition set_centre (axis : Axis) : Axis :=
  {| name := name axis;
     centre := value axis;
     max := max axis;
     min := min axis;
     value := value axis;
     invert := invert axis;
     dead_zone := dead_zone axis;
     hot_zone := hot_zone axis |}.

End AxisDef.

Arguments Axis F : clear implicits.

(** ** Events, buttons and handler registrations *)

(** The two event types of [evdev.ecodes] the code looks at. *)
Module ecodes.

Definition EV_KEY : Z := 1.
Definition EV_ABS : Z := 3.

End ecodes.

(** An evdev event: [event.type], [event.code], [event.value]. *)
Record event : Type := mkEvent {
  ev_type : Z;
  ev_code : Z;
  ev_value : Z
}.

Definition BUTTON_SELECT : Z := 0.
Definition BUTTON_LEFT_STICK : Z := 1.
Definition BUTTON_RIGHT_STICK : Z := 2.
Definition BUTTON_START : Z := 3.
Definition BUTTON_D_UP : Z := 4.
Definition BUTTON_D_RIGHT : Z := 5.
Definition BUTTON_D_DOWN : Z := 6.
Definition BUTTON_D_LEFT : Z := 7.
Definition BUTTON_L2 : Z := 8.
Definition BUTTON_R2 : Z := 9.
Definition BUTTON_L1 : Z := 10.
Definition BUTTON_R1 : Z := 11.
Definition BUTTON_TRIANGLE : Z := 12.
Definition BUTTON_CIRCLE : Z := 13.
Definition BUTTON_CROSS : Z := 14.
Definition BUTTON_SQUARE : Z := 15.
Definition BUTTON_PS : Z := 16.

(** The if/elif chain of [handle_event] for key events; [None] is the
    source's [button = None]. *)
Definition button_of_code (code : Z) : option Z :=
  if (code =? 314)%Z then Some BUTTON_SELECT
  else if (code =? 315)%Z then Some BUTTON_START
  else if (code =? 317)%Z then Some BUTTON_LEFT_STICK
  else if (code =? 318)%Z then Some BUTTON_RIGHT_STICK
  else if (code =? 546)%Z then Some BUTTON_D_LEFT
  else if (code =? 544)%Z then Some BUTTON_D_UP
  else if (code =? 547)%Z then Some BUTTON_D_RIGHT
  else if (code =? 545)%Z then Some BUTTON_D_DOWN
  else if (code =? 316)%Z then Some BUTTON_PS
  else if (code =? 308)%Z then Some BUTTON_SQUARE
  else if (code =? 307)%Z then Some BUTTON_TRIANGLE
  else if (code =? 305)%Z then Some BUTTON_CIRCLE
  else if (code =? 304)%Z then Some BUTTON_CROSS
  else if (code =? 311)%Z then Some BUTTON_R1
  else if (code =? 313)%Z then Some BUTTON_R2
  else if (code =? 310)%Z then Some BUTTON_L1
  else if (code =? 312)%Z then Some BUTTON_L2
  else None.

(** A callable registered as a button handler.  A function of the
    application is known by its identity only (Python compares functions by
    identity); calling it is recorded and is assumed not to touch the
    controller.  The two bound methods are the ones [SixAxisResource]
    registers. *)
Inductive handler : Type :=
| user_function (f : nat)
| reset_axis_calibration_method
| set_axis_centres_method.

Definition handler_eqb (g h : handler) : bool :=
  match g, h with
  | user_function a, user_function b => Nat.eqb a b
  | reset_axis_calibration_method, reset_axis_calibration_method => true
  | set_axis_centres_method, set_axis_centres_method => true
  | _, _ => false
  end.

(** The dict [{'handler': button_handler, 'mask': mask}].  [reg_id] is the
    identity of the dict object; Python's [==] on dicts does not look at
    it. *)
Record registration : Type := mkReg {
  reg_id : nat;
  reg_handler : handler;
  mask : Z
}.

(** [g == h] on two registration dicts. *)
Definition reg_eqb (g h : registration) : bool :=
  handler_eqb (reg_handler g) (reg_handler h) && (mask g =? mask h)%Z.

(** [l.remove(h)]: drops the first item equal to [h]; [ValueError] when
    there is none. *)
Fixpoint list_remove (h : registration) (l : list registration)
  : result (list registration) :=
  match l with
  | [] => Raise ValueError
  | g :: l' =>
      if reg_eqb g h then Ok l'
      else (r <- list_remove h l' ;; Ok (g :: r))
  end.

(** [1 << button]; Python raises [ValueError] on a negative shift count. *)
Definition shl1 (button : Z) : result Z :=
  if (button <? 0)%Z then Raise ValueError else Ok (Z.shiftl 1 button).

(** The [buttons] argument of [register_button_handler]: a list, or
    anything else (a bare int). *)
Inductive buttons_arg : Type :=
| bare (button : Z)
| button_list (buttons : list Z).

(** The loop [for button in buttons: mask += 1 << button]. *)
Fixpoint mask_loop (mask : Z) (buttons : list Z) : result Z :=
  match buttons with
  | [] => Ok mask
  | button :: rest =>
      bit <- shl1 button ;;
      mask_loop (mask + bit)%Z rest
  end.

(** The [mask] that [register_button_handler] computes. *)
Definition build_mask (buttons : buttons_arg) : result Z :=
  match buttons with
  | button_list l => mask_loop 0%Z l
  | bare b => bit <- shl1 b ;; Ok (0 + bit)%Z
  end.

(** One call [handler(button)] made by the dispatch loop. *)
Definition call : Type := (handler * Z)%type.

(** A Python return value of [connect]. *)
Inductive pyval : Type :=
| PyNone
| PyBool (b : bool).

(** An opened [evdev.InputDevice]: its path and its [name]. *)
Record InputDevice : Type := mkDevice {
  fn : string;
  device_name : string
}.

(** ** SixAxis *)

Section SixAxisDef.

Context {F : Type} `{Num F}.
Local Open Scope num_scope.

(** The controller object.  [_stop_function] is [None] or the [stop] method
    of the reader thread, kept here as the path of the device whose channel
    it closes.  [allocated] counts the registration dicts created so far and
    supplies their identities. *)
Record SixAxis : Type := mkSixAxis {
  _stop_function : option string;
  axes : list (Axis F);
  button_handlers : list registration;
  buttons_pressed : Z;
  allocated : nat
}.

Definition with_stop_function (self : SixAxis) (f : option string) : SixAxis :=
  {| _stop_function := f; axes := axes self;
     button_handlers := button_handlers self;
     buttons_pressed := buttons_pressed self; allocated := allocated self |}.

Definition with_axes (self : SixAxis) (l : list (Axis F)) : SixAxis :=
  {| _stop_function := _stop_function self; axes := l;
     button_handlers := button_handlers self;
     buttons_pressed := buttons_pressed self; allocated := allocated self |}.

Definition with_buttons_pressed (self : SixAxis) (b : Z) : SixAxis :=
  {| _stop_function := _stop_function self; axes := axes self;
     button_handlers := button_handlers self;
     buttons_pressed := b; allocated := allocated self |}.

(** [SixAxis.__init__(dead_zone, hot_zone, connect, invert_axes)] for
    [invert_axes] a list, up to its last statement
    [if connect: self.connect()]: the whole body when [connect] is [False],
    its default.  [SixAxis_new] below is the constructor for any [connect]
    and for [invert_axes] possibly [None]. *)
Definition SixAxis_init (dead_zone hot_zone : F) (invert_axes : list bool)
  : result SixAxis :=
  match invert_axes with
  | [i0; i1; i2; i3] =>
      Ok {| _stop_function := None;
            axes := [ Axis_init "left_x" i0 dead_zone hot_zone;
                      Axis_init "left_y" i1 dead_zone hot_zone;
                      Axis_init "right_x" i2 dead_zone hot_zone;
                      Axis_init "right_y" i3 dead_zone hot_zone ];
            button_handlers := [];
            buttons_pressed := 0;
            allocated := 0 |}
  | _ => Raise AssertionError
  end.

(** [is_connected()] *)
Definition is_connected (self : SixAxis) : bool :=
  match _stop_function self with
  | Some _ => true
  | None => false
  end.

(** [get_and_clear_button_press_history()]: the returned bitfield and the
    updated controller. *)
Definition get_and_clear_button_press_history (self : SixAxis)
  : Z * SixAxis :=
  let old_buttons := buttons_pressed self in
  (old_buttons, with_buttons_pressed self 0).

(** [find_controller_device()], the local function of [connect], over the
    list [[InputDevice(fn) for fn in list_devices()]]. *)
Fixpoint find_controller_device (controller_name : string)
  (devices : list InputDevice) : result InputDevice :=
  match devices with
  | [] => Raise IOError
  | device :: rest =>
      if String.eqb (device_name device) controller_name then Ok device
      else find_controller_device controller_name rest
  end.

(** [_start_device_read_loop(device)]: starts the reader thread and keeps
    its [stop] method. *)
Definition _start_device_read_loop (self : SixAxis) (device : InputDevice)
  : SixAxis :=
  with_stop_function self (Some (fn device)).

(** [connect(dev, controller_name)].  [devices] is what device discovery
    finds on the host, and [opened] is the device [InputDevice(dev)] yields
    for a given path.  The result is the value the call returns and the
    updated controller.  The source's body ends after
    [self._start_device_read_loop(device)] with no [return] statement. *)
Definition connect (self : SixAxis) (dev : option string)
  (controller_name : string) (devices : list InputDevice)
  (opened : string -> InputDevice) : result (pyval * SixAxis) :=
  match _stop_function self with
  | Some _ => Ok (PyBool false, self)
  | None =>
      device <- match dev with
                | None => find_controller_device controller_name devices
                | Some path => Ok (opened path)
                end ;;
      Ok (PyNone, _start_device_read_loop self device)
  end.

(** [disconnect()] *)
Definition disconnect (self : SixAxis) : SixAxis :=
  match _stop_function self with
  | Some _ => with_stop_function self None
  | None => self
  end.

(** [set_axis_centres()] *)
Definition set_axis_centres (self : SixAxis) : SixAxis :=
  with_axes self (map set_centre (axes self)).

(** [reset_axis_calibration()] *)
Definition reset_axis_calibration (self : SixAxis) : SixAxis :=
  with_axes self (map _reset (axes self)).

(** [register_button_handler(button_handler, buttons)]: the updated
    controller and the dict [h] the returned [remove] closure holds. *)
Definition register_button_handler (self : SixAxis) (button_handler : handler)
  (buttons : buttons_arg) : result (SixAxis * registration) :=
  mask <- build_mask buttons ;;
  let h := {| reg_id := allocated self;
              reg_handler := button_handler;
              mask := mask |} in
  Ok ({| _stop_function := _stop_function self;
         axes := axes self;
         button_handlers := button_handlers self ++ [h];
         buttons_pressed := buttons_pressed self;
         allocated := S (allocated self) |}, h).

(** The closure [remove] returned by [register_button_handler], for the
    dict [h] it captured: [self.button_handlers.remove(h)]. *)
Definition remove (h : registration) (self : SixAxis) : result SixAxis :=
  l <- list_remove h (button_handlers self) ;;
  Ok {| _stop_function := _stop_function self;
        axes := axes self;
        button_handlers := l;
        buttons_pressed := buttons_pressed self;
        allocated := allocated self |}.

(** [is_pressed(button)] *)
Definition is_pressed (self : SixAxis) (button : Z) : result bool :=
  bit <- shl1 button ;;
  Ok (negb (Z.land (buttons_pressed self) bit =? 0)%Z).

(** [self.axes[i]._set(value)] *)
Definition set_axis (self : SixAxis) (i : nat) (v : F) : result SixAxis :=
  match nth_error (axes self) i with
  | Some axis =>
      Ok (with_axes self
            (firstn i (axes self) ++ _set axis v :: skipn (S i) (axes self)))
  | None => Raise IndexError
  end.

(** The call [button_handler['handler'](button)] for a function of the
    application that returns without touching the controller;
    [call_handler_app] below is the call for any function. *)
Definition call_handler (self : SixAxis) (h : handler) (button : Z)
  : SixAxis :=
  match h with
  | user_function _ => self
  | reset_axis_calibration_method => reset_axis_calibration self
  | set_axis_centres_method => set_axis_centres self
  end.

(** The loop [for button_handler in self.button_handlers] of
    [handle_event]; the calls it makes are collected in order. *)
Fixpoint dispatch (self : SixAxis) (handlers : list registration)
  (button bitmask : Z) : SixAxis * list call :=
  match handlers with
  | [] => (self, [])
  | button_handler :: rest =>
      if negb (Z.land (mask button_handler) bitmask =? 0)%Z then
        let self' := call_handler self (reg_handler button_handler) button in
        let '(self'', calls) := dispatch self' rest button bitmask in
        (self'', (reg_handler button_handler, button) :: calls)
      else dispatch self rest button bitmask
  end.

(** [handle_event(event)]: the updated controller and the handler calls
    made, in order. *)
Definition handle_event (self : SixAxis) (event : event)
  : result (SixAxis * list call) :=
  if (ev_type event =? ecodes.EV_ABS)%Z then
    v <- float_of_int (ev_value event) / lit 255 ;;
    let v := if v <? lit 0 then lit 0
             else if v >? lit 1 then lit 1
             else v in
    if (ev_code event =? 0)%Z then
      (s <- set_axis self 0 v ;; Ok (s, []))
    else if (ev_code event =? 1)%Z then
      (s <- set_axis self 1 v ;; Ok (s, []))
    else if (ev_code event =? 3)%Z then
      (s <- set_axis self 2 v ;; Ok (s, []))
    else if (ev_code event =? 4)%Z then
      (s <- set_axis self 3 v ;; Ok (s, []))
    else Ok (self, [])
  else if (ev_type event =? ecodes.EV_KEY)%Z then
    match button_of_code (ev_code event) with
    | Some button =>
        let bitmask := Z.shiftl 1 button in
        if (ev_value event =? 1)%Z then
          let self' :=
            with_buttons_pressed self (Z.lor (buttons_pressed self) bitmask) in
          Ok (dispatch self' (button_handlers self') button bitmask)
        else
          Ok (with_buttons_pressed self
                (Z.land (buttons_pressed self) (Z.lnot bitmask)), [])
    | None => Ok (self, [])
    end
  else Ok (self, []).

(** [SixAxisResource(bind_defaults, dead_zone, hot_zone, invert_axes)
    .__enter__()] for [invert_axes] a list, with the default controller
    name.  [SixAxisResource_enter_opt] below takes [invert_axes] as the
    resource does, with [None] for its default. *)
Definition SixAxisResource_enter (bind_defaults : bool)
  (dead_zone hot_zone : F) (invert_axes : list bool)
  (devices : list InputDevice) (opened : string -> InputDevice)
  : result SixAxis :=
  joystick <- SixAxis_init dead_zone hot_zone invert_axes ;;
  c <- connect joystick None "PLAYSTATION(R)3 Controller" devices opened ;;
  let joystick := snd c in
  if bind_defaults then
    r1 <- register_button_handler joystick reset_axis_calibration_method
            (bare BUTTON_START) ;;
    r2 <- register_button_handler (fst r1) set_axis_centres_method
            (bare BUTTON_SELECT) ;;
    Ok (fst r2)
  else Ok joystick.

End SixAxisDef.

Arguments SixAxis F : clear implicits.

(** ** Runs: sequences of operations *)

(** The operations that update one axis. *)
Inductive axis_op (F : Type) : Type :=
| op_set (raw : F)
| op_centre
| op_reset.

Arguments op_set {F} raw.
Arguments op_centre {F}.
Arguments op_reset {F}.

Definition axis_step {F : Type} `{Num F} (a : Axis F) (o : axis_op F)
  : Axis F :=
  match o with
  | op_set raw => _set a raw
  | op_centre => set_centre a
  | op_reset => _reset a
  end.

Definition axis_run {F : Type} `{Num F} (a : Axis F) (ops : list (axis_op F))
  : Axis F :=
  fold_left axis_step ops a.

(** The events of a list delivered in order; the calls of all of them. *)
Fixpoint handle_events {F : Type} `{Num F} (self : SixAxis F)
  (events : list event) : result (SixAxis F * list call) :=
  match events with
  | [] => Ok (self, [])
  | e :: rest =>
      r <- handle_event self e ;;
      r' <- handle_events (fst r) rest ;;
      Ok (fst r', snd r ++ snd r')
  end.

(** ** Handlers of the application

    A handler the application registers is a Python callable: called with
    the button code, it can use the controller it was registered on
    (register or remove registrations, drain the press history, change the
    calibration, disconnect) and it can raise.  [application] gives, for
    the function of identity [f], what a call [f(button)] does to the
    controller and whether it raises.  [call_handler], [dispatch],
    [handle_event] and [handle_events] above are the case of functions
    that return without touching the controller ([quiet], see
    [handle_event_app_quiet]); the definitions below are [handle_event] for
    any application.

    The loop [for button_handler in self.button_handlers] runs over the
    list itself, by position: a registration a handler removes or appends
    while the loop runs moves the registrations the loop has not reached
    yet.  The handlers reach the list through [register_button_handler] and
    the capabilities it returns, which change it in place.  A handler can
    keep appending, so the loop is given [fuel]; [None] is a loop that has
    not ended within it. *)

Section Application.

Context {F : Type} `{Num F}.
Local Open Scope num_scope.

Definition application : Type :=
  nat -> Z -> SixAxis F -> SixAxis F * option exn.

(** Functions that return without touching the controller. *)
Definition quiet : application := fun _ _ self => (self, None).

(** The controller after a call, the handler calls made in order, and the
    exception that ended the call, if any. *)
Definition outcome : Type := (SixAxis F * list call * option exn)%type.

(** The call [button_handler['handler'](button)]. *)
Definition call_handler_app (app : application) (self : SixAxis F)
  (h : handler) (button : Z) : SixAxis F * option exn :=
  match h with
  | user_function f => app f button self
  | reset_axis_calibration_method => (reset_axis_calibration self, None)
  | set_axis_centres_method => (set_axis_centres self, None)
  end.

(** The loop [for button_handler in self.button_handlers] of
    [handle_event], at position [i] of the list as it is now. *)
Fixpoint dispatch_live (app : application) (fuel : nat) (i : nat)
  (self : SixAxis F) (button bitmask : Z) : option outcome :=
  match fuel with
  | O => None
  | S fuel' =>
      match nth_error (button_handlers self) i with
      | None => Some (self, [], None)
      | Some button_handler =>
          if negb (Z.land (mask button_handler) bitmask =? 0)%Z then
            let h := reg_handler button_handler in
            match call_handler_app app self h button with
            | (self', Some e) => Some (self', [(h, button)], Some e)
            | (self', None) =>
                match dispatch_live app fuel' (S i) self' button bitmask with
                | Some (s, calls, e) => Some (s, (h, button) :: calls, e)
                | None => None
                end
            end
          else dispatch_live app fuel' (S i) self button bitmask
      end
  end.

(** [self.axes[i]._set(value)] as a step of [handle_event]: an
    [IndexError] leaves the controller as it is. *)
Definition store_sample (self : SixAxis F) (i : nat) (v : F) : option outcome :=
  match set_axis self i v with
  | Ok s => Some (s, [], None)
  | Raise e => Some (self, [], Some e)
  end.

(** [handle_event(event)] for any application. *)
Definition handle_event_app (app : application) (fuel : nat)
  (self : SixAxis F) (event : event) : option outcome :=
  if (ev_type event =? ecodes.EV_ABS)%Z then
    match float_of_int (ev_value event) / lit 255 with
    | Raise e => Some (self, [], Some e)
    | Ok v =>
        let v := if v <? lit 0 then lit 0
                 else if v >? lit 1 then lit 1
                 else v in
        if (ev_code event =? 0)%Z then store_sample self 0 v
        else if (ev_code event =? 1)%Z then store_sample self 1 v
        else if (ev_code event =? 3)%Z then store_sample self 2 v
        else if (ev_code event =? 4)%Z then store_sample self 3 v
        else Some (self, [], None)
    end
  else if (ev_type event =? ecodes.EV_KEY)%Z then
    match button_of_code (ev_code event) with
    | Some button =>
        let bitmask := Z.shiftl 1 button in
        if (ev_value event =? 1)%Z then
          let self' :=
            with_buttons_pressed self (Z.lor (buttons_pressed self) bitmask) in
          dispatch_live app fuel 0 self' button bitmask
        else
          Some (with_buttons_pressed self
                  (Z.land (buttons_pressed self) (Z.lnot bitmask)), [], None)
    | None => Some (self, [], None)
    end
  else Some (self, [], None).

(** The events of a list delivered in order, up to the first that
    raises. *)
Fixpoint handle_events_app (app : application) (fuel : nat)
  (self : SixAxis F) (events : list event) : option outcome :=
  match events with
  | [] => Some (self, [], None)
  | e :: rest =>
      match handle_event_app app fuel self e with
      | None => None
      | Some (s, calls, Some exc) => Some (s, calls, Some exc)
      | Some (s, calls, None) =>
          match handle_events_app app fuel s rest with
          | Some (s', calls', exc) => Some (s', calls ++ calls', exc)
          | None => None
          end
      end
  end.

(** The call [f(button)] returns normally, whatever the state of the
    controller, and changes neither the registrations nor the button
    bitfield. *)
Definition keeps_registry_and_buttons (app : application) (f : nat)
  (button : Z) : Prop :=
  forall s, exists s',
    app f button s = (s', None) /\
    button_handlers s' = button_handlers s /\
    buttons_pressed s' = buttons_pressed s.

(** The same for a registered handler; the two bound methods of the
    controller do so by themselves. *)
Definition handler_keeps (app : application) (h : handler) (button : Z)
  : Prop :=
  match h with
  | user_function f => keeps_registry_and_buttons app f button
  | reset_axis_calibration_method => True
  | set_axis_centres_method => True
  end.

(** The registrations of [l] that a press of [button] calls all have such
    a handler. *)
Definition called_handlers_keep (app : application) (l : list registration)
  (button : Z) : Prop :=
  forall r, In r l ->
    Z.land (mask r) (Z.shiftl 1 button) <> 0%Z ->
    handler_keeps app (reg_handler r) button.

(** The call [f(button)] returns normally, whatever the state of the
    controller, leaves the registrations as they are and does not clear the
    bit of [button]. *)
Definition keeps_registry_and_bit (app : application) (f : nat)
  (button : Z) : Prop :=
  forall s, exists s',
    app f button s = (s', None) /\
    button_handlers s' = button_handlers s /\
    (Z.testbit (buttons_pressed s) button = true ->
     Z.testbit (buttons_pressed s') button = true).

Definition handler_keeps_bit (app : application) (h : handler) (button : Z)
  : Prop :=
  match h with
  | user_function f => keeps_registry_and_bit app f button
  | reset_axis_calibration_method => True
  | set_axis_centres_method => True
  end.

(** The registrations of [l] that a press of [button] calls all have such
    a handler. *)
Definition called_handlers_keep_bit (app : application)
  (l : list registration) (button : Z) : Prop :=
  forall r, In r l ->
    Z.land (mask r) (Z.shiftl 1 button) <> 0%Z ->
    handler_keeps_bit app (reg_handler r) button.

(** No function of the application changes the number of axes. *)
Definition keeps_axes_count (app : application) : Prop :=
  forall f button s,
    List.length (axes (fst (app f button s))) = List.length (axes s).

(** The [value] field of an evdev event is a signed 32-bit integer. *)
Definition signed_32 (v : Z) : Prop := (- 2 ^ 31 <= v < 2 ^ 31)%Z.

(** [SixAxis(dead_zone, hot_zone, connect, invert_axes)] in full: with
    [invert_axes] possibly [None], for which [len(invert_axes)] raises
    [TypeError], and with the final [if connect: self.connect()].
    [SixAxis_init] is the construction before that last statement. *)
Definition SixAxis_new (dead_zone hot_zone : F) (connect_now : bool)
  (invert_axes : option (list bool)) (devices : list InputDevice)
  (opened : string -> InputDevice) : result (SixAxis F) :=
  match invert_axes with
  | None => Raise TypeError
  | Some l =>
      self <- SixAxis_init dead_zone hot_zone l ;;
      if connect_now then
        c <- connect self None "PLAYSTATION(R)3 Controller" devices opened ;;
        Ok (snd c)
      else Ok self
  end.

(** [SixAxisResource(bind_defaults, dead_zone, hot_zone, invert_axes)
    .__enter__()] with [invert_axes] as the constructor of the resource
    takes it: a list, or [None], its default. *)
Definition SixAxisResource_enter_opt (bind_defaults : bool)
  (dead_zone hot_zone : F) (invert_axes : option (list bool))
  (devices : list InputDevice) (opened : string -> InputDevice)
  : result (SixAxis F) :=
  joystick <- SixAxis_new dead_zone hot_zone false invert_axes devices opened ;;
  c <- connect joystick None "PLAYSTATION(R)3 Controller" devices opened ;;
  let joystick := snd c in
  if bind_defaults then
    r1 <- register_button_handler joystick reset_axis_calibration_method
            (bare BUTTON_START) ;;
    r2 <- register_button_handler (fst r1) set_axis_centres_method
            (bare BUTTON_SELECT) ;;
    Ok (fst r2)
  else Ok joystick.

End Application.

Arguments application F : clear implicits.
Arguments outcome F : clear implicits.

(** ** Calibration states on doubles

    [handle_event] feeds an axis the samples [k / 255.0], clamped to
    [0, 1].  The bounds of an axis are therefore the initial 0.1 and 0.9 or
    samples beyond them, and its centre is 0.5 or a sample. *)

(** The value [handle_event] passes to [_set] for an event value [k]. *)
Definition sample (k : Z) : float :=
  match div (float_of_int k) (lit 255) with
  | Ok v => if ltb v (lit 0) then lit 0
            else if ltb (lit 1) v then lit 1
            else v
  | Raise _ => lit 0
  end.

Definition samples : list float :=
  map (fun k => sample (Z.of_nat k)) (seq 0 256).

Definition reachable_mins : list float :=
  lit 0.1 :: filter (fun v => ltb v (lit 0.1)) samples.

Definition reachable_maxs : list float :=
  lit 0.9 :: filter (fun v => ltb (lit 0.9) v) samples.

Definition reachable_centres : list float := lit 0.5 :: samples.

(** An axis with the given calibration and value, not inverted, with no hot
    zone. *)
Definition axis_at {F : Type} `{Num F} (dz mn c mx v : F) : Axis F :=
  {| name := "left_x"; centre := c; max := mx; min := mn; value := v;
     invert := false; dead_zone := dz; hot_zone := lit 0 |}.

(** [r == x] for a returned double, as Python's [==] decides it. *)
Definition returns (r : result float) (x : float) : bool :=
  match r with
  | Ok v => PrimFloat.eqb v x
  | Raise _ => false
  end.

(** The three landmark values of an axis calibrated to [mn < c < mx]. *)
Definition landmarks_ok (dz mn c mx : float) : bool :=
  returns (corrected_value (axis_at dz mn c mx mx)) 1%float &&
  returns (corrected_value (axis_at dz mn c mx mn)) (-1)%float &&
  returns (corrected_value (axis_at dz mn c mx c)) 0%float.

Definition landmarks_ok_on_grid (dz : float) : bool :=
  forallb (fun mn =>
    forallb (fun mx =>
      forallb (fun c =>
        implb (PrimFloat.ltb mn c && PrimFloat.ltb c mx)
              (landmarks_ok dz mn c mx))
        reachable_centres)
      reachable_maxs)
    reachable_mins.

(** ** What the specification asks of the registry *)

(** The mask of a registration as the specification words it: the bitwise
    OR of [1 << code] over the codes supplied. *)
Definition spec_mask (codes : list Z) : Z :=
  fold_left (fun m code => Z.lor m (Z.shiftl 1 code)) codes 0%Z.

(** Removing exactly the registration [h] itself: the dict of that
    identity, and nothing else. *)
Definition remove_own (h : registration) (l : list registration)
  : list registration :=
  filter (fun g => negb (Nat.eqb (reg_id g) (reg_id h))) l.

(** The handlers a press of [button] must fire, in registration order. *)
Definition matching_calls (l : list registration) (button : Z) : list call :=
  map (fun r => (reg_handler r, button))
      (filter (fun r => negb (Z.land (mask r) (Z.shiftl 1 button) =? 0)%Z) l).

(** ** The zones of an axis

    The local variables of [corrected_value], as functions of the axis. *)

Section Zones.

Context {F : Type} `{Num F}.
Local Open Scope num_scope.

Definition high_start (self : Axis F) : F :=
  centre self + dead_zone self * (max self - centre self).

Definition high_end (self : Axis F) : F :=
  max self - hot_zone self * (max self - centre self).

Definition low_start (self : Axis F) : F :=
  centre self - dead_zone self * (centre self - min self).

Definition low_end (self : Axis F) : F :=
  min self + hot_zone self * (centre self - min self).

(** The axis [self] holding the raw value [v], calibration untouched. *)
Definition axis_with_value (self : Axis F) (v : F) : Axis F :=
  {| name := name self; centre := centre self; max := max self;
     min := min self; value := v; invert := invert self;
     dead_zone := dead_zone self; hot_zone := hot_zone self |}.

(** The axis [self] built with another [invert] flag. *)
Definition axis_with_invert (self : Axis F) (i : bool) : Axis F :=
  {| name := name self; centre := centre self; max := max self;
     min := min self; value := value self; invert := i;
     dead_zone := dead_zone self; hot_zone := hot_zone self |}.

End Zones.

(** The branch [corrected_value] takes and the value [r] it computes
    before the inversion. *)
Definition correction_case (a : Axis Q) (r : Q) : Prop :=
  let v := value a in
  (high_start a < v /\ high_end a < v /\ r = 1) \/
  (high_start a < v /\ v <= high_end a /\
   r = (v - high_start a) / (high_end a - high_start a) /\
   0 < r /\ r <= 1) \/
  (v <= high_start a /\ v < low_start a /\ v < low_end a /\ r = -1) \/
  (v <= high_start a /\ v < low_start a /\ low_end a <= v /\
   r = (v - low_start a) / (low_start a - low_end a) /\
   -1 <= r /\ r < 0) \/
  (v <= high_start a /\ low_start a <= v /\ r = 0).

(** [SixAxisResource.__exit__()] *)
Definition SixAxisResource_exit {F : Type} `{Num F} (joystick : SixAxis F)
  : SixAxis F :=
  disconnect joystick.

(** A run of raw samples fed to one axis. *)
Definition feed {F : Type} `{Num F} (a : Axis F) (samples : list F) : Axis F :=
  fold_left _set samples a.

(** The value of the last key event of [events] that addresses [button],
    if there is one. *)
Fixpoint last_key_value (button : Z) (events : list event) : option Z :=
  match events with
  | [] => None
  | e :: rest =>
      match last_key_value button rest with
      | Some v => Some v
      | None =>
          if (ev_type e =? ecodes.EV_KEY)%Z then
            match button_of_code (ev_code e) with
            | Some b => if (b =? button)%Z then Some (ev_value e) else None
            | None => None
            end
          else None
      end
  end.

(** Whether every event of a list is a key event. *)
Definition key_events (events : list event) : Prop :=
  Forall (fun e => ev_type e = ecodes.EV_KEY) events.

(** The two registrations [SixAxisResource.__enter__] makes with
    [bind_defaults], on a controller that has made [n] registrations. *)
Definition default_registrations (n : nat) : list registration :=
  [ {| reg_id := n; reg_handler := reset_axis_calibration_method;
       mask := Z.shiftl 1 BUTTON_START |};
    {| reg_id := S n; reg_handler := set_axis_centres_method;
       mask := Z.shiftl 1 BUTTON_SELECT |} ].

(** ** Calibration bounds, read exactly

    [_set], [_reset] and [set_centre] only compare and copy numbers, so what
    is proved here about the order of [min], [centre], [value] and [max]
    over [Q] holds for the doubles they are. *)

Definition bounds_ordered (a : Axis Q) : Prop := min a <= max a.

Definition centre_in_bounds (a : Axis Q) : Prop :=
  min a <= centre a /\ centre a <= max a.

Definition value_in_bounds (a : Axis Q) : Prop :=
  min a <= value a /\ value a <= max a.

(** Every [set_axis_centres] of a run finds the value of the axis within
    its bounds. *)
Fixpoint recentres_within_bounds (a : Axis Q) (ops : list (axis_op Q))
  : Prop :=
  match ops with
  | [] => True
  | op_centre :: rest =>
      value_in_bounds a /\ recentres_within_bounds (set_centre a) rest
  | o :: rest => recentres_within_bounds (axis_step a o) rest
  end.

Lemma Qltb_lt (x y : Q) : Qltb x y = true <-> x < y.
Proof.
  unfold Qltb. rewrite negb_true_iff.
  split; intro Hxy.
  - apply Qnot_le_lt. intro Hle. apply Qle_bool_iff in Hle. congruence.
  - destruct (Qle_bool y x) eqn:E; [|reflexivity].
    apply Qle_bool_iff in E. exfalso. apply (Qlt_not_le _ _ Hxy E).
Qed.

Lemma Qltb_ge (x y : Q) : Qltb x y = false <-> y <= x.
Proof.
  unfold Qltb. rewrite negb_false_iff. apply Qle_bool_iff.
Qed.

Ltac case_ltb :=
  match goal with
  | |- context [Qltb ?x ?y] =>
      let E := fresh "E" in
      destruct (Qltb x y) eqn:E;
      [apply Qltb_lt in E | apply Qltb_ge in E]
  end.

(** Runs a call that returns: the goal [exists s, call = Ok s /\ _] is
    split with the value the call evaluates to. *)
Ltac run_ok :=
  match goal with
  | |- exists s, ?call = Ok s /\ _ =>
      let r := eval vm_compute in call in
      match r with
      | Ok ?v => exists v; split; [vm_compute; reflexivity|]
      end
  end.

Ltac run_ok_calls :=
  match goal with
  | |- exists s, ?call = Ok (s, _) /\ _ =>
      let r := eval vm_compute in call in
      match r with
      | Ok (?v, _) => exists v; split; [vm_compute; reflexivity|]
      end
  end.

Ltac run_ok2 :=
  match goal with
  | |- exists s h, ?call = Ok (s, h) /\ _ =>
      let r := eval vm_compute in call in
      match r with
      | Ok (?v, ?w) => exists v, w; split; [vm_compute; reflexivity|]
      end
  end.

Lemma _set_value (a : Axis Q) (r : Q) : value (_set a r) = r.
Proof.
  unfold _set; cbn. repeat case_ltb; reflexivity.
Qed.

Lemma _set_cases (a : Axis Q) (r : Q) :
  (max a < r /\ max (_set a r) = r /\ min (_set a r) = min a) \/
  (r <= max a /\ r < min a /\ min (_set a r) = r /\ max (_set a r) = max a) \/
  (min a <= r /\ r <= max a /\
   min (_set a r) = min a /\ max (_set a r) = max a).
Proof.
  unfold _set; cbn. repeat case_ltb; cbn; auto 10.
Qed.

Lemma _set_centre (a : Axis Q) (r : Q) : centre (_set a r) = centre a.
Proof.
  unfold _set; cbn. repeat case_ltb; reflexivity.
Qed.

Lemma _set_bounds_ordered (a : Axis Q) (r : Q) :
  bounds_ordered a -> bounds_ordered (_set a r).
Proof.
  unfold bounds_ordered. intro Hb.
  destruct (_set_cases a r) as [(H1 & -> & ->) | [(H1 & H2 & -> & ->) | (H1 & H2 & -> & ->)]];
    lra.
Qed.

Lemma _set_value_in_bounds (a : Axis Q) (r : Q) :
  bounds_ordered a -> value_in_bounds (_set a r).
Proof.
  unfold bounds_ordered, value_in_bounds. intro Hb.
  rewrite _set_value.
  destruct (_set_cases a r) as [(H1 & -> & ->) | [(H1 & H2 & -> & ->) | (H1 & H2 & -> & ->)]];
    lra.
Qed.

Lemma _set_centre_in_bounds (a : Axis Q) (r : Q) :
  centre_in_bounds a -> centre_in_bounds (_set a r).
Proof.
  unfold centre_in_bounds. intro Hc. rewrite _set_centre.
  destruct (_set_cases a r) as [(H1 & -> & ->) | [(H1 & H2 & -> & ->) | (H1 & H2 & -> & ->)]];
    lra.
Qed.

Lemma _reset_centre_in_bounds (a : Axis Q) : centre_in_bounds (_reset a).
Proof.
  unfold centre_in_bounds; cbn. lra.
Qed.

Lemma _reset_bounds_ordered (a : Axis Q) : bounds_ordered (_reset a).
Proof.
  unfold bounds_ordered; cbn. lra.
Qed.

Lemma set_centre_centre_in_bounds (a : Axis Q) :
  centre_in_bounds (set_centre a) <-> value_in_bounds a.
Proof.
  unfold centre_in_bounds, value_in_bounds; cbn. tauto.
Qed.

Lemma axis_step_bounds_ordered (a : Axis Q) (o : axis_op Q) :
  bounds_ordered a -> bounds_ordered (axis_step a o).
Proof.
  destruct o; cbn.
  - apply _set_bounds_ordered.
  - trivial.
  - intros _. apply _reset_bounds_ordered.
Qed.

Lemma Axis_init_bounds_ordered n i dz hz :
  bounds_ordered (Axis_init (F:=Q) n i dz hz).
Proof.
  unfold bounds_ordered; cbn. lra.
Qed.

Lemma axis_run_bounds_ordered (ops : list (axis_op Q)) (a : Axis Q) :
  bounds_ordered a -> bounds_ordered (axis_run a ops).
Proof.
  revert a. induction ops as [|o ops IH]; intros a Ha; cbn.
  - exact Ha.
  - apply IH. apply axis_step_bounds_ordered. exact Ha.
Qed.

(** ** The raw update [_set] *)

(** C3 (amended).  After [_set] with a raw sample [r] in [0,1], in any
    state reached from a fresh axis: [value] is [r]; [min <= max]; at most
    one bound moves ([max] becomes [r] when [r > max], else [min] becomes
    [r] when [r < min], else neither), and [min <= value <= max] holds as
    well. *)
Theorem set_postcondition :
  forall (n : string) (i : bool) (dz hz : Q) (ops : list (axis_op Q)) (r : Q),
    0 <= r <= 1 ->
    let a := axis_run (Axis_init n i dz hz) ops in
    let a' := _set a r in
    value a' = r /\
    min a' <= max a' /\
    ((max a < r /\ max a' = r /\ min a' = min a) \/
     (r <= max a /\ r < min a /\ min a' = r /\ max a' = max a) \/
     (min a <= r /\ r <= max a /\ min a' = min a /\ max a' = max a)) /\
    (min a' <= value a' /\ value a' <= max a').
Proof.
  intros n i dz hz ops r _ a a'.
  assert (Ha : bounds_ordered a)
    by (apply axis_run_bounds_ordered, Axis_init_bounds_ordered).
  repeat split.
  - apply _set_value.
  - apply (_set_bounds_ordered a r Ha).
  - apply _set_cases.
  - apply (_set_value_in_bounds a r Ha).
  - apply (_set_value_in_bounds a r Ha).
Qed.

Lemma set_postcondition_witness :
  0 <= 1 <= 1 /\
  let a := axis_run (Axis_init "left_x" false 0.05 0) [op_set 0.95; op_reset] in
  let a' := _set a 1 in
  value a' = 1 /\
  min a' <= max a' /\
  ((max a < 1 /\ max a' = 1 /\ min a' = min a) \/
   (1 <= max a /\ 1 < min a /\ min a' = 1 /\ max a' = max a) \/
   (min a <= 1 /\ 1 <= max a /\ min a' = min a /\ max a' = max a)) /\
  (min a' <= value a' /\ value a' <= max a').
Proof.
  assert (H01 : 0 <= 1 <= 1) by (split; discriminate).
  split; [exact H01|].
  exact (set_postcondition "left_x" false 0.05 0 [op_set 0.95; op_reset] 1 H01).
Defined.

(** C3, last part as stated: there is no state reached from a fresh axis
    and no sample in [0,1] after whose [_set] the value lies outside
    [min, max]. *)
Lemma set_never_leaves_value_outside_bounds :
  ~ exists (n : string) (i : bool) (dz hz : Q) (ops : list (axis_op Q)) (r : Q),
      0 <= r <= 1 /\
      let a' := _set (axis_run (Axis_init n i dz hz) ops) r in
      ~ (min a' <= value a' /\ value a' <= max a').
Proof.
  intros (n & i & dz & hz & ops & r & _ & Hbad).
  apply Hbad.
  apply _set_value_in_bounds, axis_run_bounds_ordered, Axis_init_bounds_ordered.
Qed.

(** ** The invariant [min <= centre <= max] *)

Lemma axis_step_centre_in_bounds (a : Axis Q) (o : axis_op Q) :
  centre_in_bounds a ->
  (o = op_centre -> value_in_bounds a) ->
  centre_in_bounds (axis_step a o).
Proof.
  intros Hc Hv. destruct o; cbn.
  - apply _set_centre_in_bounds. exact Hc.
  - apply set_centre_centre_in_bounds. apply Hv. reflexivity.
  - apply _reset_centre_in_bounds.
Qed.

Lemma recentres_within_bounds_iff (ops : list (axis_op Q)) :
  forall a : Axis Q,
    centre_in_bounds a ->
    (recentres_within_bounds a ops <->
     forall k : nat, centre_in_bounds (axis_run a (firstn k ops))).
Proof.
  induction ops as [|o ops IH]; intros a Hc.
  - split; [intros _ k; destruct k; exact Hc | intros _; exact I].
  - split.
    + intros Hr k. destruct k as [|k]; [exact Hc|].
      cbn [firstn axis_run fold_left]. fold (axis_run (axis_step a o)).
      destruct o; cbn [recentres_within_bounds] in Hr.
      * apply IH; [apply _set_centre_in_bounds; exact Hc | exact Hr].
      * destruct Hr as [Hv Hr].
        apply IH; [apply set_centre_centre_in_bounds; exact Hv | exact Hr].
      * apply IH; [apply _reset_centre_in_bounds | exact Hr].
    + intro Hall.
      assert (H1 : centre_in_bounds (axis_step a o)) by exact (Hall 1%nat).
      assert (Hrest : forall k,
                 centre_in_bounds (axis_run (axis_step a o) (firstn k ops)))
        by (intro k; exact (Hall (S k))).
      destruct o; cbn [recentres_within_bounds].
      * apply IH; assumption.
      * split; [apply set_centre_centre_in_bounds; exact H1|].
        apply IH; assumption.
      * apply IH; assumption.
Qed.

(** C2 (amended).  Starting from a fresh axis (centre 0.5, min 0.1, max
    0.9, value 0.5), [min <= centre <= max] holds after every operation of
    a run of [_set], [set_axis_centres] and [reset_axis_calibration] exactly
    when every [set_axis_centres] of the run finds the value of the axis
    within its bounds, [min <= value <= max]. *)
Theorem centre_stays_in_bounds :
  forall (n : string) (i : bool) (dz hz : Q) (ops : list (axis_op Q)),
    recentres_within_bounds (Axis_init n i dz hz) ops <->
    forall k : nat,
      let a := axis_run (Axis_init n i dz hz) (firstn k ops) in
      min a <= centre a /\ centre a <= max a.
Proof.
  intros n i dz hz ops.
  apply (recentres_within_bounds_iff ops (Axis_init n i dz hz)).
  unfold centre_in_bounds; cbn; lra.
Qed.

Lemma centre_stays_in_bounds_witness :
  let ops := [op_reset; op_centre; op_set 1; op_centre; op_reset;
              op_set 0.2; op_centre] in
  recentres_within_bounds (Axis_init "left_x" false 0.05 0) ops /\
  let a := axis_run (Axis_init "left_x" false 0.05 0) (firstn 7 ops) in
  min a <= centre a /\ centre a <= max a.
Proof.
  intro ops.
  assert (Hr : recentres_within_bounds (Axis_init "left_x" false 0.05 0) ops).
  { unfold ops, value_in_bounds. cbn.
    repeat split; discriminate. }
  split; [exact Hr|].
  exact (proj1 (centre_stays_in_bounds "left_x" false 0.05 0 ops) Hr 7%nat).
Defined.

(** C2 as stated fails: feed the raw value 1.0, reset the calibration, then
    recentre.  The reset keeps [value] (1.0) and puts [max] back to 0.9; the
    recentre then copies the value into [centre]. *)
Lemma centre_leaves_bounds_after_reset_and_recentre :
  let a := axis_run (Axis_init "left_x" false 0.05 0)
             [op_set 1; op_reset; op_centre] in
  centre a == 1 /\ max a == 0.9 /\ ~ (min a <= centre a /\ centre a <= max a).
Proof.
  cbn. repeat split; try reflexivity.
  intros [_ Hle]. revert Hle. apply Qlt_not_le. reflexivity.
Qed.

(** ** The correction, read exactly *)

Lemma Qdiv_ok (x y : Q) : ~ y == 0 -> div x y = Ok (Qdiv x y).
Proof.
  intro Hy. cbn. destruct (Qeq_bool y 0) eqn:E; [|reflexivity].
  apply Qeq_bool_iff in E. contradiction.
Qed.

Lemma dead_zone_edge_below (c m dz : Q) :
  c < m -> 0 <= dz -> dz < 1 -> c <= c + dz * (m - c) /\ c + dz * (m - c) < m.
Proof.
  intros Hcm H0 H1.
  assert (Hp : 0 <= dz * (m - c)) by (apply Qmult_le_0_compat; lra).
  assert (Hq : dz * (m - c) < 1 * (m - c))
    by (apply Qmult_lt_compat_r; lra).
  lra.
Qed.

Lemma corrected_value_Q_at_max (a : Axis Q) :
  centre a < max a -> hot_zone a == 0 ->
  0 <= dead_zone a -> dead_zone a < 1 -> invert a = false ->
  value a == max a ->
  exists r, corrected_value a = Ok r /\ r == 1.
Proof.
  intros Hcm Hhz H0 H1 Hinv Hv.
  destruct (dead_zone_edge_below _ _ _ Hcm H0 H1) as [Hlo Hhi].
  unfold corrected_value. rewrite Hinv.
  cbn [add sub mul ltb lit opp Num_Q negb].
  set (hs := centre a + dead_zone a * (max a - centre a)) in *.
  set (he := max a - hot_zone a * (max a - centre a)).
  assert (Hhe : he == max a) by (unfold he; rewrite Hhz; ring).
  assert (E1 : Qltb hs (value a) = true) by (apply Qltb_lt; lra).
  assert (E2 : Qltb he (value a) = false) by (apply Qltb_ge; lra).
  rewrite E1, E2.
  rewrite Qdiv_ok by lra.
  cbn [bind]. eexists; split; [reflexivity|].
  rewrite Hv, Hhe. field. lra.
Qed.

Lemma corrected_value_Q_at_min (a : Axis Q) :
  min a < centre a -> centre a < max a -> hot_zone a == 0 ->
  0 <= dead_zone a -> dead_zone a < 1 -> invert a = false ->
  value a == min a ->
  exists r, corrected_value a = Ok r /\ r == -1.
Proof.
  intros Hmc Hcm Hhz H0 H1 Hinv Hv.
  destruct (dead_zone_edge_below _ _ _ Hcm H0 H1) as [Hlo Hhi].
  assert (Hq : dead_zone a * (centre a - min a) < 1 * (centre a - min a))
    by (apply Qmult_lt_compat_r; lra).
  unfold corrected_value. rewrite Hinv.
  cbn [add sub mul ltb lit opp Num_Q negb].
  set (hs := centre a + dead_zone a * (max a - centre a)) in *.
  set (ls := centre a - dead_zone a * (centre a - min a)).
  set (le := min a + hot_zone a * (centre a - min a)).
  assert (Hls : min a < ls) by (unfold ls; lra).
  assert (Hle : le == min a) by (unfold le; rewrite Hhz; ring).
  assert (E1 : Qltb hs (value a) = false) by (apply Qltb_ge; lra).
  assert (E2 : Qltb (value a) ls = true) by (apply Qltb_lt; lra).
  assert (E3 : Qltb (value a) le = false) by (apply Qltb_ge; lra).
  rewrite E1, E2, E3.
  rewrite Qdiv_ok by lra.
  cbn [bind]. eexists; split; [reflexivity|].
  rewrite Hv, Hle. field. lra.
Qed.

Lemma corrected_value_Q_at_centre (a : Axis Q) :
  min a < centre a -> centre a < max a ->
  0 <= dead_zone a -> invert a = false ->
  value a == centre a ->
  exists r, corrected_value a = Ok r /\ r == 0.
Proof.
  intros Hmc Hcm H0 Hinv Hv.
  assert (Hp : 0 <= dead_zone a * (max a - centre a))
    by (apply Qmult_le_0_compat; lra).
  assert (Hq : 0 <= dead_zone a * (centre a - min a))
    by (apply Qmult_le_0_compat; lra).
  unfold corrected_value. rewrite Hinv.
  cbn [add sub mul ltb lit opp Num_Q negb].
  set (hs := centre a + dead_zone a * (max a - centre a)).
  set (ls := centre a - dead_zone a * (centre a - min a)).
  assert (E1 : Qltb hs (value a) = false) by (apply Qltb_ge; unfold hs; lra).
  assert (E2 : Qltb (value a) ls = false) by (apply Qltb_ge; unfold ls; lra).
  rewrite E1, E2.
  cbn [bind]. eexists; split; reflexivity.
Qed.

(** ** The correction on doubles *)

Lemma literals_are_doubles :
  lit (F:=float) 0.5 = 0.5%float /\
  lit (F:=float) 0.9 = 0.9%float /\
  lit (F:=float) 0.1 = 0.1%float /\
  lit (F:=float) 0.05 = 0.05%float /\
  lit (F:=float) 0.7 = 0.7%float /\
  lit (F:=float) 1 = 1%float /\
  lit (F:=float) 0 = 0%float /\
  lit (F:=float) 255 = 255%float.
Proof.
  repeat split; reflexivity.
Qed.

(** [sample k] is the value an axis event with value [k] stores in the
    axis it addresses. *)
Lemma handle_event_feeds_sample (self : SixAxis float) (k : Z)
  (a0 : Axis float) (rest : list (Axis float)) :
  axes self = a0 :: rest ->
  handle_event self (mkEvent ecodes.EV_ABS 0 k) =
    Ok (with_axes self (_set a0 (sample k) :: rest), []).
Proof.
  intro Hax. unfold handle_event, sample, set_axis.
  cbn [ev_type ev_code ev_value].
  change (ecodes.EV_ABS =? ecodes.EV_ABS)%Z with true. cbv iota.
  destruct (div (float_of_int k) (lit 255)) as [v|e] eqn:E.
  - cbn [bind]. change (0 =? 0)%Z with true. cbv iota.
    rewrite Hax. reflexivity.
  - exfalso. cbn in E.
    change (PrimFloat.eqb (float_lit 255) 0) with false in E.
    discriminate.
Qed.

Lemma landmarks_ok_on_default_grid :
  landmarks_ok_on_grid (lit 0.05) = true.
Proof.
  vm_compute. reflexivity.
Qed.

Lemma landmarks_ok_of_grid (dz mn c mx : float) :
  landmarks_ok_on_grid dz = true ->
  In mn reachable_mins -> In c reachable_centres -> In mx reachable_maxs ->
  PrimFloat.ltb mn c = true -> PrimFloat.ltb c mx = true ->
  landmarks_ok dz mn c mx = true.
Proof.
  unfold landmarks_ok_on_grid. intros Hall Hmn Hc Hmx H1 H2.
  rewrite forallb_forall in Hall. specialize (Hall mn Hmn).
  rewrite forallb_forall in Hall. specialize (Hall mx Hmx).
  rewrite forallb_forall in Hall. specialize (Hall c Hc).
  rewrite H1, H2 in Hall. exact Hall.
Qed.

(** Where the landmark values are returned in exact arithmetic: for every
    axis state with [min < centre < max], [hot_zone == 0], [dead_zone] in
    [0,1) and [invert = false], exactly 1 when [value == max], exactly -1
    when [value == min] and 0 when [value == centre].  The rounding of
    doubles breaks this for some dead zones, see below. *)
Lemma corrected_value_landmarks_exact (a : Axis Q) :
  min a < centre a -> centre a < max a -> hot_zone a == 0 ->
  0 <= dead_zone a -> dead_zone a < 1 -> invert a = false ->
  (value a == max a -> exists r, corrected_value a = Ok r /\ r == 1) /\
  (value a == min a -> exists r, corrected_value a = Ok r /\ r == -1) /\
  (value a == centre a -> exists r, corrected_value a = Ok r /\ r == 0).
Proof.
  intros Hmc Hcm Hhz H0 H1 Hinv. repeat split.
  - apply corrected_value_Q_at_max; assumption.
  - apply corrected_value_Q_at_min; assumption.
  - apply corrected_value_Q_at_centre; assumption.
Qed.

(** X26.  On doubles, with the default dead zone 0.05 and hot zone 0.0 and
    an axis that is not inverted, at every calibration [min < centre < max]
    that events can produce (bounds and centre among 0.1, 0.5, 0.9 and the
    samples [k / 255.0]), [corrected_value()] returns 1.0 when the value is
    [max], -1.0 when it is [min] and 0 when it is [centre]. *)
Theorem corrected_value_landmarks_default_zones :
  forall mn c mx : float,
    In mn reachable_mins -> In c reachable_centres -> In mx reachable_maxs ->
    PrimFloat.ltb mn c = true -> PrimFloat.ltb c mx = true ->
    returns (corrected_value (axis_at (lit 0.05) mn c mx mx)) 1%float = true /\
    returns (corrected_value (axis_at (lit 0.05) mn c mx mn)) (-1)%float = true /\
    returns (corrected_value (axis_at (lit 0.05) mn c mx c)) 0%float = true.
Proof.
  intros mn c mx Hmn Hc Hmx H1 H2.
  pose proof (landmarks_ok_of_grid _ mn c mx landmarks_ok_on_default_grid
                Hmn Hc Hmx H1 H2) as Hok.
  unfold landmarks_ok in Hok.
  apply andb_true_iff in Hok. destruct Hok as [Hok H3].
  apply andb_true_iff in Hok. destruct Hok as [Ha Hb].
  repeat split; assumption.
Qed.

Lemma corrected_value_landmarks_default_zones_witness :
  In (lit 0.1) reachable_mins /\ In (lit 0.5) reachable_centres /\
  In (sample 255) reachable_maxs /\
  PrimFloat.ltb (lit 0.1) (lit 0.5) = true /\
  PrimFloat.ltb (lit 0.5) (sample 255) = true /\
  returns (corrected_value
             (axis_at (lit 0.05) (lit 0.1) (lit 0.5) (sample 255) (sample 255)))
          1%float = true.
Proof.
  assert (Hmn : In (lit 0.1) reachable_mins)
    by (unfold reachable_mins; apply in_eq).
  assert (Hc : In (lit 0.5) reachable_centres)
    by (unfold reachable_centres; apply in_eq).
  assert (Hmx : In (sample 255) reachable_maxs).
  { unfold reachable_maxs, samples. apply in_cons, filter_In.
    split; [|reflexivity].
    apply in_map_iff. exists 255%nat. split; [reflexivity|].
    apply in_seq. lia. }
  assert (H1 : PrimFloat.ltb (lit 0.1) (lit 0.5) = true) by reflexivity.
  assert (H2 : PrimFloat.ltb (lit 0.5) (sample 255) = true) by reflexivity.
  split; [exact Hmn|]. split; [exact Hc|]. split; [exact Hmx|].
  split; [exact H1|]. split; [exact H2|].
  exact (proj1 (corrected_value_landmarks_default_zones
                  (lit 0.1) (lit 0.5) (sample 255) Hmn Hc Hmx H1 H2)).
Defined.

(** C6 at the failing input: [dead_zone = 1 - 2^-53], the largest double
    below 1, and the raw value 1.0 fed to a fresh axis, so that
    [min < centre < max], [hot_zone == 0], the axis is not inverted and
    [value == max].  The sum [centre + dead_zone * high_range] rounds up to
    [max], the test [value > high_start] fails and [corrected_value()]
    returns 0, where its docstring promises 1.0 at the extreme end of the
    axis. *)
Lemma corrected_value_at_max_is_zero_for_dead_zone_next_to_one :
  let dz := 0x1.fffffffffffffp-1%float in
  let a := _set (Axis_init "left_x" false dz (lit 0)) (lit 1) in
  PrimFloat.ltb (min a) (centre a) = true /\
  PrimFloat.ltb (centre a) (max a) = true /\
  hot_zone a = 0%float /\
  PrimFloat.leb 0 (dead_zone a) = true /\
  PrimFloat.ltb (dead_zone a) 1 = true /\
  invert a = false /\
  value a = max a /\
  corrected_value a = Ok 0%float /\
  returns (corrected_value a) 1%float = false.
Proof.
  repeat split; vm_compute; reflexivity.
Qed.

(** ** The default scenario *)

(** C7 (amended).  An axis with [dead_zone = 0.05], [hot_zone = 0.0],
    centre 0.5, min 0.1, max 0.9, not inverted: after feeding 0.5 the
    corrected value is 0.0, after 0.9 it is 1.0, after 0.1 it is -1.0, and
    after 0.7 it is 9/19, about 0.4737 (0.4736842105263156 on doubles). *)
Theorem scenario_default_axis :
  let a0 : Axis float := Axis_init "left_x" false (lit 0.05) (lit 0) in
  let a1 := _set a0 (lit 0.5) in
  let a2 := _set a1 (lit 0.9) in
  let a3 := _set a2 (lit 0.1) in
  let a4 := _set a3 (lit 0.7) in
  let q0 : Axis Q := Axis_init "left_x" false 0.05 0 in
  (centre a0 = 0.5%float /\ min a0 = 0.1%float /\ max a0 = 0.9%float) /\
  corrected_value a1 = Ok 0%float /\
  corrected_value a2 = Ok 1%float /\
  corrected_value a3 = Ok (-1)%float /\
  corrected_value a4 = Ok 0.4736842105263156%float /\
  exists r,
    corrected_value (_set (_set (_set (_set q0 0.5) 0.9) 0.1) 0.7) = Ok r /\
    r == 9 # 19.
Proof.
  split; [repeat split|].
  split; [vm_compute; reflexivity|].
  split; [vm_compute; reflexivity|].
  split; [vm_compute; reflexivity|].
  split; [vm_compute; reflexivity|].
  eexists. split; [vm_compute; reflexivity | reflexivity].
Qed.

(** C7 as stated fails: the corrected value after feeding 0.7 is not
    approximately 0.5.  It is 0.4736842105263156, below 0.475 and so more
    than 0.025 away from 0.5; read exactly it is 9/19, at distance 1/38
    from 1/2.  The value 0.5 belongs to the same axis with dead zone 0
    (0.49999999999999989 on doubles, 1/2 read exactly). *)
Lemma scenario_value_at_0_7_is_not_one_half :
  let a : Axis float :=
    _set (Axis_init "left_x" false (lit 0.05) (lit 0)) (lit 0.7) in
  let a' : Axis float :=
    _set (Axis_init "left_x" false (lit 0) (lit 0)) (lit 0.7) in
  let q : Axis Q := _set (Axis_init "left_x" false 0.05 0) 0.7 in
  let q' : Axis Q := _set (Axis_init "left_x" false 0 0) 0.7 in
  corrected_value a = Ok 0.4736842105263156%float /\
  PrimFloat.eqb 0.4736842105263156 0.5 = false /\
  PrimFloat.ltb 0.4736842105263156 0.475 = true /\
  PrimFloat.ltb (PrimFloat.abs (0.4736842105263156 - 0.5)) 0.025 = false /\
  corrected_value a' = Ok 0.49999999999999989%float /\
  (exists r, corrected_value q = Ok r /\ r == 9 # 19 /\
             ~ r == 1 # 2 /\ Qabs (r - 0.5) == 1 # 38) /\
  (exists r, corrected_value q' = Ok r /\ r == 1 # 2).
Proof.
  split; [vm_compute; reflexivity|].
  split; [vm_compute; reflexivity|].
  split; [vm_compute; reflexivity|].
  split; [vm_compute; reflexivity|].
  split; [vm_compute; reflexivity|].
  split.
  - eexists. split; [vm_compute; reflexivity|].
    split; [reflexivity|]. split; [discriminate | reflexivity].
  - eexists. split; [vm_compute; reflexivity | reflexivity].
Qed.

(** ** Key events: the button bitfield and the dispatch loop *)

Lemma button_of_code_range (code b : Z) :
  button_of_code code = Some b -> (0 <= b <= 16)%Z.
Proof.
  unfold button_of_code.
  repeat match goal with
         | |- context [(code =? ?k)%Z] => destruct (code =? k)%Z
         end;
    intro Hb; inversion Hb; subst;
    cbv; split; discriminate.
Qed.

Lemma testbit_after_set (x b : Z) :
  (0 <= b)%Z -> Z.testbit (Z.lor x (Z.shiftl 1 b)) b = true.
Proof.
  intro Hb.
  rewrite Z.lor_spec, Z.shiftl_spec by assumption.
  rewrite Z.sub_diag. apply orb_true_r.
Qed.

Lemma testbit_after_clear (x b : Z) :
  (0 <= b)%Z -> Z.testbit (Z.land x (Z.lnot (Z.shiftl 1 b))) b = false.
Proof.
  intro Hb.
  rewrite Z.land_spec, Z.lnot_spec, Z.shiftl_spec by assumption.
  rewrite Z.sub_diag. apply andb_false_r.
Qed.

Section KeyEvents.

Context {F : Type} `{Num F}.

Lemma call_handler_frame (self : SixAxis F) (h : handler) (button : Z) :
  buttons_pressed (call_handler self h button) = buttons_pressed self /\
  button_handlers (call_handler self h button) = button_handlers self /\
  _stop_function (call_handler self h button) = _stop_function self.
Proof.
  destruct h; cbn; auto.
Qed.

Lemma dispatch_calls (handlers : list registration) :
  forall (self : SixAxis F) (button : Z),
    snd (dispatch self handlers button (Z.shiftl 1 button)) =
    matching_calls handlers button.
Proof.
  unfold matching_calls.
  induction handlers as [|r rest IH]; intros self button; cbn; [reflexivity|].
  destruct (negb (Z.land (mask r) (Z.shiftl 1 button) =? 0)%Z).
  - specialize (IH (call_handler self (reg_handler r) button) button).
    destruct (dispatch (call_handler self (reg_handler r) button) rest button
                (Z.shiftl 1 button)) as [s calls].
    cbn in *. rewrite IH. reflexivity.
  - apply IH.
Qed.

Lemma dispatch_frame (handlers : list registration) :
  forall (self : SixAxis F) (button bitmask : Z),
    let s := fst (dispatch self handlers button bitmask) in
    buttons_pressed s = buttons_pressed self /\
    button_handlers s = button_handlers self /\
    _stop_function s = _stop_function self.
Proof.
  induction handlers as [|r rest IH]; intros self button bitmask; cbn;
    [auto|].
  destruct (negb (Z.land (mask r) bitmask =? 0)%Z).
  - specialize (IH (call_handler self (reg_handler r) button) button bitmask).
    destruct (call_handler_frame self (reg_handler r) button) as (E1 & E2 & E3).
    destruct (dispatch (call_handler self (reg_handler r) button) rest button
                bitmask) as [s calls].
    cbn in *. rewrite <- E1, <- E2, <- E3. exact IH.
  - apply IH.
Qed.

(** What a key event with value 1 for a mapped button does. *)
Lemma handle_press (self : SixAxis F) (code b : Z) :
  button_of_code code = Some b ->
  exists s,
    handle_event self (mkEvent ecodes.EV_KEY code 1) =
      Ok (s, matching_calls (button_handlers self) b) /\
    buttons_pressed s = Z.lor (buttons_pressed self) (Z.shiftl 1 b) /\
    button_handlers s = button_handlers self.
Proof.
  intro Hb. unfold handle_event. cbn [ev_type ev_code ev_value].
  change (ecodes.EV_KEY =? ecodes.EV_ABS)%Z with false.
  change (ecodes.EV_KEY =? ecodes.EV_KEY)%Z with true.
  change (1 =? 1)%Z with true.
  cbv iota. rewrite Hb.
  set (self' := with_buttons_pressed self
                  (Z.lor (buttons_pressed self) (Z.shiftl 1 b))).
  pose proof (dispatch_calls (button_handlers self') self' b) as Hc.
  pose proof (dispatch_frame (button_handlers self') self' b (Z.shiftl 1 b))
    as (E1 & E2 & _).
  destruct (dispatch self' (button_handlers self') b (Z.shiftl 1 b))
    as [s calls].
  cbn in *. subst calls. exists s. auto.
Qed.

(** What a key event with any value other than 1 does for a mapped
    button. *)
Lemma handle_not_press (self : SixAxis F) (code b v : Z) :
  button_of_code code = Some b ->
  v <> 1%Z ->
  handle_event self (mkEvent ecodes.EV_KEY code v) =
    Ok (with_buttons_pressed self
          (Z.land (buttons_pressed self) (Z.lnot (Z.shiftl 1 b))), []).
Proof.
  intros Hb Hv. unfold handle_event. cbn [ev_type ev_code ev_value].
  change (ecodes.EV_KEY =? ecodes.EV_ABS)%Z with false.
  change (ecodes.EV_KEY =? ecodes.EV_KEY)%Z with true.
  cbv iota. rewrite Hb.
  destruct (Z.eqb_spec v 1) as [E | _]; [contradiction | reflexivity].
Qed.

End KeyEvents.

(** ** Key events under any application *)

Lemma skipn_nth_error {A : Type} (l : list A) :
  forall (i : nat) (x : A),
    nth_error l i = Some x -> skipn i l = x :: skipn (S i) l.
Proof.
  induction l as [|y l IH]; intros i x E.
  - destruct i; discriminate.
  - destruct i as [|i].
    + cbn in E. inversion E. reflexivity.
    + cbn in E. cbn [skipn]. apply IH. exact E.
Qed.

Section LiveDispatch.

Context {F : Type} `{Num F}.

(** The loop over registrations whose handlers return, leave the list [L]
    as it is and keep a property [P] of the controller: it ends, has called
    the matching registrations from position [i] on, in order, and none
    raised. *)
Lemma dispatch_live_calm (app : application F) (button : Z)
  (L : list registration) (P : SixAxis F -> Prop) :
  (forall r, In r L ->
     Z.land (mask r) (Z.shiftl 1 button) <> 0%Z ->
     forall s, button_handlers s = L -> P s ->
       exists s',
         call_handler_app app s (reg_handler r) button = (s', None) /\
         button_handlers s' = L /\ P s') ->
  forall (fuel i : nat) (self : SixAxis F),
    button_handlers self = L -> P self ->
    (i <= List.length L)%nat -> (List.length L < fuel + i)%nat ->
    exists s',
      dispatch_live app fuel i self button (Z.shiftl 1 button) =
        Some (s', matching_calls (skipn i L) button, None) /\
      button_handlers s' = L /\ P s'.
Proof.
  intro Hcalm. induction fuel as [|fuel IH]; intros i self HL HP Hi Hfuel;
    [lia|].
  cbn [dispatch_live]. rewrite HL.
  destruct (nth_error L i) as [r|] eqn:E.
  - assert (Hlt : (i < List.length L)%nat)
      by (apply nth_error_Some; rewrite E; discriminate).
    rewrite (skipn_nth_error L i r E).
    unfold matching_calls. cbn [filter map].
    destruct (Z.eqb_spec (Z.land (mask r) (Z.shiftl 1 button)) 0)
      as [E0 | Hne]; cbn [negb].
    + apply (IH (S i) self HL HP); lia.
    + destruct (Hcalm r (nth_error_In L i E) Hne self HL HP)
        as (s1 & C & HL1 & HP1).
      rewrite C.
      destruct (IH (S i) s1 HL1 HP1) as (s' & D & HL' & HP'); [lia | lia |].
      unfold matching_calls in D. rewrite D.
      exists s'. auto.
  - apply nth_error_None in E.
    rewrite skipn_all2 by lia.
    exists self. auto.
Qed.

Lemma called_handlers_calm (app : application F) (button x : Z)
  (n : nat) (L : list registration) :
  called_handlers_keep app L button ->
  forall r, In r L ->
    Z.land (mask r) (Z.shiftl 1 button) <> 0%Z ->
    forall s, button_handlers s = L ->
      (buttons_pressed s = x /\
       (keeps_axes_count app -> List.length (axes s) = n)) ->
      exists s',
        call_handler_app app s (reg_handler r) button = (s', None) /\
        button_handlers s' = L /\
        (buttons_pressed s' = x /\
         (keeps_axes_count app -> List.length (axes s') = n)).
Proof.
  intros Hkeep r Hr Hm s HL [Hb Hax].
  specialize (Hkeep r Hr Hm). unfold handler_keeps in Hkeep.
  destruct (reg_handler r) as [f| |]; cbn [call_handler_app].
  - destruct (Hkeep s) as (s' & E & E1 & E2).
    exists s'. rewrite E. repeat split; try congruence.
    intro Hk. rewrite <- (Hax Hk).
    pose proof (Hk f button s) as Hlen. rewrite E in Hlen. exact Hlen.
  - eexists. split; [reflexivity|]. cbn. repeat split; try assumption.
    intro Hk. rewrite length_map. auto.
  - eexists. split; [reflexivity|]. cbn. repeat split; try assumption.
    intro Hk. rewrite length_map. auto.
Qed.

(** A key event with value 1 for a mapped button, when the handlers it
    calls return and keep the registrations and the bitfield. *)
Lemma handle_press_app (app : application F) (fuel : nat)
  (self : SixAxis F) (code b : Z) :
  button_of_code code = Some b ->
  called_handlers_keep app (button_handlers self) b ->
  (List.length (button_handlers self) < fuel)%nat ->
  exists s,
    handle_event_app app fuel self (mkEvent ecodes.EV_KEY code 1) =
      Some (s, matching_calls (button_handlers self) b, None) /\
    buttons_pressed s = Z.lor (buttons_pressed self) (Z.shiftl 1 b) /\
    button_handlers s = button_handlers self /\
    (keeps_axes_count app ->
     List.length (axes s) = List.length (axes self)).
Proof.
  intros Hb Hkeep Hfuel. unfold handle_event_app.
  cbn [ev_type ev_code ev_value].
  change (ecodes.EV_KEY =? ecodes.EV_ABS)%Z with false.
  change (ecodes.EV_KEY =? ecodes.EV_KEY)%Z with true.
  change (1 =? 1)%Z with true. cbv iota. rewrite Hb.
  set (self' := with_buttons_pressed self
                  (Z.lor (buttons_pressed self) (Z.shiftl 1 b))).
  destruct (dispatch_live_calm app b (button_handlers self)
              (fun s => buttons_pressed s =
                          Z.lor (buttons_pressed self) (Z.shiftl 1 b) /\
                        (keeps_axes_count app ->
                         List.length (axes s) = List.length (axes self)))
              (called_handlers_calm app b _ _ (button_handlers self) Hkeep)
              fuel 0%nat self')
    as (s & D & HL & HP1 & HP2);
    [reflexivity | split; [reflexivity | intros _; reflexivity] | lia | lia |].
  cbn [skipn] in D. exists s. auto.
Qed.

Lemma called_handlers_calm_bit (app : application F) (button : Z)
  (L : list registration) :
  called_handlers_keep_bit app L button ->
  forall r, In r L ->
    Z.land (mask r) (Z.shiftl 1 button) <> 0%Z ->
    forall s, button_handlers s = L ->
      Z.testbit (buttons_pressed s) button = true ->
      exists s',
        call_handler_app app s (reg_handler r) button = (s', None) /\
        button_handlers s' = L /\
        Z.testbit (buttons_pressed s') button = true.
Proof.
  intros Hkeep r Hr Hm s HL Hb.
  specialize (Hkeep r Hr Hm). unfold handler_keeps_bit in Hkeep.
  destruct (reg_handler r) as [f| |]; cbn [call_handler_app].
  - destruct (Hkeep s) as (s' & E & E1 & E2).
    exists s'. rewrite E. split; [reflexivity|].
    split; [congruence | exact (E2 Hb)].
  - eexists. split; [reflexivity|]. cbn. auto.
  - eexists. split; [reflexivity|]. cbn. auto.
Qed.

(** A key event with value 1 for a mapped button, when the handlers it
    calls return, keep the registrations and do not clear the bit of the
    button. *)
Lemma handle_press_app_bit (app : application F) (fuel : nat)
  (self : SixAxis F) (code b : Z) :
  button_of_code code = Some b ->
  called_handlers_keep_bit app (button_handlers self) b ->
  (List.length (button_handlers self) < fuel)%nat ->
  exists s,
    handle_event_app app fuel self (mkEvent ecodes.EV_KEY code 1) =
      Some (s, matching_calls (button_handlers self) b, None) /\
    Z.testbit (buttons_pressed s) b = true /\
    button_handlers s = button_handlers self.
Proof.
  intros Hb Hkeep Hfuel.
  pose proof (button_of_code_range code b Hb) as [Hb0 _].
  unfold handle_event_app.
  cbn [ev_type ev_code ev_value].
  change (ecodes.EV_KEY =? ecodes.EV_ABS)%Z with false.
  change (ecodes.EV_KEY =? ecodes.EV_KEY)%Z with true.
  change (1 =? 1)%Z with true. cbv iota. rewrite Hb.
  set (self' := with_buttons_pressed self
                  (Z.lor (buttons_pressed self) (Z.shiftl 1 b))).
  destruct (dispatch_live_calm app b (button_handlers self)
              (fun s => Z.testbit (buttons_pressed s) b = true)
              (called_handlers_calm_bit app b (button_handlers self) Hkeep)
              fuel 0%nat self')
    as (s & D & HL & HP);
    [reflexivity | apply testbit_after_set; assumption | lia | lia |].
  cbn [skipn] in D. exists s. auto.
Qed.

(** Handlers that leave the whole bitfield alone do not clear a bit. *)
Lemma called_handlers_keep_weaken (app : application F)
  (l : list registration) (button : Z) :
  called_handlers_keep app l button ->
  called_handlers_keep_bit app l button.
Proof.
  intros Hkeep r Hr Hm. specialize (Hkeep r Hr Hm).
  destruct (reg_handler r) as [f| |]; cbn in *; [|exact I|exact I].
  intro s. destruct (Hkeep s) as (s' & E & E1 & E2).
  exists s'. rewrite E2. auto.
Qed.

(** A key event with any other value calls no handler, whatever the
    application. *)
Lemma handle_not_press_app (app : application F) (fuel : nat)
  (self : SixAxis F) (code b v : Z) :
  button_of_code code = Some b ->
  v <> 1%Z ->
  handle_event_app app fuel self (mkEvent ecodes.EV_KEY code v) =
    Some (with_buttons_pressed self
            (Z.land (buttons_pressed self) (Z.lnot (Z.shiftl 1 b))),
          [], None).
Proof.
  intros Hb Hv. unfold handle_event_app. cbn [ev_type ev_code ev_value].
  change (ecodes.EV_KEY =? ecodes.EV_ABS)%Z with false.
  change (ecodes.EV_KEY =? ecodes.EV_KEY)%Z with true.
  cbv iota. rewrite Hb.
  destruct (Z.eqb_spec v 1) as [E | _]; [contradiction | reflexivity].
Qed.

(** With functions that return without touching the controller, the loop
    over the list as it is now is the loop over the list as it was. *)
Lemma dispatch_live_quiet (button bitmask : Z) :
  forall (fuel i : nat) (self : SixAxis F),
    (i <= List.length (button_handlers self))%nat ->
    (List.length (button_handlers self) < fuel + i)%nat ->
    dispatch_live quiet fuel i self button bitmask =
      Some (dispatch self (skipn i (button_handlers self)) button bitmask,
            None).
Proof.
  induction fuel as [|fuel IH]; intros i self Hi Hfuel; [lia|].
  - cbn [dispatch_live].
    destruct (nth_error (button_handlers self) i) as [r|] eqn:E.
    + rewrite (skipn_nth_error _ i r E). cbn [dispatch].
      destruct (negb (Z.land (mask r) bitmask =? 0)%Z).
      * assert (Hc : call_handler_app quiet self (reg_handler r) button =
                     (call_handler self (reg_handler r) button, None))
          by (destruct (reg_handler r); reflexivity).
        rewrite Hc.
        destruct (call_handler_frame self (reg_handler r) button)
          as (_ & Hh & _).
        assert (Hlt : (i < List.length (button_handlers self))%nat)
          by (apply nth_error_Some; rewrite E; discriminate).
        rewrite IH by (rewrite Hh; lia).
        rewrite Hh.
        destruct (dispatch (call_handler self (reg_handler r) button)
                    (skipn (S i) (button_handlers self)) button bitmask)
          as [s calls].
        reflexivity.
      * assert (Hlt : (i < List.length (button_handlers self))%nat)
          by (apply nth_error_Some; rewrite E; discriminate).
        apply IH; lia.
    + apply nth_error_None in E.
      rewrite skipn_all2 by lia. reflexivity.
Qed.

(** [handle_event] is [handle_event_app] for the quiet application. *)
Lemma handle_event_app_quiet (fuel : nat) (self : SixAxis F) (e : event) :
  (List.length (button_handlers self) < fuel)%nat ->
  handle_event_app quiet fuel self e =
    match handle_event self e with
    | Ok (s, calls) => Some (s, calls, None)
    | Raise exc => Some (self, [], Some exc)
    end.
Proof.
  intro Hfuel. unfold handle_event_app, handle_event, store_sample.
  destruct (ev_type e =? ecodes.EV_ABS)%Z.
  - destruct (div (float_of_int (ev_value e)) (lit 255)) as [v|exc];
      cbn [bind]; [|reflexivity].
    repeat match goal with
           | |- context [(ev_code e =? ?k)%Z] => destruct (ev_code e =? k)%Z
           end;
      try reflexivity;
      match goal with
      | |- context [set_axis self ?i ?x] => destruct (set_axis self i x)
      end; reflexivity.
  - destruct (ev_type e =? ecodes.EV_KEY)%Z; [|reflexivity].
    destruct (button_of_code (ev_code e)) as [b|]; [|reflexivity].
    destruct (ev_value e =? 1)%Z; [|reflexivity].
    rewrite dispatch_live_quiet
      by (cbn [button_handlers with_buttons_pressed]; lia).
    cbn [skipn button_handlers with_buttons_pressed].
    destruct (dispatch _ _ _ _) as [s calls]. reflexivity.
Qed.

End LiveDispatch.

(** C4 (amended).  A key event with value 1 for a mapped button [b] sets
    bit [b] of [buttons_pressed] and calls [handler(b)] for every
    registration whose mask intersects [1 << b], in registration order,
    within the call, provided each handler so called returns normally,
    leaves the list of registrations as it is and does not clear bit [b].
    Two such events in a row, with no release between them, then make those
    calls twice.  A key event with value 0 clears the bit and calls no
    handler, whatever the handlers are. *)
Theorem press_fires_on_every_press_event :
  forall (F : Type) (N : Num F) (app : application F) (fuel : nat)
         (self : SixAxis F) (code b : Z),
    button_of_code code = Some b ->
    called_handlers_keep_bit app (button_handlers self) b ->
    (List.length (button_handlers self) < fuel)%nat ->
    let press := mkEvent ecodes.EV_KEY code 1 in
    let release := mkEvent ecodes.EV_KEY code 0 in
    let fired := matching_calls (button_handlers self) b in
    (exists s1, handle_event_app app fuel self press = Some (s1, fired, None) /\
                Z.testbit (buttons_pressed s1) b = true) /\
    (exists s2, handle_events_app app fuel self [press; press] =
                  Some (s2, fired ++ fired, None) /\
                Z.testbit (buttons_pressed s2) b = true) /\
    (exists s3, handle_event_app app fuel self release = Some (s3, [], None) /\
                Z.testbit (buttons_pressed s3) b = false).
Proof.
  intros F N app fuel self code b Hb Hkeep Hfuel press release fired.
  pose proof (button_of_code_range code b Hb) as [Hb0 _].
  destruct (handle_press_app_bit app fuel self code b Hb Hkeep Hfuel)
    as (s1 & E1 & P1 & H1).
  assert (Hkeep1 : called_handlers_keep_bit app (button_handlers s1) b)
    by (rewrite H1; exact Hkeep).
  assert (Hfuel1 : (List.length (button_handlers s1) < fuel)%nat)
    by (rewrite H1; exact Hfuel).
  destruct (handle_press_app_bit app fuel s1 code b Hb Hkeep1 Hfuel1)
    as (s2 & E2 & P2 & H2).
  rewrite H1 in E2.
  split; [|split].
  - exists s1. split; [exact E1 | exact P1].
  - exists s2. split; [|exact P2].
    cbn [handle_events_app]. fold press. unfold press at 1. rewrite E1.
    fold press. unfold press at 1. rewrite E2.
    rewrite app_nil_r. reflexivity.
  - eexists. split.
    + apply (handle_not_press_app app fuel self code b 0 Hb). discriminate.
    + cbn [buttons_pressed with_buttons_pressed].
      apply testbit_after_clear; assumption.
Qed.

Lemma press_fires_on_every_press_event_witness :
  let restarting : application float :=
    fun f button s =>
      if Nat.eqb f 1 then (set_axis_centres s, None)
      else (with_buttons_pressed s (Z.shiftl 1 button), None) in
  let self : SixAxis float :=
    {| _stop_function := None; axes := [];
       button_handlers :=
         [ {| reg_id := 0; reg_handler := user_function 1;
              mask := Z.shiftl 1 BUTTON_SQUARE + Z.shiftl 1 BUTTON_CIRCLE |};
           {| reg_id := 1; reg_handler := user_function 2;
              mask := Z.shiftl 1 BUTTON_CROSS |};
           {| reg_id := 2; reg_handler := user_function 3;
              mask := Z.shiftl 1 BUTTON_CIRCLE |} ];
       buttons_pressed := Z.shiftl 1 BUTTON_PS; allocated := 3 |} in
  button_of_code 305 = Some BUTTON_CIRCLE /\
  called_handlers_keep_bit restarting (button_handlers self) BUTTON_CIRCLE /\
  (List.length (button_handlers self) < 4)%nat /\
  exists s2,
    handle_events_app restarting 4 self
      [mkEvent ecodes.EV_KEY 305 1; mkEvent ecodes.EV_KEY 305 1] =
      Some (s2, [ (user_function 1, BUTTON_CIRCLE);
                  (user_function 3, BUTTON_CIRCLE);
                  (user_function 1, BUTTON_CIRCLE);
                  (user_function 3, BUTTON_CIRCLE) ], None) /\
    Z.testbit (buttons_pressed s2) BUTTON_CIRCLE = true.
Proof.
  intros restarting self.
  assert (Hkeep : called_handlers_keep_bit restarting (button_handlers self)
                    BUTTON_CIRCLE).
  { intros r _ _. destruct (reg_handler r) as [f| |]; cbn; [|exact I|exact I].
    intro s. unfold restarting. destruct (Nat.eqb f 1).
    - eexists. split; [reflexivity|]. split; [reflexivity|]. cbn. auto.
    - eexists. split; [reflexivity|]. split; [reflexivity|]. intros _.
      reflexivity. }
  assert (Hfuel : (List.length (button_handlers self) < 4)%nat)
    by (cbn; lia).
  split; [reflexivity|]. split; [exact Hkeep|]. split; [exact Hfuel|].
  exact (proj1 (proj2 (press_fires_on_every_press_event float Num_float
                         restarting 4 self 305 BUTTON_CIRCLE eq_refl
                         Hkeep Hfuel))).
Defined.

(** C4 as stated fails on handlers that use the controller or raise.  Two
    functions [f1] and [f2] are registered for CIRCLE, in this order, and
    CIRCLE is pressed.  When [f1] invokes its own deregistration
    capability, the list shrinks under the loop and [f2], whose mask
    intersects, is not called.  When [f1] drains the press history, bit 13
    is clear after the event.  When [f1] raises, [f2] is not called and the
    exception leaves [handle_event]. *)
Lemma press_skips_handler_after_self_removal :
  let h1 := {| reg_id := 0; reg_handler := user_function 1;
               mask := Z.shiftl 1 BUTTON_CIRCLE |} in
  let h2 := {| reg_id := 1; reg_handler := user_function 2;
               mask := Z.shiftl 1 BUTTON_CIRCLE |} in
  let one_shot : application float :=
    fun f _ s =>
      if Nat.eqb f 1 then
        match remove h1 s with
        | Ok s' => (s', None)
        | Raise e => (s, Some e)
        end
      else (s, None) in
  let draining : application float :=
    fun f _ s =>
      if Nat.eqb f 1 then (snd (get_and_clear_button_press_history s), None)
      else (s, None) in
  let raising : application float :=
    fun f _ s => if Nat.eqb f 1 then (s, Some ValueError) else (s, None) in
  let self : SixAxis float :=
    {| _stop_function := None; axes := [];
       button_handlers := [h1; h2];
       buttons_pressed := 0; allocated := 2 |} in
  let press := mkEvent ecodes.EV_KEY 305 1 in
  matching_calls (button_handlers self) BUTTON_CIRCLE =
    [(user_function 1, BUTTON_CIRCLE); (user_function 2, BUTTON_CIRCLE)] /\
  (exists s,
     handle_event_app one_shot 3 self press =
       Some (s, [(user_function 1, BUTTON_CIRCLE)], None) /\
     button_handlers s = [h2]) /\
  (exists s,
     handle_event_app draining 3 self press =
       Some (s, [(user_function 1, BUTTON_CIRCLE);
                 (user_function 2, BUTTON_CIRCLE)], None) /\
     Z.testbit (buttons_pressed s) BUTTON_CIRCLE = false) /\
  (exists s,
     handle_event_app raising 3 self press =
       Some (s, [(user_function 1, BUTTON_CIRCLE)], Some ValueError)).
Proof.
  cbv zeta.
  split; [reflexivity|].
  split; [eexists; split; reflexivity|].
  split; [eexists; split; reflexivity|].
  eexists; reflexivity.
Qed.

(** C10.  A key event for a mapped button whose value is neither 0 nor 1
    does what a release does: it clears the button's bit and calls no
    handler. *)
Theorem other_key_values_act_as_release :
  forall (F : Type) (N : Num F) (self : SixAxis F) (code b v : Z),
    button_of_code code = Some b ->
    v <> 0%Z -> v <> 1%Z ->
    handle_event self (mkEvent ecodes.EV_KEY code v) =
      handle_event self (mkEvent ecodes.EV_KEY code 0) /\
    exists s,
      handle_event self (mkEvent ecodes.EV_KEY code v) = Ok (s, []) /\
      buttons_pressed s =
        Z.land (buttons_pressed self) (Z.lnot (Z.shiftl 1 b)) /\
      Z.testbit (buttons_pressed s) b = false /\
      button_handlers s = button_handlers self.
Proof.
  intros F N self code b v Hb Hv0 Hv1.
  pose proof (button_of_code_range code b Hb) as [Hb0 _].
  rewrite (handle_not_press self code b v Hb Hv1).
  rewrite (handle_not_press self code b 0 Hb) by discriminate.
  split; [reflexivity|].
  eexists. split; [reflexivity|].
  cbn [buttons_pressed button_handlers with_buttons_pressed].
  repeat split. apply testbit_after_clear; assumption.
Qed.

Lemma other_key_values_act_as_release_witness :
  let self : SixAxis float :=
    {| _stop_function := None; axes := [];
       button_handlers :=
         [ {| reg_id := 0; reg_handler := user_function 1;
              mask := Z.shiftl 1 BUTTON_CIRCLE |} ];
       buttons_pressed := Z.shiftl 1 BUTTON_CIRCLE; allocated := 1 |} in
  button_of_code 305 = Some BUTTON_CIRCLE /\ 2%Z <> 0%Z /\ 2%Z <> 1%Z /\
  exists s,
    handle_event self (mkEvent ecodes.EV_KEY 305 2) = Ok (s, []) /\
    buttons_pressed s =
      Z.land (buttons_pressed self) (Z.lnot (Z.shiftl 1 BUTTON_CIRCLE)) /\
    Z.testbit (buttons_pressed s) BUTTON_CIRCLE = false /\
    button_handlers s = button_handlers self.
Proof.
  intro self.
  assert (H0 : 2%Z <> 0%Z) by discriminate.
  assert (H1 : 2%Z <> 1%Z) by discriminate.
  repeat split; try assumption.
  exact (proj2 (other_key_values_act_as_release float Num_float self
                  305 BUTTON_CIRCLE 2 eq_refl H0 H1)).
Defined.

(** ** The press history *)

Lemma drain_returns_and_clears {F : Type} `{Num F} (self : SixAxis F) :
  fst (get_and_clear_button_press_history self) = buttons_pressed self /\
  buttons_pressed (snd (get_and_clear_button_press_history self)) = 0%Z.
Proof.
  split; reflexivity.
Qed.

(** A press followed by a release leaves no trace in the bitfield that
    [get_and_clear_button_press_history] returns. *)
Lemma release_erases_press_from_history {F : Type} `{Num F}
  (self : SixAxis F) (code b : Z) :
  button_of_code code = Some b ->
  exists s,
    handle_events self
      [mkEvent ecodes.EV_KEY code 1; mkEvent ecodes.EV_KEY code 0] =
      Ok (s, matching_calls (button_handlers self) b) /\
    Z.testbit (fst (get_and_clear_button_press_history s)) b = false.
Proof.
  intro Hb.
  pose proof (button_of_code_range code b Hb) as [Hb0 _].
  destruct (handle_press self code b Hb) as (s1 & E1 & P1 & H1).
  eexists. split.
  - cbn [handle_events]. rewrite E1. cbn [bind fst snd].
    rewrite (handle_not_press s1 code b 0 Hb) by discriminate.
    cbn [bind fst snd]. rewrite app_nil_r. reflexivity.
  - cbn. apply testbit_after_clear; assumption.
Qed.

(** C1 at the failing input: CIRCLE is pressed and released on a fresh
    controller, then the history is drained.  The drained bitfield is 0: bit
    13 is not set, although CIRCLE was pressed since the last drain.  (The
    drain does reset [buttons_pressed], and [is_pressed] is false
    afterwards.) *)
Theorem drain_misses_press_released_before_drain :
  exists s0 s2 : SixAxis float,
    SixAxis_init (lit 0.05) (lit 0) [false; false; false; false] = Ok s0 /\
    handle_events s0
      [mkEvent ecodes.EV_KEY 305 1; mkEvent ecodes.EV_KEY 305 0] =
      Ok (s2, []) /\
    fst (get_and_clear_button_press_history s2) = 0%Z /\
    Z.testbit (fst (get_and_clear_button_press_history s2)) BUTTON_CIRCLE
      = false /\
    buttons_pressed (snd (get_and_clear_button_press_history s2)) = 0%Z /\
    is_pressed (snd (get_and_clear_button_press_history s2)) BUTTON_CIRCLE
      = Ok false.
Proof.
  eexists. eexists.
  split; [reflexivity|].
  split; [reflexivity|].
  repeat split.
Qed.

(** ** connect *)

Section Connect.

Context {F : Type} `{Num F}.

Lemma connect_when_connected (self : SixAxis F) (dev : option string)
  (controller_name : string) (devices : list InputDevice)
  (opened : string -> InputDevice) :
  is_connected self = true ->
  connect self dev controller_name devices opened = Ok (PyBool false, self).
Proof.
  unfold is_connected, connect.
  destruct (_stop_function self); [reflexivity | discriminate].
Qed.

Lemma find_controller_device_none (controller_name : string)
  (devices : list InputDevice) :
  (forall d, In d devices -> device_name d <> controller_name) ->
  find_controller_device controller_name devices = Raise IOError.
Proof.
  induction devices as [|d rest IH]; intro Hno; cbn; [reflexivity|].
  destruct (String.eqb_spec (device_name d) controller_name) as [E | _].
  - exfalso. apply (Hno d); [left; reflexivity | exact E].
  - apply IH. intros d' Hd'. apply Hno. right. exact Hd'.
Qed.

Lemma connect_no_device (self : SixAxis F) (controller_name : string)
  (devices : list InputDevice) (opened : string -> InputDevice) :
  is_connected self = false ->
  (forall d, In d devices -> device_name d <> controller_name) ->
  connect self None controller_name devices opened = Raise IOError.
Proof.
  unfold is_connected, connect. intros Hc Hno.
  destruct (_stop_function self); [discriminate|].
  rewrite (find_controller_device_none _ _ Hno). reflexivity.
Qed.

(** Whenever [connect] finds or is given a device and attaches to it, the
    value it returns is [None]. *)
Lemma connect_success_returns_None (self : SixAxis F) (dev : option string)
  (controller_name : string) (devices : list InputDevice)
  (opened : string -> InputDevice) (v : pyval) (s : SixAxis F) :
  is_connected self = false ->
  connect self dev controller_name devices opened = Ok (v, s) ->
  v = PyNone /\ is_connected s = true.
Proof.
  unfold is_connected, connect. intros Hc.
  destruct (_stop_function self); [discriminate|].
  destruct dev as [path|].
  - cbn. intro E. inversion E. split; reflexivity.
  - destruct (find_controller_device controller_name devices); cbn;
      intro E; inversion E. split; reflexivity.
Qed.

End Connect.

(** C5 at the failing input: a fresh controller, no locator, and a host
    with a PS3 controller.  The controller is attached, and the value
    returned is [None], not [True]. *)
Theorem connect_found_returns_None_not_True :
  exists s0 s1 : SixAxis float,
    SixAxis_init (lit 0.05) (lit 0) [false; false; false; false] = Ok s0 /\
    connect s0 None "PLAYSTATION(R)3 Controller"
      [ {| fn := "/dev/input/event2"; device_name := "Power Button" |};
        {| fn := "/dev/input/event5";
           device_name := "PLAYSTATION(R)3 Controller" |} ]
      (fun path => {| fn := path; device_name := "" |})
      = Ok (PyNone, s1) /\
    is_connected s1 = true /\
    PyNone <> PyBool true.
Proof.
  eexists. eexists.
  split; [reflexivity|].
  split; [reflexivity|].
  split; [reflexivity | discriminate].
Qed.

(** ** Registration masks *)

Lemma shl1_nonneg (b : Z) : (0 <= b)%Z -> shl1 b = Ok (Z.shiftl 1 b).
Proof.
  intro Hb. unfold shl1.
  destruct (Z.ltb_spec b 0); [lia | reflexivity].
Qed.

Lemma add_fresh_bit (m c : Z) :
  (0 <= c)%Z -> Z.testbit m c = false ->
  (m + Z.shiftl 1 c)%Z = Z.lor m (Z.shiftl 1 c).
Proof.
  intros Hc Hbit.
  assert (Hland : Z.land m (Z.shiftl 1 c) = 0%Z).
  { apply Z.bits_inj'. intros n Hn.
    rewrite Z.land_spec, Z.bits_0, Z.shiftl_spec by assumption.
    destruct (Z.eq_dec n c) as [-> | Hne].
    - rewrite Hbit. reflexivity.
    - replace (Z.testbit 1 (n - c)) with false; [apply andb_false_r|].
      symmetry. destruct (Z.ltb_spec n c).
      + apply Z.testbit_neg_r. lia.
      + apply Z.bits_above_log2; [lia|]. change (Z.log2 1) with 0%Z. lia. }
  rewrite Z.add_nocarry_lxor by assumption.
  apply Z.lxor_lor. assumption.
Qed.

Lemma testbit_lor_other (m c d : Z) :
  (0 <= c)%Z -> (0 <= d)%Z -> d <> c ->
  Z.testbit (Z.lor m (Z.shiftl 1 c)) d = Z.testbit m d.
Proof.
  intros Hc Hd Hne.
  rewrite Z.lor_spec, Z.shiftl_spec by assumption.
  replace (Z.testbit 1 (d - c)) with false; [apply orb_false_r|].
  symmetry. destruct (Z.ltb_spec d c).
  - apply Z.testbit_neg_r. lia.
  - apply Z.bits_above_log2; [lia|]. change (Z.log2 1) with 0%Z. lia.
Qed.

(** On codes without repeats the sum the code forms is the OR. *)
Lemma mask_loop_distinct (l : list Z) :
  forall m : Z,
    NoDup l ->
    (forall c, In c l -> (0 <= c)%Z /\ Z.testbit m c = false) ->
    mask_loop m l =
      Ok (fold_left (fun m code => Z.lor m (Z.shiftl 1 code)) l m).
Proof.
  induction l as [|c l IH]; intros m Hnd Hfresh; cbn; [reflexivity|].
  destruct (Hfresh c (or_introl eq_refl)) as [Hc Hbit].
  rewrite (shl1_nonneg c Hc). cbn [bind].
  rewrite (add_fresh_bit m c Hc Hbit).
  inversion Hnd as [|c' l' Hnotin Hnd']; subst.
  apply IH; [assumption|].
  intros d Hd. destruct (Hfresh d (or_intror Hd)) as [Hd0 Hdbit].
  split; [assumption|].
  rewrite testbit_lor_other; try assumption.
  intros ->. contradiction.
Qed.

Lemma build_mask_distinct (l : list Z) :
  NoDup l -> (forall c, In c l -> (0 <= c)%Z) ->
  build_mask (button_list l) = Ok (spec_mask l).
Proof.
  intros Hnd Hpos. unfold build_mask, spec_mask.
  apply mask_loop_distinct; [assumption|].
  intros c Hc. split; [auto | apply Z.bits_0].
Qed.

Lemma build_mask_bare (b : Z) :
  (0 <= b)%Z -> build_mask (bare b) = Ok (spec_mask [b]).
Proof.
  intro Hb. unfold build_mask, spec_mask.
  rewrite (shl1_nonneg b Hb). reflexivity.
Qed.

(** C8 at the failing input: a handler registered for the list
    [[CIRCLE, CIRCLE]].  The OR of [1 << 13] with itself is [1 << 13]; the
    stored mask is their sum, [1 << 14], the bit of CROSS.  A press of
    CIRCLE then calls nothing and a press of CROSS calls the handler. *)
Theorem repeated_code_gives_sum_not_or :
  exists (s0 s1 : SixAxis float) (h : registration),
    SixAxis_init (lit 0.05) (lit 0) [false; false; false; false] = Ok s0 /\
    register_button_handler s0 (user_function 1)
      (button_list [BUTTON_CIRCLE; BUTTON_CIRCLE]) = Ok (s1, h) /\
    button_handlers s1 = [h] /\
    mask h = Z.shiftl 1 BUTTON_CROSS /\
    spec_mask [BUTTON_CIRCLE; BUTTON_CIRCLE] = Z.shiftl 1 BUTTON_CIRCLE /\
    mask h <> spec_mask [BUTTON_CIRCLE; BUTTON_CIRCLE] /\
    (exists s, handle_event s1 (mkEvent ecodes.EV_KEY 305 1) = Ok (s, [])) /\
    (exists s, handle_event s1 (mkEvent ecodes.EV_KEY 304 1) =
                 Ok (s, [(user_function 1, BUTTON_CROSS)])).
Proof.
  eexists. eexists. eexists.
  split; [reflexivity|].
  split; [reflexivity|].
  repeat split.
  - discriminate.
  - eexists. reflexivity.
  - eexists. reflexivity.
Qed.

(** ** Deregistration *)

Lemma handler_eqb_eq (g h : handler) : handler_eqb g h = true <-> g = h.
Proof.
  destruct g as [a| |], h as [b| |]; cbn; split; intro E;
    try reflexivity; try discriminate.
  - apply Nat.eqb_eq in E. subst. reflexivity.
  - inversion E. apply Nat.eqb_refl.
Qed.

Lemma reg_eqb_refl (h : registration) : reg_eqb h h = true.
Proof.
  unfold reg_eqb. rewrite Z.eqb_refl, andb_true_r.
  apply handler_eqb_eq. reflexivity.
Qed.

(** [list.remove] drops the first item that compares equal. *)
Lemma list_remove_first (h : registration) (l2 : list registration) :
  forall l1 : list registration,
    (forall g, In g l1 -> reg_eqb g h = false) ->
    list_remove h (l1 ++ h :: l2) = Ok (l1 ++ l2).
Proof.
  induction l1 as [|g l1 IH]; intro Hne; cbn.
  - rewrite reg_eqb_refl. reflexivity.
  - rewrite (Hne g (or_introl eq_refl)).
    rewrite IH; [reflexivity|].
    intros g' Hg'. apply Hne. right. exact Hg'.
Qed.

Lemma remove_own_unique (h : registration) (l1 l2 : list registration) :
  (forall g, In g (l1 ++ l2) -> reg_id g <> reg_id h) ->
  remove_own h (l1 ++ h :: l2) = l1 ++ l2.
Proof.
  intro Hid. unfold remove_own.
  rewrite filter_app. cbn [filter]. rewrite Nat.eqb_refl. cbn [negb].
  rewrite <- filter_app.
  apply forallb_filter_id. apply forallb_forall.
  intros g Hg. apply negb_true_iff, Nat.eqb_neq, Hid, Hg.
Qed.

(** When no earlier registration has the same handler and mask, the
    closure removes its own registration and nothing else. *)
Lemma remove_is_remove_own {F : Type} `{Num F} (self : SixAxis F)
  (h : registration) (l1 l2 : list registration) :
  button_handlers self = l1 ++ h :: l2 ->
  (forall g, In g l1 -> reg_eqb g h = false) ->
  (forall g, In g (l1 ++ l2) -> reg_id g <> reg_id h) ->
  exists s,
    remove h self = Ok s /\
    button_handlers s = remove_own h (button_handlers self) /\
    buttons_pressed s = buttons_pressed self /\
    axes s = axes self.
Proof.
  intros Hl Hne Hid. unfold remove. rewrite Hl.
  rewrite (list_remove_first h l2 l1 Hne). cbn [bind].
  eexists. split; [reflexivity|].
  cbn. rewrite (remove_own_unique h l1 l2 Hid). auto.
Qed.

(** Two distinct handlers registered on a controller without
    registrations: removing the first leaves the second, which still fires
    on a press of any button its mask holds. *)
Lemma removing_one_leaves_the_other_firing {F : Type} `{Num F}
  (self : SixAxis F) (f g : handler) (bs1 bs2 : buttons_arg)
  (s1 s2 : SixAxis F) (h1 h2 : registration) (code b : Z) :
  button_handlers self = [] ->
  f <> g ->
  register_button_handler self f bs1 = Ok (s1, h1) ->
  register_button_handler s1 g bs2 = Ok (s2, h2) ->
  button_of_code code = Some b ->
  Z.land (mask h2) (Z.shiftl 1 b) <> 0%Z ->
  (exists s3 s4,
     remove h1 s2 = Ok s3 /\
     button_handlers s3 = [h2] /\
     handle_event s3 (mkEvent ecodes.EV_KEY code 1) = Ok (s4, [(g, b)])) /\
  (exists s3, remove h2 s2 = Ok s3 /\ button_handlers s3 = [h1]).
Proof.
  intros Hempty Hfg R1 R2 Hb Hmask.
  unfold register_button_handler in R1, R2.
  destruct (build_mask bs1) as [m1|] eqn:M1; [|discriminate].
  destruct (build_mask bs2) as [m2|] eqn:M2; [|discriminate].
  cbn [bind] in R1, R2.
  inversion R1; subst s1 h1; clear R1.
  cbn [button_handlers allocated _stop_function axes buttons_pressed] in R2.
  inversion R2; subst s2 h2; clear R2.
  rewrite Hempty. cbn [app].
  set (h2 := {| reg_id := S (allocated self); reg_handler := g; mask := m2 |}).
  set (s3 := {| _stop_function := _stop_function self; axes := axes self;
                button_handlers := [h2];
                buttons_pressed := buttons_pressed self;
                allocated := S (S (allocated self)) |}).
  destruct (handle_press s3 code b Hb) as (s4 & E & _ & _).
  split.
  - exists s3, s4. split; [|split; [reflexivity|]].
    + unfold remove. cbn [button_handlers list_remove].
      rewrite reg_eqb_refl. reflexivity.
    + rewrite E. unfold matching_calls. cbn [button_handlers s3 filter map].
      cbn [mask] in Hmask. cbn [mask h2 reg_handler].
      destruct (Z.eqb_spec (Z.land m2 (Z.shiftl 1 b)) 0) as [E0 | _];
        [contradiction | reflexivity].
  - unfold remove. cbn [button_handlers list_remove].
    assert (Hne : reg_eqb {| reg_id := allocated self; reg_handler := f;
                             mask := m1 |} h2 = false).
    { unfold reg_eqb. cbn [reg_handler h2].
      destruct (handler_eqb f g) eqn:Efg; [|reflexivity].
      apply handler_eqb_eq in Efg. contradiction. }
    rewrite Hne, reg_eqb_refl. cbn [bind].
    eexists. split; reflexivity.
Qed.

(** C9 at the failing input: [f1] and [f2] are registered for CIRCLE and
    then [f1] is registered for CIRCLE once more; the capability of this
    third registration is invoked.  [list.remove] drops the first dict equal
    to the third one, which is the first registration: the third stays and
    the first is gone.  A press of CIRCLE now calls [f2] before [f1]; with
    the third registration removed it would call [f1] before [f2]. *)
Theorem remove_drops_an_equal_earlier_registration :
  exists s0 : SixAxis float,
    SixAxis_init (lit 0.05) (lit 0) [false; false; false; false] = Ok s0 /\
  exists s1 h1,
    register_button_handler s0 (user_function 1) (bare BUTTON_CIRCLE)
      = Ok (s1, h1) /\
  exists s2 h2,
    register_button_handler s1 (user_function 2) (bare BUTTON_CIRCLE)
      = Ok (s2, h2) /\
  exists s3 h3,
    register_button_handler s2 (user_function 1) (bare BUTTON_CIRCLE)
      = Ok (s3, h3) /\
  exists s4,
    remove h3 s3 = Ok s4 /\
  exists s5,
    handle_event s4 (mkEvent ecodes.EV_KEY 305 1) =
      Ok (s5, [(user_function 2, BUTTON_CIRCLE);
               (user_function 1, BUTTON_CIRCLE)]) /\
    button_handlers s3 = [h1; h2; h3] /\
    button_handlers s4 = [h2; h3] /\
    remove_own h3 (button_handlers s3) = [h1; h2] /\
    button_handlers s4 <> remove_own h3 (button_handlers s3) /\
    matching_calls (remove_own h3 (button_handlers s3)) BUTTON_CIRCLE =
      [(user_function 1, BUTTON_CIRCLE); (user_function 2, BUTTON_CIRCLE)].
Proof.
  run_ok. run_ok2. run_ok2. run_ok2. run_ok. run_ok_calls.
  repeat split; try (vm_compute; reflexivity).
  vm_compute. discriminate.
Qed.

(** ** The calibration invariant on the controller *)

(** The run of [centre_leaves_bounds_after_reset_and_recentre] through the
    controller's own entry points, on doubles: an axis event with value 255
    for the left stick's X axis, [reset_axis_calibration()], then
    [set_axis_centres()].  The left X axis ends with centre 1.0 above max
    0.9. *)
Lemma controller_centre_above_max :
  exists (s0 s1 : SixAxis float) (a : Axis float),
    SixAxis_init (lit 0.05) (lit 0) [false; false; false; false] = Ok s0 /\
    handle_event s0 (mkEvent ecodes.EV_ABS 0 255) = Ok (s1, []) /\
    nth_error (axes (set_axis_centres (reset_axis_calibration s1))) 0
      = Some a /\
    centre a = 1%float /\ max a = 0.9%float /\
    PrimFloat.leb (centre a) (max a) = false.
Proof.
  do 3 eexists.
  split; [reflexivity|].
  split; [reflexivity|].
  split; [reflexivity|].
  repeat split.
Qed.

(** * Further properties of the code *)

(** ** The correction as a function of the raw value, read exactly *)

Lemma Qdiv_le_mono (n1 n2 d : Q) : 0 < d -> n1 <= n2 -> n1 / d <= n2 / d.
Proof.
  intros Hd Hn. unfold Qdiv. apply Qmult_le_compat_r; [exact Hn|].
  apply Qinv_le_0_compat. lra.
Qed.

Lemma Qdiv_unit_pos (n d : Q) : 0 < n -> n <= d -> 0 < n / d /\ n / d <= 1.
Proof.
  intros Hn Hd. split.
  - apply Qlt_shift_div_l; lra.
  - apply Qle_shift_div_r; lra.
Qed.

Lemma Qdiv_unit_neg (n d : Q) : n < 0 -> - d <= n -> -1 <= n / d /\ n / d < 0.
Proof.
  intros Hn Hd. split.
  - apply Qle_shift_div_l; lra.
  - apply Qlt_shift_div_r; lra.
Qed.

Lemma corrected_value_Q_spec (a : Axis Q) :
  exists r,
    corrected_value a = Ok (if invert a then - r else r) /\
    correction_case a r.
Proof.
  unfold correction_case, corrected_value.
  fold (high_start a) (high_end a) (low_start a) (low_end a).
  cbn [add sub mul ltb lit opp Num_Q].
  set (v := value a). set (hs := high_start a). set (he := high_end a).
  set (ls := low_start a). set (le := low_end a).
  destruct (Qltb hs v) eqn:E1;
    [apply Qltb_lt in E1 | apply Qltb_ge in E1].
  - destruct (Qltb he v) eqn:E2;
      [apply Qltb_lt in E2 | apply Qltb_ge in E2].
    + exists 1. cbn [bind]. split; [destruct (invert a); reflexivity|].
      left. auto.
    + rewrite Qdiv_ok by lra. cbn [bind].
      exists ((v - hs) / (he - hs)).
      split; [destruct (invert a); reflexivity|].
      right; left.
      destruct (Qdiv_unit_pos (v - hs) (he - hs)); [lra | lra |].
      auto 6.
  - destruct (Qltb v ls) eqn:E2;
      [apply Qltb_lt in E2 | apply Qltb_ge in E2].
    + destruct (Qltb v le) eqn:E3;
        [apply Qltb_lt in E3 | apply Qltb_ge in E3].
      * exists (-1). cbn [bind].
        split; [destruct (invert a); reflexivity|].
        right; right; left. auto.
      * rewrite Qdiv_ok by lra. cbn [bind].
        exists ((v - ls) / (ls - le)).
        split; [destruct (invert a); reflexivity|].
        right; right; right; left.
        destruct (Qdiv_unit_neg (v - ls) (ls - le)); [lra | lra |].
        auto 8.
    + exists 0. cbn [bind]. split; [destruct (invert a); reflexivity|].
      right; right; right; right. auto.
Qed.

(** X1.  Read in exact arithmetic, [corrected_value()] returns for every
    axis state whatsoever: it never raises [ZeroDivisionError], because each
    division is guarded by the two comparisons before it, and the value it
    returns lies in [-1, 1]. *)
Theorem corrected_value_total_and_bounded :
  forall a : Axis Q,
    exists r, corrected_value a = Ok r /\ -1 <= r /\ r <= 1.
Proof.
  intro a.
  destruct (corrected_value_Q_spec a) as (r & E & Hcase).
  exists (if invert a then - r else r). split; [exact E|].
  assert (Hr : -1 <= r /\ r <= 1).
  { unfold correction_case in Hcase.
    destruct Hcase as [(_ & _ & ->) | [(_ & _ & _ & H0 & H1) |
                      [(_ & _ & _ & ->) | [(_ & _ & _ & _ & H0 & H1) |
                       (_ & _ & ->)]]]]; lra. }
  destruct (invert a); lra.
Qed.

(** X2.  Read in exact arithmetic and for any calibration, the corrected
    value of an axis that is not inverted never decreases when the raw
    value increases; on an inverted axis it never increases. *)
Theorem corrected_value_monotone :
  forall (a : Axis Q) (v1 v2 : Q),
    v1 <= v2 ->
    exists r1 r2,
      corrected_value (axis_with_value a v1) = Ok r1 /\
      corrected_value (axis_with_value a v2) = Ok r2 /\
      (invert a = false -> r1 <= r2) /\
      (invert a = true -> r2 <= r1).
Proof.
  intros a v1 v2 Hv.
  destruct (corrected_value_Q_spec (axis_with_value a v1)) as (r1 & E1 & C1).
  destruct (corrected_value_Q_spec (axis_with_value a v2)) as (r2 & E2 & C2).
  cbn [invert axis_with_value] in E1, E2.
  assert (Hmono : r1 <= r2).
  { unfold correction_case in C1, C2.
    change (high_start (axis_with_value a v1)) with (high_start a) in C1.
    change (high_end (axis_with_value a v1)) with (high_end a) in C1.
    change (low_start (axis_with_value a v1)) with (low_start a) in C1.
    change (low_end (axis_with_value a v1)) with (low_end a) in C1.
    change (high_start (axis_with_value a v2)) with (high_start a) in C2.
    change (high_end (axis_with_value a v2)) with (high_end a) in C2.
    change (low_start (axis_with_value a v2)) with (low_start a) in C2.
    change (low_end (axis_with_value a v2)) with (low_end a) in C2.
    cbn [value axis_with_value] in C1, C2.
    destruct C1 as [(A1 & A2 & A3) | [(A1 & A2 & A3 & A4 & A5) |
                   [(A1 & A2 & A3 & A4) | [(A1 & A2 & A3 & A4 & A5 & A6) |
                    (A1 & A2 & A3)]]]];
    destruct C2 as [(B1 & B2 & B3) | [(B1 & B2 & B3 & B4 & B5) |
                   [(B1 & B2 & B3 & B4) | [(B1 & B2 & B3 & B4 & B5 & B6) |
                    (B1 & B2 & B3)]]]];
      try (subst; lra); try lra.
    - rewrite A3, B3. apply Qdiv_le_mono; lra.
    - rewrite A4, B4. apply Qdiv_le_mono; lra. }
  exists (if invert a then - r1 else r1), (if invert a then - r2 else r2).
  split; [exact E1|]. split; [exact E2|].
  split; intro Hi; rewrite Hi; lra.
Qed.

Lemma corrected_value_monotone_witness :
  0.3 <= 0.7 /\
  exists r1 r2,
    corrected_value (axis_with_value (Axis_init "left_x" false 0.05 0) 0.3)
      = Ok r1 /\
    corrected_value (axis_with_value (Axis_init "left_x" false 0.05 0) 0.7)
      = Ok r2 /\
    (false = false -> r1 <= r2) /\
    (false = true -> r2 <= r1).
Proof.
  assert (H : 0.3 <= 0.7) by discriminate.
  split; [exact H|].
  exact (corrected_value_monotone (Axis_init "left_x" false 0.05 0)
           0.3 0.7 H).
Defined.

(** X3.  Read in exact arithmetic, on an axis that is not inverted the
    sign of the corrected value tells the zone of the raw value: it is
    positive exactly when [value > high_start], negative exactly when
    [value <= high_start] and [value < low_start], and 0 otherwise (the dead
    zone). *)
Theorem corrected_value_sign :
  forall a : Axis Q,
    invert a = false ->
    exists r,
      corrected_value a = Ok r /\
      (0 < r <-> high_start a < value a) /\
      (r < 0 <-> value a <= high_start a /\ value a < low_start a) /\
      (r == 0 <-> value a <= high_start a /\ low_start a <= value a).
Proof.
  intros a Hinv.
  destruct (corrected_value_Q_spec a) as (r & E & Hcase).
  rewrite Hinv in E. exists r. split; [exact E|].
  unfold correction_case in Hcase.
  destruct Hcase as [(A1 & A2 & A3) | [(A1 & A2 & A3 & A4 & A5) |
                    [(A1 & A2 & A3 & A4) | [(A1 & A2 & A3 & A4 & A5 & A6) |
                     (A1 & A2 & A3)]]]];
    repeat split; intros;
    repeat match goal with
           | H : _ /\ _ |- _ => destruct H
           end;
    try (rewrite A3 in * ); try (rewrite A4 in * ); lra.
Qed.

Lemma corrected_value_sign_witness :
  let a := axis_with_value (Axis_init "left_x" false 0.05 0) 0.51 in
  invert a = false /\
  exists r,
    corrected_value a = Ok r /\
    (0 < r <-> high_start a < value a) /\
    (r < 0 <-> value a <= high_start a /\ value a < low_start a) /\
    (r == 0 <-> value a <= high_start a /\ low_start a <= value a).
Proof.
  intro a. split; [reflexivity|].
  exact (corrected_value_sign a eq_refl).
Defined.

(** X4.  Read in exact arithmetic, building the axis with [invert = True]
    negates the corrected value and changes nothing else. *)
Theorem corrected_value_inverted_is_negated :
  forall a : Axis Q,
    exists r,
      corrected_value (axis_with_invert a false) = Ok r /\
      corrected_value (axis_with_invert a true) = Ok (- r).
Proof.
  intro a.
  destruct (corrected_value_Q_spec (axis_with_invert a false)) as (r & E & C).
  exists r. split; [exact E|].
  unfold corrected_value in *. cbn [invert axis_with_invert negb] in *.
  cbn [centre max min value dead_zone hot_zone axis_with_invert] in *.
  match goal with
  | H : bind ?m _ = _ |- bind ?m' _ = _ => destruct m as [x|e]; cbn [bind] in *
  end.
  - inversion E. reflexivity.
  - discriminate.
Qed.

(** X5.  Read in exact arithmetic, recentring zeroes the output: on an axis
    whose value lies within its bounds and whose dead zone is not negative,
    the corrected value right after [set_axis_centres()] is 0, inverted or
    not. *)
Theorem recentre_zeroes_output :
  forall a : Axis Q,
    0 <= dead_zone a ->
    min a <= value a -> value a <= max a ->
    exists r, corrected_value (set_centre a) = Ok r /\ r == 0.
Proof.
  intros a Hdz Hlo Hhi.
  destruct (corrected_value_Q_spec (set_centre a)) as (r & E & C).
  assert (Hp : 0 <= dead_zone a * (max a - value a))
    by (apply Qmult_le_0_compat; lra).
  assert (Hq : 0 <= dead_zone a * (value a - min a))
    by (apply Qmult_le_0_compat; lra).
  unfold correction_case, high_start, high_end, low_start, low_end in C.
  cbn [add sub mul Num_Q centre max min value dead_zone hot_zone set_centre]
    in C.
  assert (Hr : r == 0).
  { destruct C as [(A1 & _) | [(A1 & _) | [(_ & A2 & _) | [(_ & A2 & _) |
                   (_ & _ & ->)]]]]; lra. }
  eexists. split; [exact E|].
  destruct (invert (set_centre a)); lra.
Qed.

Lemma recentre_zeroes_output_witness :
  let a := _set (Axis_init "left_x" true 0.05 0.1) 0.8 in
  0 <= dead_zone a /\ min a <= value a /\ value a <= max a /\
  exists r, corrected_value (set_centre a) = Ok r /\ r == 0.
Proof.
  intro a.
  assert (H0 : 0 <= dead_zone a) by discriminate.
  assert (H1 : min a <= value a) by discriminate.
  assert (H2 : value a <= max a) by discriminate.
  repeat split; try assumption.
  exact (recentre_zeroes_output a H0 H1 H2).
Defined.

(** ** Auto-calibration *)

Lemma feed_cons {F : Type} `{Num F} (a : Axis F) (r : F) (rs : list F) :
  feed a (r :: rs) = feed (_set a r) rs.
Proof.
  reflexivity.
Qed.

(** X6.  Feeding raw samples to an axis whose bounds are ordered only
    widens the bounds: afterwards every sample fed lies between [min] and
    [max], [min] has not risen and [max] has not fallen, each bound is its
    old value or one of the samples, and the centre is untouched. *)
Theorem feed_widens_bounds :
  forall (rs : list Q) (a : Axis Q),
    min a <= max a ->
    let a' := feed a rs in
    (forall r, In r rs -> min a' <= r /\ r <= max a') /\
    min a' <= min a /\ max a <= max a' /\
    (max a' = max a \/ In (max a') rs) /\
    (min a' = min a \/ In (min a') rs) /\
    centre a' = centre a.
Proof.
  induction rs as [|r rs IH]; intros a Hb a'.
  - subst a'. cbn.
    split; [intros r []|]. repeat split; try lra; left; reflexivity.
  - subst a'. rewrite feed_cons.
    pose proof (_set_bounds_ordered a r Hb) as Hb'.
    pose proof (_set_value_in_bounds a r Hb) as [Hv1 Hv2].
    rewrite _set_value in Hv1, Hv2.
    specialize (IH (_set a r) Hb').
    cbv zeta in IH.
    destruct IH as (Hin & Hmin & Hmax & Hmx & Hmn & Hc).
    rewrite _set_centre in Hc.
    destruct (_set_cases a r)
      as [(C1 & C2 & C3) | [(C1 & C2 & C3 & C4) | (C1 & C2 & C3 & C4)]];
      try rewrite C2 in *; try rewrite C3 in *; try rewrite C4 in *;
      (split; [intros r' [<- | Hr']; [split; lra | apply Hin, Hr']|]);
      (split; [lra|]); (split; [lra|]);
      (split;
       [destruct Hmx as [E | E];
        [first [left; exact E | right; left; symmetry; exact E]
        | right; right; exact E]|]);
      (split;
       [destruct Hmn as [E | E];
        [first [left; exact E | right; left; symmetry; exact E]
        | right; right; exact E]|]);
      exact Hc.
Qed.

Lemma feed_widens_bounds_witness :
  let a := Axis_init "left_x" false 0.05 0 in
  let rs := [0.95; 0.02; 0.5; 1; 0.3] in
  min a <= max a /\
  let a' := feed a rs in
  (forall r, In r rs -> min a' <= r /\ r <= max a') /\
  min a' <= min a /\ max a <= max a' /\
  (max a' = max a \/ In (max a') rs) /\
  (min a' = min a \/ In (min a') rs) /\
  centre a' = centre a.
Proof.
  intros a rs.
  assert (H : min a <= max a) by discriminate.
  split; [exact H|].
  exact (feed_widens_bounds rs a H).
Defined.

Lemma _set_same_calibration {F : Type} `{Num F} (a b : Axis F) (r : F) :
  centre a = centre b -> min a = min b -> max a = max b ->
  centre (_set a r) = centre (_set b r) /\
  min (_set a r) = min (_set b r) /\
  max (_set a r) = max (_set b r) /\
  value (_set a r) = value (_set b r).
Proof.
  intros Hc Hmn Hmx. unfold _set. rewrite Hmn, Hmx.
  destruct (ltb (max b) r); [cbn; auto|].
  destruct (ltb r (min b)); cbn; auto.
Qed.

(** X7.  A calibration reset forgets the history of the axis: whatever
    the axis went through before, the samples fed after [_reset()] leave
    it with the centre, [min] and [max] that the same samples give a newly
    constructed axis.  This holds for the arithmetic of doubles as for any
    other. *)
Theorem reset_forgets_history :
  forall (F : Type) (N : Num F) (rs : list F) (a : Axis F)
         (n : string) (i : bool) (dz hz : F),
    let x := feed (_reset a) rs in
    let y := feed (Axis_init n i dz hz) rs in
    centre x = centre y /\ min x = min y /\ max x = max y.
Proof.
  intros F N rs a n i dz hz.
  assert (Hgen : forall (rs : list F) (p q : Axis F),
             centre p = centre q -> min p = min q -> max p = max q ->
             centre (feed p rs) = centre (feed q rs) /\
             min (feed p rs) = min (feed q rs) /\
             max (feed p rs) = max (feed q rs)).
  { clear. induction rs as [|r rs IH]; intros p q Hc Hmn Hmx.
    - cbn. auto.
    - rewrite !feed_cons.
      destruct (_set_same_calibration p q r Hc Hmn Hmx) as (E1 & E2 & E3 & _).
      apply IH; assumption. }
  apply Hgen; reflexivity.
Qed.

(** ** Axis events on doubles *)

Lemma div_255_ok (k : Z) :
  div (float_of_int k) (lit 255) =
    Ok (PrimFloat.div (float_of_Z k) 255%float).
Proof.
  reflexivity.
Qed.

(** What [handle_event] does with an axis event whose code is [c] and
    whose value is [k], on a controller with the four axes. *)
Lemma handle_abs_event (self : SixAxis float) (c k : Z) :
  handle_event self (mkEvent ecodes.EV_ABS c k) =
    if (c =? 0)%Z then (s <- set_axis self 0 (sample k) ;; Ok (s, []))
    else if (c =? 1)%Z then (s <- set_axis self 1 (sample k) ;; Ok (s, []))
    else if (c =? 3)%Z then (s <- set_axis self 2 (sample k) ;; Ok (s, []))
    else if (c =? 4)%Z then (s <- set_axis self 3 (sample k) ;; Ok (s, []))
    else Ok (self, []).
Proof.
  unfold handle_event, sample. cbn [ev_type ev_code ev_value].
  change (ecodes.EV_ABS =? ecodes.EV_ABS)%Z with true. cbv iota.
  rewrite div_255_ok. reflexivity.
Qed.

(** X8.  The axis table of [handle_event]: an axis event with code 0, 1,
    3 or 4 feeds its clamped sample to the left X, left Y, right X or right
    Y axis respectively, and leaves the three other axes, the button
    bitfield and the registrations as they were; no handler is called. *)
Theorem axis_event_updates_one_axis :
  forall (self : SixAxis float) (a0 a1 a2 a3 : Axis float) (k : Z),
    axes self = [a0; a1; a2; a3] ->
    handle_event self (mkEvent ecodes.EV_ABS 0 k) =
      Ok (with_axes self [_set a0 (sample k); a1; a2; a3], []) /\
    handle_event self (mkEvent ecodes.EV_ABS 1 k) =
      Ok (with_axes self [a0; _set a1 (sample k); a2; a3], []) /\
    handle_event self (mkEvent ecodes.EV_ABS 3 k) =
      Ok (with_axes self [a0; a1; _set a2 (sample k); a3], []) /\
    handle_event self (mkEvent ecodes.EV_ABS 4 k) =
      Ok (with_axes self [a0; a1; a2; _set a3 (sample k)], []).
Proof.
  intros self a0 a1 a2 a3 k Hax.
  rewrite !handle_abs_event. unfold set_axis. rewrite Hax.
  repeat split.
Qed.

Lemma axis_event_updates_one_axis_witness :
  let a0 : Axis float := Axis_init "left_x" false (lit 0.05) (lit 0) in
  let a1 : Axis float := Axis_init "left_y" true (lit 0.05) (lit 0) in
  let a2 : Axis float := Axis_init "right_x" false (lit 0.05) (lit 0) in
  let a3 : Axis float := Axis_init "right_y" true (lit 0.05) (lit 0) in
  let s0 := {| _stop_function := None; axes := [a0; a1; a2; a3];
               button_handlers := []; buttons_pressed := 0;
               allocated := 0 |} in
  axes s0 = [a0; a1; a2; a3] /\
  handle_event s0 (mkEvent ecodes.EV_ABS 3 240) =
    Ok (with_axes s0 [a0; a1; _set a2 (sample 240); a3], []).
Proof.
  intros a0 a1 a2 a3 s0. split; [reflexivity|].
  exact (proj1 (proj2 (proj2
           (axis_event_updates_one_axis s0 a0 a1 a2 a3 240 eq_refl)))).
Defined.

Lemma raw_samples_need_no_clamp :
  forallb (fun n =>
             let raw := PrimFloat.div (float_of_Z (Z.of_nat n)) 255%float in
             negb (PrimFloat.ltb raw 0%float) &&
             negb (PrimFloat.ltb 1%float raw))
          (seq 0 256) = true.
Proof.
  vm_compute. reflexivity.
Qed.

(** X9.  The sample an axis event stores is clamped: for every event value
    it is neither below 0 nor above 1, and for the values 0 to 255 of the
    device it is the quotient [value / 255.0] itself. *)
Theorem sample_is_clamped :
  forall k : Z,
    PrimFloat.ltb (sample k) 0%float = false /\
    PrimFloat.ltb 1%float (sample k) = false /\
    ((0 <= k <= 255)%Z ->
     sample k = PrimFloat.div (float_of_Z k) 255%float).
Proof.
  intro k. unfold sample. rewrite div_255_ok.
  cbn [ltb Num_float].
  change (lit 0) with 0%float. change (lit 1) with 1%float.
  set (raw := PrimFloat.div (float_of_Z k) 255%float).
  split; [|split].
  - destruct (PrimFloat.ltb raw 0%float) eqn:E0; [reflexivity|].
    destruct (PrimFloat.ltb 1%float raw) eqn:E1; [reflexivity | exact E0].
  - destruct (PrimFloat.ltb raw 0%float) eqn:E0; [reflexivity|].
    destruct (PrimFloat.ltb 1%float raw) eqn:E1; [reflexivity | exact E1].
  - intro Hk.
    pose proof raw_samples_need_no_clamp as Hall.
    rewrite forallb_forall in Hall.
    specialize (Hall (Z.to_nat k)).
    rewrite Z2Nat.id in Hall by lia.
    fold raw in Hall. cbv zeta in Hall.
    assert (Hin : In (Z.to_nat k) (seq 0 256)) by (apply in_seq; lia).
    specialize (Hall Hin).
    apply andb_true_iff in Hall. destruct Hall as [H0 H1].
    apply negb_true_iff in H0, H1.
    fold raw. rewrite H0, H1. reflexivity.
Qed.

Lemma sample_is_clamped_witness :
  PrimFloat.ltb (sample 128) 0%float = false /\
  PrimFloat.ltb 1%float (sample 128) = false /\
  (0 <= 128 <= 255)%Z /\
  sample 128 = PrimFloat.div (float_of_Z 128) 255%float.
Proof.
  assert (H : (0 <= 128 <= 255)%Z) by lia.
  destruct (sample_is_clamped 128) as (H0 & H1 & H2).
  exact (conj H0 (conj H1 (conj H (H2 H)))).
Defined.

(** An event [handle_event] has no branch for leaves the controller as
    it is. *)
Lemma handle_unknown_event :
  forall (self : SixAxis float) (e : event),
    (ev_type e <> ecodes.EV_ABS /\ ev_type e <> ecodes.EV_KEY) \/
    (ev_type e = ecodes.EV_ABS /\
     ev_code e <> 0%Z /\ ev_code e <> 1%Z /\
     ev_code e <> 3%Z /\ ev_code e <> 4%Z) \/
    (ev_type e = ecodes.EV_KEY /\ button_of_code (ev_code e) = None) ->
    handle_event self e = Ok (self, []).
Proof.
  intros self [t c k] H. cbn [ev_type ev_code ev_value] in H.
  destruct H as [(H1 & H2) | [(-> & H0 & H1 & H3 & H4) | (-> & Hb)]].
  - unfold handle_event. cbn [ev_type ev_code ev_value].
    destruct (Z.eqb_spec t ecodes.EV_ABS); [contradiction|].
    destruct (Z.eqb_spec t ecodes.EV_KEY); [contradiction|].
    reflexivity.
  - rewrite handle_abs_event.
    destruct (Z.eqb_spec c 0); [contradiction|].
    destruct (Z.eqb_spec c 1); [contradiction|].
    destruct (Z.eqb_spec c 3); [contradiction|].
    destruct (Z.eqb_spec c 4); [contradiction|].
    reflexivity.
  - unfold handle_event. cbn [ev_type ev_code ev_value].
    change (ecodes.EV_KEY =? ecodes.EV_ABS)%Z with false.
    change (ecodes.EV_KEY =? ecodes.EV_KEY)%Z with true.
    cbv iota. rewrite Hb. reflexivity.
Qed.

(** X10.  Events the controller does not know are dropped without an
    error: a sequence of events each of which is neither an axis nor a key
    event, or an axis event whose code is not 0, 1, 3 or 4, or a key event
    whose code is not in the button table, leaves the controller exactly as
    it was and calls no handler. *)
Theorem unknown_events_are_ignored :
  forall (self : SixAxis float) (events : list event),
    Forall (fun e =>
              (ev_type e <> ecodes.EV_ABS /\ ev_type e <> ecodes.EV_KEY) \/
              (ev_type e = ecodes.EV_ABS /\
               ev_code e <> 0%Z /\ ev_code e <> 1%Z /\
               ev_code e <> 3%Z /\ ev_code e <> 4%Z) \/
              (ev_type e = ecodes.EV_KEY /\
               button_of_code (ev_code e) = None))
           events ->
    handle_events self events = Ok (self, []).
Proof.
  intros self events Hall.
  induction Hall as [|e rest He _ IH]; [reflexivity|].
  cbn [handle_events].
  rewrite (handle_unknown_event self e He). cbn [bind fst snd].
  rewrite IH. reflexivity.
Qed.

Lemma unknown_events_are_ignored_witness :
  let s : SixAxis float :=
    {| _stop_function := None; axes := [];
       button_handlers := [ {| reg_id := 0; reg_handler := user_function 1;
                               mask := 1 |} ];
       buttons_pressed := 5; allocated := 1 |} in
  handle_events s [ mkEvent ecodes.EV_ABS 2 200; mkEvent ecodes.EV_KEY 309 1;
                    mkEvent 4 4 589825 ] = Ok (s, []).
Proof.
  intro s. apply unknown_events_are_ignored.
  constructor; [|constructor; [|constructor; [|constructor]]];
    cbn [ev_type ev_code ev_value].
  - right; left. repeat split; discriminate.
  - right; right. split; reflexivity.
  - left. split; discriminate.
Defined.

(** ** A controller with its four axes and handlers that return *)

Lemma set_axis_length {F : Type} `{Num F} (self : SixAxis F) (i : nat)
  (v : F) :
  (i < List.length (axes self))%nat ->
  exists s, set_axis self i v = Ok s /\
            List.length (axes s) = List.length (axes self) /\
            buttons_pressed s = buttons_pressed self /\
            button_handlers s = button_handlers self.
Proof.
  intro Hi. unfold set_axis.
  destruct (nth_error (axes self) i) as [a|] eqn:E.
  - eexists. split; [reflexivity|].
    cbn [axes with_axes buttons_pressed button_handlers].
    repeat split.
    rewrite length_app. cbn [List.length].
    rewrite length_firstn, length_skipn. lia.
  - apply nth_error_None in E. lia.
Qed.

Lemma store_sample_total {F : Type} `{Num F} (self : SixAxis F) (i : nat)
  (v : F) :
  (i < List.length (axes self))%nat ->
  exists s, store_sample self i v = Some (s, [], None) /\
            List.length (axes s) = List.length (axes self) /\
            buttons_pressed s = buttons_pressed self /\
            button_handlers s = button_handlers self.
Proof.
  intro Hi. unfold store_sample.
  destruct (set_axis_length self i v Hi) as (s & E & Hrest).
  exists s. rewrite E. auto.
Qed.

(** What [handle_event] does with an axis event, whatever the
    application: no handler is called. *)
Lemma handle_abs_event_app (app : application float) (fuel : nat)
  (self : SixAxis float) (c k : Z) :
  handle_event_app app fuel self (mkEvent ecodes.EV_ABS c k) =
    if (c =? 0)%Z then store_sample self 0 (sample k)
    else if (c =? 1)%Z then store_sample self 1 (sample k)
    else if (c =? 3)%Z then store_sample self 2 (sample k)
    else if (c =? 4)%Z then store_sample self 3 (sample k)
    else Some (self, [], None).
Proof.
  unfold handle_event_app, sample. cbn [ev_type ev_code ev_value].
  change (ecodes.EV_ABS =? ecodes.EV_ABS)%Z with true. cbv iota.
  rewrite div_255_ok. reflexivity.
Qed.

Lemma all_keep_called {F : Type} `{Num F} (app : application F)
  (l : list registration) (button : Z) :
  (forall f b, keeps_registry_and_buttons app f b) ->
  called_handlers_keep app l button.
Proof.
  intros Hall r _ _. destruct (reg_handler r); cbn; auto.
Qed.

(** ** The button table *)

Lemma button_of_code_cases (code b : Z) :
  button_of_code code = Some b ->
  ((code = 314 /\ b = 0) \/ (code = 315 /\ b = 3) \/ (code = 317 /\ b = 1) \/
   (code = 318 /\ b = 2) \/ (code = 546 /\ b = 7) \/ (code = 544 /\ b = 4) \/
   (code = 547 /\ b = 5) \/ (code = 545 /\ b = 6) \/ (code = 316 /\ b = 16) \/
   (code = 308 /\ b = 15) \/ (code = 307 /\ b = 12) \/ (code = 305 /\ b = 13) \/
   (code = 304 /\ b = 14) \/ (code = 311 /\ b = 11) \/ (code = 313 /\ b = 9) \/
   (code = 310 /\ b = 10) \/ (code = 312 /\ b = 8))%Z.
Proof.
  unfold button_of_code.
  repeat match goal with
         | |- context [(code =? ?k)%Z] =>
             destruct (Z.eqb_spec code k) as [-> | _];
             [intro Hb; inversion Hb; tauto|]
         end.
  discriminate.
Qed.

(** X12.  The key table of [handle_event] is one-to-one and covers the 17
    buttons: two key codes that map to the same button are the same code,
    every mapped button lies in 0..16, and each of the buttons 0..16 is the
    image of some key code. *)
Theorem button_table_is_a_bijection :
  (forall c1 c2 b : Z,
     button_of_code c1 = Some b -> button_of_code c2 = Some b -> c1 = c2) /\
  (forall c b : Z, button_of_code c = Some b -> (0 <= b <= 16)%Z) /\
  (forall b : Z, (0 <= b <= 16)%Z -> exists c, button_of_code c = Some b).
Proof.
  split; [|split].
  - intros c1 c2 b H1 H2.
    apply button_of_code_cases in H1, H2.
    repeat match goal with
           | H : _ \/ _ |- _ => destruct H as [[? ?] | H]
           | H : _ /\ _ |- _ => destruct H
           end; lia.
  - intros c b Hb. apply button_of_code_cases in Hb.
    repeat match goal with
           | H : _ \/ _ |- _ => destruct H as [[? ?] | H]
           | H : _ /\ _ |- _ => destruct H
           end; lia.
  - intros b Hb.
    assert (Hcases : (b = 0 \/ b = 1 \/ b = 2 \/ b = 3 \/ b = 4 \/ b = 5 \/
                      b = 6 \/ b = 7 \/ b = 8 \/ b = 9 \/ b = 10 \/
                      b = 11 \/ b = 12 \/ b = 13 \/ b = 14 \/ b = 15 \/
                      b = 16)%Z) by lia.
    repeat match goal with
           | H : _ \/ _ |- _ => destruct H as [-> | H]
           end; try subst b;
      first [ exists 314%Z; reflexivity | exists 317%Z; reflexivity
            | exists 318%Z; reflexivity | exists 315%Z; reflexivity
            | exists 544%Z; reflexivity | exists 547%Z; reflexivity
            | exists 545%Z; reflexivity | exists 546%Z; reflexivity
            | exists 312%Z; reflexivity | exists 313%Z; reflexivity
            | exists 310%Z; reflexivity | exists 311%Z; reflexivity
            | exists 307%Z; reflexivity | exists 305%Z; reflexivity
            | exists 304%Z; reflexivity | exists 308%Z; reflexivity
            | exists 316%Z; reflexivity ].
Qed.

Lemma button_table_is_a_bijection_witness :
  (button_of_code 305 = Some 13%Z /\ button_of_code 305 = Some 13%Z /\
   305%Z = 305%Z) /\
  (0 <= 16 <= 16)%Z /\
  exists c, button_of_code c = Some 16%Z.
Proof.
  assert (H : (0 <= 16 <= 16)%Z) by lia.
  split; [|split].
  - split; [reflexivity|]. split; [reflexivity|].
    exact (proj1 button_table_is_a_bijection 305%Z 305%Z 13%Z
             eq_refl eq_refl).
  - exact H.
  - exact (proj2 (proj2 button_table_is_a_bijection) 16%Z H).
Defined.

(** ** Reading the button bitfield *)

Lemma testbit_one_shifted (c n : Z) :
  (0 <= c)%Z -> (0 <= n)%Z -> Z.testbit (Z.shiftl 1 c) n = (n =? c)%Z.
Proof.
  intros Hc Hn. rewrite Z.shiftl_spec by assumption.
  destruct (Z.eqb_spec n c) as [-> | Hne].
  - rewrite Z.sub_diag. reflexivity.
  - destruct (Z.ltb_spec n c).
    + apply Z.testbit_neg_r. lia.
    + apply Z.bits_above_log2; [lia|]. change (Z.log2 1) with 0%Z. lia.
Qed.

Lemma land_one_shifted (x c : Z) :
  (0 <= c)%Z ->
  negb (Z.land x (Z.shiftl 1 c) =? 0)%Z = Z.testbit x c.
Proof.
  intro Hc.
  destruct (Z.testbit x c) eqn:Hbit.
  - apply negb_true_iff. apply Z.eqb_neq. intro E.
    assert (Hb : Z.testbit (Z.land x (Z.shiftl 1 c)) c = true).
    { rewrite Z.land_spec, Hbit, testbit_one_shifted by assumption.
      rewrite Z.eqb_refl. reflexivity. }
    rewrite E, Z.bits_0 in Hb. discriminate.
  - apply negb_false_iff. apply Z.eqb_eq.
    apply Z.bits_inj'. intros n Hn.
    rewrite Z.land_spec, Z.bits_0, testbit_one_shifted by assumption.
    destruct (Z.eqb_spec n c) as [-> | _].
    + rewrite Hbit. reflexivity.
    + apply andb_false_r.
Qed.

Lemma is_pressed_testbit {F : Type} `{Num F} (self : SixAxis F) (c : Z) :
  (0 <= c)%Z -> is_pressed self c = Ok (Z.testbit (buttons_pressed self) c).
Proof.
  intro Hc. unfold is_pressed. rewrite (shl1_nonneg c Hc). cbn [bind].
  rewrite land_one_shifted by assumption. reflexivity.
Qed.

Lemma testbit_land_lnot_other (x b c : Z) :
  (0 <= b)%Z -> (0 <= c)%Z -> c <> b ->
  Z.testbit (Z.land x (Z.lnot (Z.shiftl 1 b))) c = Z.testbit x c.
Proof.
  intros Hb Hc Hne.
  rewrite Z.land_spec, Z.lnot_spec, testbit_one_shifted by assumption.
  destruct (Z.eqb_spec c b); [contradiction | apply andb_true_r].
Qed.

(** The bit of button [c] after one key event for the mapped button [b],
    when the handlers the event calls return and keep the registrations and
    the bitfield. *)
Lemma key_event_bit_app {F : Type} `{Num F} (app : application F)
  (fuel : nat) (self : SixAxis F) (code b v c : Z) :
  button_of_code code = Some b -> (0 <= c)%Z ->
  called_handlers_keep app (button_handlers self) b ->
  (List.length (button_handlers self) < fuel)%nat ->
  exists s calls,
    handle_event_app app fuel self (mkEvent ecodes.EV_KEY code v) =
      Some (s, calls, None) /\
    (keeps_axes_count app ->
     List.length (axes s) = List.length (axes self)) /\
    button_handlers s = button_handlers self /\
    Z.testbit (buttons_pressed s) c =
      if (b =? c)%Z then (v =? 1)%Z else Z.testbit (buttons_pressed self) c.
Proof.
  intros Hb Hc Hkeep Hfuel.
  pose proof (button_of_code_range code b Hb) as [Hb0 _].
  destruct (Z.eqb_spec v 1) as [-> | Hv].
  - destruct (handle_press_app app fuel self code b Hb Hkeep Hfuel)
      as (s & E & P & Hh & Hax).
    exists s, (matching_calls (button_handlers self) b).
    split; [exact E|]. split; [exact Hax|]. split; [exact Hh|].
    rewrite P. destruct (Z.eqb_spec b c) as [-> | Hne].
    + apply testbit_after_set; assumption.
    + apply testbit_lor_other; auto.
  - rewrite (handle_not_press_app app fuel self code b v Hb Hv).
    eexists. eexists. split; [reflexivity|].
    cbn [axes buttons_pressed button_handlers with_buttons_pressed].
    split; [reflexivity|]. split; [reflexivity|].
    destruct (Z.eqb_spec b c) as [-> | Hne].
    + apply testbit_after_clear; assumption.
    + apply testbit_land_lnot_other; auto.
Qed.

(** X13.  [is_pressed] after one key event, when the handlers the event
    calls return normally and change neither the registrations nor the
    button bitfield: for the button the event addresses it is true exactly
    when the event's value is 1, and for every other button it is what it
    was before the event. *)
Theorem is_pressed_after_key_event :
  forall (F : Type) (N : Num F) (app : application F) (fuel : nat)
         (self : SixAxis F) (code b v c : Z),
    button_of_code code = Some b -> (0 <= c)%Z ->
    called_handlers_keep app (button_handlers self) b ->
    (List.length (button_handlers self) < fuel)%nat ->
    exists s calls,
      handle_event_app app fuel self (mkEvent ecodes.EV_KEY code v) =
        Some (s, calls, None) /\
      exists before,
        is_pressed self c = Ok before /\
        is_pressed s c = Ok (if (b =? c)%Z then (v =? 1)%Z else before).
Proof.
  intros F N app fuel self code b v c Hb Hc Hkeep Hfuel.
  destruct (key_event_bit_app app fuel self code b v c Hb Hc Hkeep Hfuel)
    as (s & calls & E & _ & _ & Hbit).
  exists s, calls. split; [exact E|].
  exists (Z.testbit (buttons_pressed self) c).
  rewrite !is_pressed_testbit by assumption.
  rewrite Hbit. split; reflexivity.
Qed.

Lemma is_pressed_after_key_event_witness :
  let recentring : application float :=
    fun _ _ s => (set_axis_centres s, None) in
  let self : SixAxis float :=
    {| _stop_function := None; axes := [];
       button_handlers :=
         [ {| reg_id := 0; reg_handler := user_function 1;
              mask := Z.shiftl 1 BUTTON_CIRCLE |} ];
       buttons_pressed := Z.shiftl 1 BUTTON_CROSS; allocated := 1 |} in
  button_of_code 305 = Some BUTTON_CIRCLE /\ (0 <= BUTTON_CROSS)%Z /\
  called_handlers_keep recentring (button_handlers self) BUTTON_CIRCLE /\
  (List.length (button_handlers self) < 2)%nat /\
  exists s calls,
    handle_event_app recentring 2 self (mkEvent ecodes.EV_KEY 305 1) =
      Some (s, calls, None) /\
    exists before,
      is_pressed self BUTTON_CROSS = Ok before /\
      is_pressed s BUTTON_CROSS =
        Ok (if (BUTTON_CIRCLE =? BUTTON_CROSS)%Z then (1 =? 1)%Z else before).
Proof.
  intros recentring self.
  assert (H : (0 <= BUTTON_CROSS)%Z) by (unfold BUTTON_CROSS; lia).
  assert (Hkeep : called_handlers_keep recentring (button_handlers self)
                    BUTTON_CIRCLE).
  { apply all_keep_called. intros f b s.
    eexists. split; [reflexivity|]. split; reflexivity. }
  assert (Hfuel : (List.length (button_handlers self) < 2)%nat)
    by (cbn; lia).
  split; [reflexivity|]. split; [exact H|].
  split; [exact Hkeep|]. split; [exact Hfuel|].
  exact (is_pressed_after_key_event float Num_float recentring 2 self 305
           BUTTON_CIRCLE 1 BUTTON_CROSS eq_refl H Hkeep Hfuel).
Defined.

Lemma last_key_value_cons (c : Z) (e : event) (rest : list event) :
  last_key_value c (e :: rest) =
    match last_key_value c rest with
    | Some v => Some v
    | None => last_key_value c [e]
    end.
Proof.
  cbn [last_key_value]. destruct (last_key_value c rest); reflexivity.
Qed.

(** One event of any kind on a controller with four axes, when the
    functions of the application return normally and change neither the
    registrations, the bitfield nor the number of axes. *)
Lemma event_bit_app (app : application float) (fuel : nat)
  (self : SixAxis float) (e : event) (c : Z) :
  (forall f b, keeps_registry_and_buttons app f b) ->
  keeps_axes_count app ->
  List.length (axes self) = 4%nat ->
  (List.length (button_handlers self) < fuel)%nat ->
  (0 <= c)%Z ->
  exists s calls,
    handle_event_app app fuel self e = Some (s, calls, None) /\
    List.length (axes s) = 4%nat /\
    button_handlers s = button_handlers self /\
    Z.testbit (buttons_pressed s) c =
      match last_key_value c [e] with
      | Some v => (v =? 1)%Z
      | None => Z.testbit (buttons_pressed self) c
      end.
Proof.
  intros Hall Hax Hlen Hfuel Hc. destruct e as [t code v].
  cbn [last_key_value ev_type ev_code ev_value].
  destruct (Z.eq_dec t ecodes.EV_ABS) as [-> | Hna].
  - change (ecodes.EV_ABS =? ecodes.EV_KEY)%Z with false. cbv iota.
    rewrite handle_abs_event_app.
    assert (Hset : forall i, (i < 4)%nat ->
              exists s calls,
                store_sample self i (sample v) = Some (s, calls, None) /\
                List.length (axes s) = 4%nat /\
                button_handlers s = button_handlers self /\
                Z.testbit (buttons_pressed s) c =
                  Z.testbit (buttons_pressed self) c).
    { intros i Hi.
      destruct (store_sample_total self i (sample v)) as (s & E & L & Hbp & Hh);
        [lia|].
      exists s, []. rewrite Hbp. repeat split; [exact E | lia | exact Hh]. }
    destruct (code =? 0)%Z; [apply (Hset 0%nat); lia|].
    destruct (code =? 1)%Z; [apply (Hset 1%nat); lia|].
    destruct (code =? 3)%Z; [apply (Hset 2%nat); lia|].
    destruct (code =? 4)%Z; [apply (Hset 3%nat); lia|].
    exists self, []. auto.
  - destruct (Z.eqb_spec t ecodes.EV_KEY) as [-> | Hnk].
    + destruct (button_of_code code) as [b|] eqn:Hb.
      * destruct (key_event_bit_app app fuel self code b v c Hb Hc
                    (all_keep_called app _ b Hall) Hfuel)
          as (s & calls & E & L & Hh & Hbit).
        exists s, calls. split; [exact E|].
        split; [rewrite (L Hax); exact Hlen|]. split; [exact Hh|].
        rewrite Hbit. destruct (b =? c)%Z; reflexivity.
      * exists self, []. split; [|auto].
        unfold handle_event_app. cbn [ev_type ev_code ev_value].
        change (ecodes.EV_KEY =? ecodes.EV_ABS)%Z with false.
        change (ecodes.EV_KEY =? ecodes.EV_KEY)%Z with true.
        cbv iota. rewrite Hb. reflexivity.
    + exists self, []. split; [|auto].
      unfold handle_event_app. cbn [ev_type ev_code ev_value].
      destruct (Z.eqb_spec t ecodes.EV_ABS); [contradiction|].
      destruct (Z.eqb_spec t ecodes.EV_KEY); [contradiction|].
      reflexivity.
Qed.

Lemma events_bit_app (app : application float) (fuel : nat) (c : Z) :
  (forall f b, keeps_registry_and_buttons app f b) ->
  keeps_axes_count app ->
  (0 <= c)%Z ->
  forall (events : list event) (self : SixAxis float),
    List.length (axes self) = 4%nat ->
    (List.length (button_handlers self) < fuel)%nat ->
    exists s calls,
      handle_events_app app fuel self events = Some (s, calls, None) /\
      List.length (axes s) = 4%nat /\
      button_handlers s = button_handlers self /\
      Z.testbit (buttons_pressed s) c =
        match last_key_value c events with
        | Some v => (v =? 1)%Z
        | None => Z.testbit (buttons_pressed self) c
        end.
Proof.
  intros Hall Hax Hc.
  induction events as [|e rest IH]; intros self Hlen Hfuel.
  - exists self, []. split; [reflexivity|]. split; [exact Hlen|].
    split; reflexivity.
  - destruct (event_bit_app app fuel self e c Hall Hax Hlen Hfuel Hc)
      as (s1 & c1 & E1 & L1 & H1 & B1).
    destruct (IH s1 L1) as (s2 & c2 & E2 & L2 & H2 & B2);
      [rewrite H1; exact Hfuel|].
    exists s2, (c1 ++ c2). split.
    + cbn [handle_events_app]. rewrite E1, E2. reflexivity.
    + split; [exact L2|]. split; [congruence|].
      rewrite last_key_value_cons, B2.
      destruct (last_key_value c rest); [reflexivity | exact B1].
Qed.

(** X11.  A controller with its four axes handles every sequence of
    events, of any types and codes and with signed 32-bit values, without
    raising, provided the functions of the application return normally and
    change neither the registrations, the button bitfield nor the number of
    axes: every dispatch loop ends, the controller still has four axes
    afterwards, and no registration is added or lost. *)
Theorem handle_events_never_raises :
  forall (app : application float) (fuel : nat) (events : list event)
         (self : SixAxis float),
    (forall f b, keeps_registry_and_buttons app f b) ->
    keeps_axes_count app ->
    Forall (fun e => signed_32 (ev_value e)) events ->
    List.length (axes self) = 4%nat ->
    (List.length (button_handlers self) < fuel)%nat ->
    exists s calls,
      handle_events_app app fuel self events = Some (s, calls, None) /\
      List.length (axes s) = 4%nat /\
      button_handlers s = button_handlers self.
Proof.
  intros app fuel events self Hall Hax _ Hlen Hfuel.
  destruct (events_bit_app app fuel 0 Hall Hax (Z.le_refl 0) events self
              Hlen Hfuel) as (s & calls & E & L & Hh & _).
  exists s, calls. auto.
Qed.

Lemma handle_events_never_raises_witness :
  let recentring : application float :=
    fun _ _ s => (set_axis_centres s, None) in
  let a : Axis float := Axis_init "axis" false (lit 0.05) (lit 0) in
  let s0 := {| _stop_function := None; axes := [a; a; a; a];
               button_handlers :=
                 [ {| reg_id := 0;
                      reg_handler := reset_axis_calibration_method;
                      mask := Z.shiftl 1 BUTTON_START |};
                   {| reg_id := 1; reg_handler := user_function 1;
                      mask := Z.shiftl 1 BUTTON_START |} ];
               buttons_pressed := 0; allocated := 2 |} in
  let events := [ mkEvent ecodes.EV_ABS 0 (-7); mkEvent ecodes.EV_ABS 4 999;
                  mkEvent ecodes.EV_KEY 315 1; mkEvent 0 0 0;
                  mkEvent ecodes.EV_KEY 315 0 ] in
  (forall f b, keeps_registry_and_buttons recentring f b) /\
  keeps_axes_count recentring /\
  Forall (fun e => signed_32 (ev_value e)) events /\
  List.length (axes s0) = 4%nat /\
  (List.length (button_handlers s0) < 3)%nat /\
  exists s calls,
    handle_events_app recentring 3 s0 events = Some (s, calls, None) /\
    List.length (axes s) = 4%nat /\
    button_handlers s = button_handlers s0.
Proof.
  intros recentring a s0 events.
  assert (Hall : forall f b, keeps_registry_and_buttons recentring f b).
  { intros f b s. eexists. split; [reflexivity|]. split; reflexivity. }
  assert (Hax : keeps_axes_count recentring).
  { intros f b s. cbn. apply length_map. }
  assert (H32 : Forall (fun e => signed_32 (ev_value e)) events).
  { unfold events, signed_32.
    repeat constructor; cbn [ev_value]; lia. }
  assert (Hfuel : (List.length (button_handlers s0) < 3)%nat) by (cbn; lia).
  split; [exact Hall|]. split; [exact Hax|]. split; [exact H32|].
  split; [reflexivity|]. split; [exact Hfuel|].
  exact (handle_events_never_raises recentring 3 events s0 Hall Hax H32
           eq_refl Hfuel).
Defined.

(** X14.  The last event wins: after any sequence of events with signed
    32-bit values delivered to a controller with its four axes,
    [is_pressed(button)] is true exactly when the last key event that
    addressed the button had value 1, and is what it was before when no key
    event addressed it, provided the functions of the application return
    normally and change neither the registrations, the button bitfield nor
    the number of axes.  Axis events and unknown events in between change
    nothing of this. *)
Theorem is_pressed_follows_last_key_event :
  forall (app : application float) (fuel : nat) (events : list event)
         (self : SixAxis float) (c : Z),
    (forall f b, keeps_registry_and_buttons app f b) ->
    keeps_axes_count app ->
    Forall (fun e => signed_32 (ev_value e)) events ->
    List.length (axes self) = 4%nat ->
    (List.length (button_handlers self) < fuel)%nat ->
    (0 <= c)%Z ->
    exists s calls,
      handle_events_app app fuel self events = Some (s, calls, None) /\
      exists before,
        is_pressed self c = Ok before /\
        is_pressed s c =
          Ok (match last_key_value c events with
              | Some v => (v =? 1)%Z
              | None => before
              end).
Proof.
  intros app fuel events self c Hall Hax _ Hlen Hfuel Hc.
  destruct (events_bit_app app fuel c Hall Hax Hc events self Hlen Hfuel)
    as (s & calls & E & _ & _ & B).
  exists s, calls. split; [exact E|].
  exists (Z.testbit (buttons_pressed self) c).
  rewrite !is_pressed_testbit by assumption.
  rewrite B. split; reflexivity.
Qed.

Lemma is_pressed_follows_last_key_event_witness :
  let recentring : application float :=
    fun _ _ s => (set_axis_centres s, None) in
  let a : Axis float := Axis_init "axis" false (lit 0.05) (lit 0) in
  let s0 := {| _stop_function := None; axes := [a; a; a; a];
               button_handlers :=
                 [ {| reg_id := 0; reg_handler := user_function 1;
                      mask := Z.shiftl 1 BUTTON_CIRCLE |} ];
               buttons_pressed := 0; allocated := 1 |} in
  let events := [ mkEvent ecodes.EV_KEY 305 1; mkEvent ecodes.EV_ABS 0 17;
                  mkEvent ecodes.EV_KEY 304 1; mkEvent ecodes.EV_KEY 305 0;
                  mkEvent ecodes.EV_KEY 305 1 ] in
  (forall f b, keeps_registry_and_buttons recentring f b) /\
  keeps_axes_count recentring /\
  Forall (fun e => signed_32 (ev_value e)) events /\
  List.length (axes s0) = 4%nat /\
  (List.length (button_handlers s0) < 2)%nat /\
  (0 <= BUTTON_CIRCLE)%Z /\
  exists s calls,
    handle_events_app recentring 2 s0 events = Some (s, calls, None) /\
    exists before,
      is_pressed s0 BUTTON_CIRCLE = Ok before /\
      is_pressed s BUTTON_CIRCLE =
        Ok (match last_key_value BUTTON_CIRCLE events with
            | Some v => (v =? 1)%Z
            | None => before
            end).
Proof.
  intros recentring a s0 events.
  assert (Hall : forall f b, keeps_registry_and_buttons recentring f b).
  { intros f b s. eexists. split; [reflexivity|]. split; reflexivity. }
  assert (Hax : keeps_axes_count recentring).
  { intros f b s. cbn. apply length_map. }
  assert (H32 : Forall (fun e => signed_32 (ev_value e)) events).
  { unfold events, signed_32.
    repeat constructor; cbn [ev_value]; lia. }
  assert (Hfuel : (List.length (button_handlers s0) < 2)%nat) by (cbn; lia).
  assert (H : (0 <= BUTTON_CIRCLE)%Z) by (unfold BUTTON_CIRCLE; lia).
  split; [exact Hall|]. split; [exact Hax|]. split; [exact H32|].
  split; [reflexivity|]. split; [exact Hfuel|]. split; [exact H|].
  exact (is_pressed_follows_last_key_event recentring 2 events s0
           BUTTON_CIRCLE Hall Hax H32 eq_refl Hfuel H).
Defined.

(** X15.  Draining the history also forgets which buttons are held: after
    a press of a mapped button and no release, with handlers that return
    normally and change neither the registrations nor the button bitfield,
    [get_and_clear_button_press_history()] returns a bitfield with the
    button's bit set, and from then on [is_pressed] is false for every
    button, the held one included. *)
Theorem drain_forgets_held_buttons :
  forall (F : Type) (N : Num F) (app : application F) (fuel : nat)
         (self : SixAxis F) (code b c : Z),
    button_of_code code = Some b -> (0 <= c)%Z ->
    called_handlers_keep app (button_handlers self) b ->
    (List.length (button_handlers self) < fuel)%nat ->
    exists s calls,
      handle_event_app app fuel self (mkEvent ecodes.EV_KEY code 1) =
        Some (s, calls, None) /\
      is_pressed s b = Ok true /\
      Z.testbit (fst (get_and_clear_button_press_history s)) b = true /\
      is_pressed (snd (get_and_clear_button_press_history s)) b = Ok false /\
      is_pressed (snd (get_and_clear_button_press_history s)) c = Ok false.
Proof.
  intros F N app fuel self code b c Hb Hc Hkeep Hfuel.
  pose proof (button_of_code_range code b Hb) as [Hb0 _].
  destruct (handle_press_app app fuel self code b Hb Hkeep Hfuel)
    as (s & E & P & _).
  exists s, (matching_calls (button_handlers self) b).
  split; [exact E|].
  rewrite !is_pressed_testbit by assumption.
  cbn [get_and_clear_button_press_history fst snd buttons_pressed
       with_buttons_pressed].
  rewrite P, testbit_after_set, !Z.bits_0 by assumption.
  repeat split.
Qed.

Lemma drain_forgets_held_buttons_witness :
  let recentring : application float :=
    fun _ _ s => (set_axis_centres s, None) in
  let self : SixAxis float :=
    {| _stop_function := None; axes := [];
       button_handlers :=
         [ {| reg_id := 0; reg_handler := user_function 1;
              mask := Z.shiftl 1 BUTTON_CROSS |} ];
       buttons_pressed := 0; allocated := 1 |} in
  button_of_code 304 = Some BUTTON_CROSS /\ (0 <= BUTTON_PS)%Z /\
  called_handlers_keep recentring (button_handlers self) BUTTON_CROSS /\
  (List.length (button_handlers self) < 2)%nat /\
  exists s calls,
    handle_event_app recentring 2 self (mkEvent ecodes.EV_KEY 304 1) =
      Some (s, calls, None) /\
    is_pressed s BUTTON_CROSS = Ok true /\
    Z.testbit (fst (get_and_clear_button_press_history s)) BUTTON_CROSS
      = true /\
    is_pressed (snd (get_and_clear_button_press_history s)) BUTTON_CROSS
      = Ok false /\
    is_pressed (snd (get_and_clear_button_press_history s)) BUTTON_PS
      = Ok false.
Proof.
  intros recentring self.
  assert (H : (0 <= BUTTON_PS)%Z) by (unfold BUTTON_PS; lia).
  assert (Hkeep : called_handlers_keep recentring (button_handlers self)
                    BUTTON_CROSS).
  { apply all_keep_called. intros f b s.
    eexists. split; [reflexivity|]. split; reflexivity. }
  assert (Hfuel : (List.length (button_handlers self) < 2)%nat)
    by (cbn; lia).
  split; [reflexivity|]. split; [exact H|].
  split; [exact Hkeep|]. split; [exact Hfuel|].
  exact (drain_forgets_held_buttons float Num_float recentring 2 self 304
           BUTTON_CROSS BUTTON_PS eq_refl H Hkeep Hfuel).
Defined.

(** ** Registering and removing handlers *)

Lemma list_remove_absent (h : registration) (l : list registration) :
  (forall g, In g l -> reg_eqb g h = false) ->
  list_remove h l = Raise ValueError.
Proof.
  induction l as [|g l IH]; intro Hne; cbn; [reflexivity|].
  rewrite (Hne g (or_introl eq_refl)).
  rewrite IH; [reflexivity|].
  intros g' Hg'. apply Hne. right. exact Hg'.
Qed.

(** X16.  Registering a handler and invoking the returned capability puts
    the list of registrations back as it was, provided no registration with
    the same handler and the same mask was there before; invoking the
    capability a second time then raises [ValueError]. *)
Theorem register_then_remove_restores :
  forall (F : Type) (N : Num F) (self s1 : SixAxis F) (f : handler)
         (buttons : buttons_arg) (h : registration),
    register_button_handler self f buttons = Ok (s1, h) ->
    (forall g, In g (button_handlers self) -> reg_eqb g h = false) ->
    exists s2,
      remove h s1 = Ok s2 /\
      button_handlers s2 = button_handlers self /\
      axes s2 = axes self /\
      buttons_pressed s2 = buttons_pressed self /\
      remove h s2 = Raise ValueError.
Proof.
  intros F N self s1 f buttons h R Hne.
  unfold register_button_handler in R.
  destruct (build_mask buttons) as [m|] eqn:M; [|discriminate].
  cbn [bind] in R. inversion R; subst s1 h; clear R.
  set (h := {| reg_id := allocated self; reg_handler := f; mask := m |}) in *.
  unfold remove at 1. cbn [button_handlers].
  rewrite (list_remove_first h [] (button_handlers self) Hne).
  cbn [bind]. rewrite app_nil_r.
  eexists. split; [reflexivity|].
  cbn [button_handlers axes buttons_pressed].
  repeat split.
  unfold remove. cbn [button_handlers].
  rewrite (list_remove_absent h (button_handlers self) Hne). reflexivity.
Qed.

Lemma register_then_remove_restores_witness :
  let self : SixAxis float :=
    {| _stop_function := None; axes := [];
       button_handlers := [ {| reg_id := 0; reg_handler := user_function 7;
                               mask := Z.shiftl 1 BUTTON_CIRCLE |} ];
       buttons_pressed := 0; allocated := 1 |} in
  let h := {| reg_id := 1; reg_handler := user_function 8;
              mask := Z.shiftl 1 BUTTON_CIRCLE |} in
  exists s1,
    register_button_handler self (user_function 8) (bare BUTTON_CIRCLE)
      = Ok (s1, h) /\
    exists s2,
      remove h s1 = Ok s2 /\
      button_handlers s2 = button_handlers self /\
      axes s2 = axes self /\
      buttons_pressed s2 = buttons_pressed self /\
      remove h s2 = Raise ValueError.
Proof.
  intros self h. eexists. split; [reflexivity|].
  refine (register_then_remove_restores float Num_float self _
            (user_function 8) (bare BUTTON_CIRCLE) h eq_refl _).
  intros g [<- | []]. reflexivity.
Defined.

Lemma mask_loop_raises (l : list Z) :
  forall m : Z,
    (exists c, In c l /\ (c < 0)%Z) -> mask_loop m l = Raise ValueError.
Proof.
  induction l as [|c l IH]; intros m (x & Hx & Hneg); [destruct Hx|].
  cbn [mask_loop]. unfold shl1.
  destruct (Z.ltb_spec c 0) as [_ | Hc]; [reflexivity|].
  cbn [bind]. apply IH.
  destruct Hx as [-> | Hx]; [lia | exists x; auto].
Qed.

Lemma mask_loop_returns (l : list Z) :
  forall m : Z,
    (forall c, In c l -> (0 <= c)%Z) ->
    mask_loop m l =
      Ok (fold_left (fun a c => (a + Z.shiftl 1 c)%Z) l m).
Proof.
  induction l as [|c l IH]; intros m Hpos; [reflexivity|].
  cbn [mask_loop fold_left].
  rewrite (shl1_nonneg c) by (apply Hpos; left; reflexivity).
  cbn [bind]. apply IH. intros d Hd. apply Hpos. right. exact Hd.
Qed.

(** X17.  [register_button_handler] raises [ValueError] exactly when one
    of the button codes is negative, and then registers nothing; otherwise
    it appends one registration, with the handler given and the sum of the
    [1 << code] as its mask, behind the registrations already there. *)
Theorem register_button_handler_outcome :
  forall (F : Type) (N : Num F) (self : SixAxis F) (f : handler)
         (codes : list Z),
    ((exists c, In c codes /\ (c < 0)%Z) ->
     register_button_handler self f (button_list codes) = Raise ValueError) /\
    ((forall c, In c codes -> (0 <= c)%Z) ->
     exists s h,
       register_button_handler self f (button_list codes) = Ok (s, h) /\
       button_handlers s = button_handlers self ++ [h] /\
       reg_handler h = f /\
       mask h = fold_left (fun a c => (a + Z.shiftl 1 c)%Z) codes 0%Z /\
       axes s = axes self /\
       buttons_pressed s = buttons_pressed self).
Proof.
  intros F N self f codes. split.
  - intro Hneg. unfold register_button_handler, build_mask.
    rewrite (mask_loop_raises codes 0 Hneg). reflexivity.
  - intro Hpos. unfold register_button_handler, build_mask.
    rewrite (mask_loop_returns codes 0 Hpos). cbn [bind].
    eexists. eexists. split; [reflexivity|].
    cbn. auto 6.
Qed.

Lemma register_button_handler_outcome_witness :
  let self : SixAxis float :=
    {| _stop_function := None; axes := []; button_handlers := [];
       buttons_pressed := 0; allocated := 0 |} in
  (exists c, In c [BUTTON_CIRCLE; (-1)%Z] /\ (c < 0)%Z) /\
  register_button_handler self (user_function 1)
    (button_list [BUTTON_CIRCLE; (-1)%Z]) = Raise ValueError.
Proof.
  intro self.
  assert (H : exists c, In c [BUTTON_CIRCLE; (-1)%Z] /\ (c < 0)%Z).
  { exists (-1)%Z. split; [right; left; reflexivity | lia]. }
  split; [exact H|].
  exact (proj1 (register_button_handler_outcome float Num_float self
                  (user_function 1) [BUTTON_CIRCLE; (-1)%Z]) H).
Defined.

(** X18.  For a bare non-negative button code, and for a list of
    non-negative button codes without repeats, the mask stored by
    [register_button_handler] is the bitwise OR of the [1 << code]: bit [c]
    of the mask is set exactly for the codes [c] supplied. *)
Theorem mask_of_distinct_codes :
  (forall b : Z, (0 <= b)%Z -> build_mask (bare b) = Ok (spec_mask [b])) /\
  (forall codes : list Z,
     NoDup codes -> (forall c, In c codes -> (0 <= c)%Z) ->
     build_mask (button_list codes) = Ok (spec_mask codes) /\
     forall c, (0 <= c)%Z ->
       (Z.testbit (spec_mask codes) c = true <-> In c codes)).
Proof.
  split; [exact build_mask_bare|].
  intros codes Hnd Hpos. split; [apply build_mask_distinct; assumption|].
  unfold spec_mask.
  assert (Hgen : forall (l : list Z) (m c : Z),
             (forall d, In d l -> (0 <= d)%Z) -> (0 <= c)%Z ->
             (Z.testbit
                (fold_left (fun m code => Z.lor m (Z.shiftl 1 code)) l m) c
                = true <->
              Z.testbit m c = true \/ In c l)).
  { clear. induction l as [|d l IH]; intros m c Hpos Hc; cbn [fold_left In].
    - tauto.
    - assert (Hd : (0 <= d)%Z) by (apply Hpos; left; reflexivity).
      assert (Hl : forall x, In x l -> (0 <= x)%Z)
        by (intros x Hx; apply Hpos; right; exact Hx).
      rewrite (IH _ c Hl Hc).
      rewrite Z.lor_spec, orb_true_iff.
      rewrite (testbit_one_shifted d c Hd Hc).
      rewrite Z.eqb_eq. intuition congruence. }
  intros c Hc. rewrite (Hgen codes 0%Z c Hpos Hc).
  rewrite Z.bits_0. intuition discriminate.
Qed.

Lemma mask_of_distinct_codes_witness :
  (0 <= BUTTON_START)%Z /\
  build_mask (bare BUTTON_START) = Ok (spec_mask [BUTTON_START]) /\
  NoDup [BUTTON_SQUARE; BUTTON_CIRCLE; BUTTON_PS] /\
  (forall c, In c [BUTTON_SQUARE; BUTTON_CIRCLE; BUTTON_PS] -> (0 <= c)%Z) /\
  build_mask (button_list [BUTTON_SQUARE; BUTTON_CIRCLE; BUTTON_PS]) =
    Ok (spec_mask [BUTTON_SQUARE; BUTTON_CIRCLE; BUTTON_PS]).
Proof.
  assert (H0 : (0 <= BUTTON_START)%Z) by (unfold BUTTON_START; lia).
  assert (Hnd : NoDup [BUTTON_SQUARE; BUTTON_CIRCLE; BUTTON_PS]).
  { repeat constructor; cbn; intro H;
      repeat destruct H as [H | H]; try discriminate H; exact H. }
  assert (Hpos : forall c, In c [BUTTON_SQUARE; BUTTON_CIRCLE; BUTTON_PS] ->
                           (0 <= c)%Z).
  { intros c H. cbn in H.
    repeat destruct H as [<- | H]; try discriminate; destruct H. }
  split; [exact H0|].
  split; [exact (proj1 mask_of_distinct_codes BUTTON_START H0)|].
  split; [exact Hnd|]. split; [exact Hpos|].
  exact (proj1 (proj2 mask_of_distinct_codes _ Hnd Hpos)).
Defined.

(** X19.  When no earlier registration has the same handler and mask, and
    dict identities are distinct, invoking the capability removes its own
    registration and nothing else: the other registrations keep their
    order, and a press afterwards calls exactly the handlers of the
    remaining registrations that match, in that order, provided each
    handler so called returns normally and changes neither the
    registrations nor the button bitfield. *)
Theorem remove_own_registration :
  forall (F : Type) (N : Num F) (app : application F) (fuel : nat)
         (self : SixAxis F) (h : registration)
         (l1 l2 : list registration) (code b : Z),
    button_handlers self = l1 ++ h :: l2 ->
    (forall g, In g l1 -> reg_eqb g h = false) ->
    (forall g, In g (l1 ++ l2) -> reg_id g <> reg_id h) ->
    button_of_code code = Some b ->
    called_handlers_keep app (l1 ++ l2) b ->
    (List.length (l1 ++ l2) < fuel)%nat ->
    exists s s',
      remove h self = Ok s /\
      button_handlers s = l1 ++ l2 /\
      button_handlers s = remove_own h (button_handlers self) /\
      handle_event_app app fuel s (mkEvent ecodes.EV_KEY code 1) =
        Some (s', matching_calls (l1 ++ l2) b, None).
Proof.
  intros F N app fuel self h l1 l2 code b Hl Hne Hid Hb Hkeep Hfuel.
  destruct (remove_is_remove_own self h l1 l2 Hl Hne Hid)
    as (s & R & Hh & _ & _).
  assert (Hh' : button_handlers s = l1 ++ l2).
  { rewrite Hh, Hl. apply remove_own_unique. exact Hid. }
  rewrite <- Hh' in Hkeep, Hfuel.
  destruct (handle_press_app app fuel s code b Hb Hkeep Hfuel)
    as (s' & E & _).
  exists s, s'. rewrite Hh' in E. auto.
Qed.

Lemma remove_own_registration_witness :
  let recentring : application float :=
    fun _ _ s => (set_axis_centres s, None) in
  let h1 := {| reg_id := 0; reg_handler := user_function 1;
               mask := Z.shiftl 1 BUTTON_CIRCLE |} in
  let h2 := {| reg_id := 1; reg_handler := user_function 2;
               mask := (Z.shiftl 1 BUTTON_CIRCLE + Z.shiftl 1 BUTTON_CROSS)%Z |} in
  let h3 := {| reg_id := 2; reg_handler := user_function 3;
               mask := Z.shiftl 1 BUTTON_CIRCLE |} in
  let self : SixAxis float :=
    {| _stop_function := None; axes := [];
       button_handlers := [h1; h2; h3];
       buttons_pressed := 0; allocated := 3 |} in
  exists s s',
    remove h2 self = Ok s /\
    button_handlers s = [h1] ++ [h3] /\
    button_handlers s = remove_own h2 (button_handlers self) /\
    handle_event_app recentring 3 s (mkEvent ecodes.EV_KEY 305 1) =
      Some (s', matching_calls ([h1] ++ [h3]) BUTTON_CIRCLE, None).
Proof.
  intros recentring h1 h2 h3 self.
  refine (remove_own_registration float Num_float recentring 3 self h2
            [h1] [h3] 305 BUTTON_CIRCLE eq_refl _ _ eq_refl _ _).
  - intros g [<- | []]. reflexivity.
  - intros g [<- | [<- | []]]; discriminate.
  - apply all_keep_called. intros f b s.
    eexists. split; [reflexivity|]. split; reflexivity.
  - cbn. lia.
Defined.

(** ** Device discovery and the connection *)

(** X20.  [find_controller_device] returns the first device of the
    listing whose name is the controller name, skipping the devices before
    it, and raises [IOError] exactly when no device of the listing has that
    name. *)
Theorem find_controller_device_first_match :
  forall (controller_name : string) (devices : list InputDevice),
    (forall d,
       find_controller_device controller_name devices = Ok d <->
       exists l1 l2,
         devices = l1 ++ d :: l2 /\
         device_name d = controller_name /\
         forall x, In x l1 -> device_name x <> controller_name) /\
    (find_controller_device controller_name devices = Raise IOError <->
     forall x, In x devices -> device_name x <> controller_name).
Proof.
  intros controller_name devices.
  induction devices as [|x rest [IHok IHraise]].
  - split.
    + intro d. split; [discriminate|].
      intros (l1 & l2 & E & _). destruct l1; discriminate.
    + split; [intros _ x [] | reflexivity].
  - cbn [find_controller_device].
    destruct (String.eqb_spec (device_name x) controller_name) as [Ex | Nx].
    + split.
      * intro d. split.
        -- intro E. inversion E; subst d.
           exists [], rest. repeat split; [exact Ex | intros y []].
        -- intros (l1 & l2 & E & Hd & Hskip).
           destruct l1 as [|y l1].
           ++ cbn in E. inversion E. reflexivity.
           ++ cbn in E. inversion E; subst y.
              exfalso. apply (Hskip x); [left; reflexivity | exact Ex].
      * split; [discriminate|].
        intro Hno. exfalso. apply (Hno x); [left; reflexivity | exact Ex].
    + split.
      * intro d. rewrite IHok. split.
        -- intros (l1 & l2 & E & Hd & Hskip).
           exists (x :: l1), l2. rewrite E. repeat split; [exact Hd|].
           intros y [<- | Hy]; [exact Nx | apply Hskip, Hy].
        -- intros (l1 & l2 & E & Hd & Hskip).
           destruct l1 as [|y l1].
           ++ cbn in E. inversion E; subst d. contradiction.
           ++ cbn in E. inversion E; subst y.
              exists l1, l2. repeat split; [exact Hd|].
              intros z Hz. apply Hskip. right. exact Hz.
      * rewrite IHraise. split.
        -- intros Hno y [<- | Hy]; [exact Nx | apply Hno, Hy].
        -- intros Hno y Hy. apply Hno. right. exact Hy.
Qed.

Lemma find_controller_device_first_match_witness :
  let pad1 := {| fn := "/dev/input/event5";
                 device_name := "PLAYSTATION(R)3 Controller" |} in
  let pad2 := {| fn := "/dev/input/event6";
                 device_name := "PLAYSTATION(R)3 Controller" |} in
  let kbd := {| fn := "/dev/input/event0"; device_name := "AT Keyboard" |} in
  (exists l1 l2,
     [kbd; pad1; pad2] = l1 ++ pad1 :: l2 /\
     device_name pad1 = "PLAYSTATION(R)3 Controller"%string /\
     forall x, In x l1 ->
               device_name x <> "PLAYSTATION(R)3 Controller"%string) /\
  find_controller_device "PLAYSTATION(R)3 Controller" [kbd; pad1; pad2]
    = Ok pad1.
Proof.
  intros pad1 pad2 kbd.
  assert (H : exists l1 l2,
             [kbd; pad1; pad2] = l1 ++ pad1 :: l2 /\
             device_name pad1 = "PLAYSTATION(R)3 Controller"%string /\
             forall x, In x l1 ->
                       device_name x <> "PLAYSTATION(R)3 Controller"%string).
  { exists [kbd], [pad2]. repeat split.
    intros x [<- | []]. discriminate. }
  split; [exact H|].
  exact (proj2 (proj1 (find_controller_device_first_match
                         "PLAYSTATION(R)3 Controller" [kbd; pad1; pad2])
                  pad1) H).
Defined.

(** X21.  The connection life cycle keeps the controller's state:
    [disconnect()] leaves the controller disconnected, does nothing when
    repeated, and touches neither the axes, the registrations nor the
    button bitfield; a [connect] that succeeds after it leaves the
    controller connected with the same axes, registrations and bitfield,
    and a further [connect] returns [False] and changes nothing. *)
Theorem calibration_survives_reconnect :
  forall (F : Type) (N : Num F) (self : SixAxis F),
    is_connected (disconnect self) = false /\
    disconnect (disconnect self) = disconnect self /\
    axes (disconnect self) = axes self /\
    button_handlers (disconnect self) = button_handlers self /\
    buttons_pressed (disconnect self) = buttons_pressed self /\
    forall (dev : option string) (controller_name : string)
           (devices : list InputDevice) (opened : string -> InputDevice)
           (v : pyval) (s : SixAxis F),
      connect (disconnect self) dev controller_name devices opened
        = Ok (v, s) ->
      is_connected s = true /\
      axes s = axes self /\
      button_handlers s = button_handlers self /\
      buttons_pressed s = buttons_pressed self /\
      forall dev' name' devices' opened',
        connect s dev' name' devices' opened' = Ok (PyBool false, s).
Proof.
  intros F N self.
  assert (Hd : _stop_function (disconnect self) = None).
  { unfold disconnect. destruct (_stop_function self) eqn:E;
      [reflexivity | exact E]. }
  assert (Hframe : axes (disconnect self) = axes self /\
                   button_handlers (disconnect self) = button_handlers self /\
                   buttons_pressed (disconnect self) = buttons_pressed self).
  { unfold disconnect. destruct (_stop_function self); cbn; auto. }
  destruct Hframe as (Ha & Hh & Hb).
  split; [unfold is_connected; rewrite Hd; reflexivity|].
  split; [unfold disconnect at 1; rewrite Hd; reflexivity|].
  split; [exact Ha|]. split; [exact Hh|]. split; [exact Hb|].
  intros dev controller_name devices opened v s C.
  unfold connect in C. rewrite Hd in C.
  assert (Hs : exists d, s = _start_device_read_loop (disconnect self) d).
  { destruct dev as [path|].
    - cbn in C. inversion C. eexists. reflexivity.
    - destruct (find_controller_device controller_name devices) as [d|];
        cbn in C; inversion C. eexists. reflexivity. }
  destruct Hs as (d & ->).
  cbn [_start_device_read_loop with_stop_function is_connected
       _stop_function axes button_handlers buttons_pressed].
  repeat split; try assumption.
Qed.

Lemma calibration_survives_reconnect_witness :
  let a : Axis float := _set (Axis_init "left_x" false (lit 0.05) (lit 0))
                             (lit 1) in
  let self : SixAxis float :=
    {| _stop_function := Some "/dev/input/event5"%string; axes := [a];
       button_handlers := []; buttons_pressed := 4; allocated := 0 |} in
  let s := with_stop_function self (Some "/dev/input/event9"%string) in
  connect (disconnect self) (Some "/dev/input/event9"%string) ""
    [] (fun path => {| fn := path; device_name := "" |}) = Ok (PyNone, s) /\
  is_connected s = true /\ axes s = axes self.
Proof.
  intros a self s.
  assert (C : connect (disconnect self) (Some "/dev/input/event9"%string) ""
                [] (fun path => {| fn := path; device_name := "" |})
              = Ok (PyNone, s)) by reflexivity.
  split; [exact C|].
  pose proof (proj2 (proj2 (proj2 (proj2 (proj2
                (calibration_survives_reconnect float Num_float self)))))
                _ _ _ _ _ _ C) as (H1 & H2 & _).
  exact (conj H1 H2).
Defined.

(** ** Construction and the resource wrapper *)

Lemma SixAxis_init_bad {F : Type} `{Num F} (dz hz : F)
  (invert_axes : list bool) :
  List.length invert_axes <> 4%nat ->
  SixAxis_init dz hz invert_axes = Raise AssertionError.
Proof.
  destruct invert_axes as [|i0 [|i1 [|i2 [|i3 [|i4 rest]]]]];
    cbn [List.length SixAxis_init]; intro Hlen;
    try reflexivity; lia.
Qed.

Lemma SixAxis_init_ok {F : Type} `{Num F} (dz hz : F)
  (invert_axes : list bool) :
  List.length invert_axes = 4%nat ->
  exists s,
    SixAxis_init dz hz invert_axes = Ok s /\
    _stop_function s = None /\ button_handlers s = [].
Proof.
  destruct invert_axes as [|i0 [|i1 [|i2 [|i3 [|i4 rest]]]]];
    cbn [List.length SixAxis_init]; intro Hlen; try discriminate.
  eexists. split; [reflexivity|]. cbn. auto.
Qed.

(** The controller [__init__] has built when it reaches
    [if connect: self.connect()]. *)
Lemma SixAxis_init_fields {F : Type} `{Num F} (dz hz : F)
  (invert_axes : list bool) :
  List.length invert_axes = 4%nat ->
  exists s,
    SixAxis_init dz hz invert_axes = Ok s /\
    _stop_function s = None /\
    button_handlers s = [] /\
    buttons_pressed s = 0%Z /\
    map name (axes s) = ["left_x"; "left_y"; "right_x"; "right_y"]%string /\
    map invert (axes s) = invert_axes /\
    forall a, In a (axes s) ->
      dead_zone a = dz /\ hot_zone a = hz /\
      centre a = lit 0.5 /\ min a = lit 0.1 /\ max a = lit 0.9 /\
      value a = lit 0.5.
Proof.
  destruct invert_axes as [|i0 [|i1 [|i2 [|i3 [|i4 rest]]]]];
    cbn [List.length SixAxis_init]; intro Hlen; try discriminate.
  eexists. split; [reflexivity|].
  cbn [_stop_function button_handlers buttons_pressed axes map
       name invert Axis_init].
  do 5 (split; [reflexivity|]).
  intros a Ha.
  destruct Ha as [<- | [<- | [<- | [<- | []]]]]; repeat split.
Qed.

Lemma find_controller_device_found (controller_name : string)
  (devices : list InputDevice) :
  (exists d, In d devices /\ device_name d = controller_name) ->
  exists d, find_controller_device controller_name devices = Ok d.
Proof.
  induction devices as [|x rest IH]; intros (d & Hd & Hname);
    [destruct Hd|].
  cbn [find_controller_device].
  destruct (String.eqb_spec (device_name x) controller_name) as [_ | Nx].
  - exists x. reflexivity.
  - apply IH. destruct Hd as [-> | Hd]; [contradiction | exists d; auto].
Qed.

(** With [connect=False] and a list for [invert_axes] the constructor is
    [SixAxis_init]. *)
Lemma SixAxis_new_without_connect {F : Type} `{Num F} (dz hz : F)
  (invert_axes : list bool) (devices : list InputDevice)
  (opened : string -> InputDevice) :
  SixAxis_new dz hz false (Some invert_axes) devices opened =
    SixAxis_init dz hz invert_axes.
Proof.
  unfold SixAxis_new. destruct (SixAxis_init dz hz invert_axes); reflexivity.
Qed.

(** With a list for [invert_axes], [__enter__] of the resource is
    [SixAxisResource_enter]. *)
Lemma SixAxisResource_enter_opt_list {F : Type} `{Num F}
  (bind_defaults : bool) (dz hz : F) (invert_axes : list bool)
  (devices : list InputDevice) (opened : string -> InputDevice) :
  SixAxisResource_enter_opt bind_defaults dz hz (Some invert_axes) devices
    opened =
    SixAxisResource_enter bind_defaults dz hz invert_axes devices opened.
Proof.
  unfold SixAxisResource_enter_opt, SixAxisResource_enter.
  rewrite SixAxis_new_without_connect. reflexivity.
Qed.

(** X22.  [SixAxis(dead_zone, hot_zone, connect, invert_axes)] raises
    [TypeError] when [invert_axes] is [None] and [AssertionError] when it
    is a list that does not have four entries, whatever [connect] is and
    before any device is looked for.  With four entries and [connect] true
    it raises [IOError] when no device of the listing is named
    PLAYSTATION(R)3 Controller.  Otherwise it builds a controller that is
    connected exactly when [connect] is true, has no registration and no
    button pressed, and has the four axes left_x, left_y, right_x, right_y
    in this order, each with the dead zone and hot zone given, its own
    invert flag and the initial calibration. *)
Theorem SixAxis_constructor_outcome :
  forall (F : Type) (N : Num F) (dz hz : F) (connect_now : bool)
         (invert_axes : option (list bool)) (devices : list InputDevice)
         (opened : string -> InputDevice),
    (invert_axes = None ->
     SixAxis_new dz hz connect_now invert_axes devices opened
       = Raise TypeError) /\
    (forall l, invert_axes = Some l -> List.length l <> 4%nat ->
     SixAxis_new dz hz connect_now invert_axes devices opened
       = Raise AssertionError) /\
    (forall l, invert_axes = Some l -> List.length l = 4%nat ->
     connect_now = true ->
     (forall d, In d devices ->
                device_name d <> "PLAYSTATION(R)3 Controller"%string) ->
     SixAxis_new dz hz connect_now invert_axes devices opened
       = Raise IOError) /\
    (forall l, invert_axes = Some l -> List.length l = 4%nat ->
     (connect_now = true ->
      exists d, In d devices /\
                device_name d = "PLAYSTATION(R)3 Controller"%string) ->
     exists s,
       SixAxis_new dz hz connect_now invert_axes devices opened = Ok s /\
       is_connected s = connect_now /\
       button_handlers s = [] /\
       buttons_pressed s = 0%Z /\
       map name (axes s) =
         ["left_x"; "left_y"; "right_x"; "right_y"]%string /\
       map invert (axes s) = l /\
       forall a, In a (axes s) ->
         dead_zone a = dz /\ hot_zone a = hz /\
         centre a = lit 0.5 /\ min a = lit 0.1 /\ max a = lit 0.9 /\
         value a = lit 0.5).
Proof.
  intros F N dz hz connect_now invert_axes devices opened.
  split; [|split; [|split]].
  - intros ->. reflexivity.
  - intros l -> Hlen. unfold SixAxis_new.
    rewrite (SixAxis_init_bad dz hz l Hlen). reflexivity.
  - intros l -> Hlen -> Hno. unfold SixAxis_new.
    destruct (SixAxis_init_fields dz hz l Hlen) as (s0 & E0 & Hc & _).
    rewrite E0. cbn [bind].
    rewrite (connect_no_device s0 _ devices opened); [reflexivity | | exact Hno].
    unfold is_connected. rewrite Hc. reflexivity.
  - intros l -> Hlen Hfound. unfold SixAxis_new.
    destruct (SixAxis_init_fields dz hz l Hlen)
      as (s0 & E0 & Hc & Hh & Hbp & Hn & Hi & Hax).
    rewrite E0. cbn [bind].
    destruct connect_now.
    + unfold connect. rewrite Hc.
      destruct (find_controller_device_found _ devices (Hfound eq_refl))
        as (d & Efind).
      rewrite Efind. cbn [bind snd].
      eexists. split; [reflexivity|].
      cbn [is_connected _start_device_read_loop with_stop_function
           _stop_function button_handlers buttons_pressed axes].
      auto 10.
    + exists s0. split; [reflexivity|].
      unfold is_connected. rewrite Hc. auto 10.
Qed.

Lemma SixAxis_constructor_outcome_witness :
  let pad := {| fn := "/dev/input/event5";
                device_name := "PLAYSTATION(R)3 Controller" |} in
  let opened := fun path => {| fn := path; device_name := "" |} in
  SixAxis_new (F:=float) (lit 0.05) (lit 0) true None [pad] opened
    = Raise TypeError /\
  List.length [false; false; false] <> 4%nat /\
  SixAxis_new (F:=float) (lit 0.05) (lit 0) true (Some [false; false; false])
    [pad] opened = Raise AssertionError /\
  List.length [false; true; false; true] = 4%nat /\
  (forall d, In d (@nil InputDevice) ->
             device_name d <> "PLAYSTATION(R)3 Controller"%string) /\
  SixAxis_new (F:=float) (lit 0.05) (lit 0) true
    (Some [false; true; false; true]) [] opened = Raise IOError /\
  (true = true ->
   exists d, In d [pad] /\
             device_name d = "PLAYSTATION(R)3 Controller"%string) /\
  exists s,
    SixAxis_new (F:=float) (lit 0.05) (lit 0) true
      (Some [false; true; false; true]) [pad] opened = Ok s /\
    is_connected s = true /\
    map invert (axes s) = [false; true; false; true].
Proof.
  intros pad opened.
  assert (H3 : List.length [false; false; false] <> 4%nat) by discriminate.
  assert (H4 : List.length [false; true; false; true] = 4%nat)
    by reflexivity.
  assert (Hno : forall d, In d (@nil InputDevice) ->
                  device_name d <> "PLAYSTATION(R)3 Controller"%string)
    by (intros d []).
  assert (Hyes : true = true ->
                 exists d, In d [pad] /\
                   device_name d = "PLAYSTATION(R)3 Controller"%string).
  { intros _. exists pad. split; [apply in_eq | reflexivity]. }
  split.
  { exact (proj1 (SixAxis_constructor_outcome float Num_float (lit 0.05)
                    (lit 0) true None [pad] opened) eq_refl). }
  split; [exact H3|]. split.
  { exact (proj1 (proj2 (SixAxis_constructor_outcome float Num_float
                           (lit 0.05) (lit 0) true
                           (Some [false; false; false]) [pad] opened))
             _ eq_refl H3). }
  split; [exact H4|]. split; [exact Hno|]. split.
  { exact (proj1 (proj2 (proj2 (SixAxis_constructor_outcome float Num_float
                                  (lit 0.05) (lit 0) true
                                  (Some [false; true; false; true]) []
                                  opened)))
             _ eq_refl H4 eq_refl Hno). }
  split; [exact Hyes|].
  destruct (proj2 (proj2 (proj2 (SixAxis_constructor_outcome float Num_float
                                   (lit 0.05) (lit 0) true
                                   (Some [false; true; false; true]) [pad]
                                   opened)))
              _ eq_refl H4 Hyes)
    as (s & E & Hc & _ & _ & _ & Hi & _).
  exists s. exact (conj E (conj Hc Hi)).
Defined.

(** What a press of START and a press of SELECT do on a controller whose
    registrations are the two defaults. *)
Lemma default_handlers_fire {F : Type} `{Num F} (self : SixAxis F) (n : nat) :
  button_handlers self = default_registrations n ->
  (exists s,
     handle_event self (mkEvent ecodes.EV_KEY 315 1) =
       Ok (s, [(reset_axis_calibration_method, BUTTON_START)]) /\
     axes s = map _reset (axes self)) /\
  (exists s,
     handle_event self (mkEvent ecodes.EV_KEY 314 1) =
       Ok (s, [(set_axis_centres_method, BUTTON_SELECT)]) /\
     axes s = map set_centre (axes self)).
Proof.
  intro Hh. unfold handle_event. cbn [ev_type ev_code ev_value].
  change (ecodes.EV_KEY =? ecodes.EV_ABS)%Z with false.
  change (ecodes.EV_KEY =? ecodes.EV_KEY)%Z with true.
  change (1 =? 1)%Z with true. cbv iota.
  change (button_of_code 315) with (Some BUTTON_START).
  change (button_of_code 314) with (Some BUTTON_SELECT).
  cbv iota. cbn [button_handlers with_buttons_pressed].
  rewrite Hh. split; eexists; split; reflexivity.
Qed.

(** X23.  With [bind_defaults], [SixAxisResource.__enter__] returns a
    connected controller whose only registrations are the two defaults.  On
    any later state with these registrations, a press of START calls
    [reset_axis_calibration] and puts every axis back to the initial
    calibration, and a press of SELECT calls [set_axis_centres] and moves
    the centre of every axis to its current value. *)
Theorem resource_default_bindings :
  forall (F : Type) (N : Num F) (dz hz : F) (invert_axes : list bool)
         (devices : list InputDevice) (opened : string -> InputDevice)
         (joystick : SixAxis F),
    SixAxisResource_enter true dz hz invert_axes devices opened
      = Ok joystick ->
    is_connected joystick = true /\
    button_handlers joystick = default_registrations 0 /\
    forall self : SixAxis F,
      button_handlers self = button_handlers joystick ->
      (exists s,
         handle_event self (mkEvent ecodes.EV_KEY 315 1) =
           Ok (s, [(reset_axis_calibration_method, BUTTON_START)]) /\
         axes s = map _reset (axes self)) /\
      (exists s,
         handle_event self (mkEvent ecodes.EV_KEY 314 1) =
           Ok (s, [(set_axis_centres_method, BUTTON_SELECT)]) /\
         axes s = map set_centre (axes self)).
Proof.
  intros F N dz hz invert_axes devices opened joystick E.
  unfold SixAxisResource_enter in E.
  destruct (SixAxis_init dz hz invert_axes) as [s0|] eqn:E0; [|discriminate].
  cbn [bind] in E.
  assert (H0 : _stop_function s0 = None /\ button_handlers s0 = [] /\
               allocated s0 = 0%nat).
  { destruct invert_axes as [|i0 [|i1 [|i2 [|i3 [|i4 rest]]]]];
      cbn in E0; try discriminate.
    inversion E0. cbn. auto. }
  destruct H0 as (Hstop & Hh0 & Hal).
  unfold connect in E. rewrite Hstop in E.
  destruct (find_controller_device "PLAYSTATION(R)3 Controller" devices)
    as [d|]; [|discriminate].
  cbn [bind snd fst] in E.
  unfold register_button_handler in E.
  cbn [build_mask shl1 bind fst snd button_handlers allocated
       _start_device_read_loop with_stop_function _stop_function axes
       buttons_pressed] in E.
  change (BUTTON_START <? 0)%Z with false in E.
  change (BUTTON_SELECT <? 0)%Z with false in E.
  cbn [bind fst snd button_handlers allocated _stop_function axes
       buttons_pressed] in E.
  inversion E; subst joystick; clear E.
  cbn [is_connected _stop_function button_handlers].
  rewrite Hh0, Hal. cbn [app].
  split; [reflexivity|]. split; [reflexivity|].
  intros self Hself. apply (default_handlers_fire self 0). exact Hself.
Qed.

Lemma resource_default_bindings_witness :
  exists joystick : SixAxis float,
    SixAxisResource_enter true (lit 0.05) (lit 0) [false; true; false; true]
      [ {| fn := "/dev/input/event5";
           device_name := "PLAYSTATION(R)3 Controller" |} ]
      (fun path => {| fn := path; device_name := "" |}) = Ok joystick /\
    is_connected joystick = true /\
    button_handlers joystick = default_registrations 0.
Proof.
  run_ok.
  match goal with
  | |- is_connected ?j = true /\ _ =>
      destruct (resource_default_bindings float Num_float (lit 0.05) (lit 0)
                  [false; true; false; true]
                  [ {| fn := "/dev/input/event5";
                       device_name := "PLAYSTATION(R)3 Controller" |} ]
                  (fun path => {| fn := path; device_name := "" |})
                  j) as (H1 & H2 & _);
      [vm_compute; reflexivity | exact (conj H1 H2)]
  end.
Defined.

(** X24.  [SixAxisResource.__enter__] fails before it looks for a device
    when [invert_axes] is [None], the default of the resource
    ([TypeError]), and when it is a list that does not have four entries
    ([AssertionError]); it raises [IOError] when the list has four entries
    and no device of the listing is named PLAYSTATION(R)3 Controller.
    Without [bind_defaults] a controller that is found is returned
    connected and without any registration, and [__exit__] disconnects
    it. *)
Theorem resource_enter_outcomes :
  forall (F : Type) (N : Num F) (bind_defaults : bool) (dz hz : F)
         (invert_axes : option (list bool)) (devices : list InputDevice)
         (opened : string -> InputDevice),
    (invert_axes = None ->
     SixAxisResource_enter_opt bind_defaults dz hz invert_axes devices opened
       = Raise TypeError) /\
    (forall l, invert_axes = Some l -> List.length l <> 4%nat ->
     SixAxisResource_enter_opt bind_defaults dz hz invert_axes devices opened
       = Raise AssertionError) /\
    (forall l, invert_axes = Some l -> List.length l = 4%nat ->
     (forall d, In d devices ->
                device_name d <> "PLAYSTATION(R)3 Controller"%string) ->
     SixAxisResource_enter_opt bind_defaults dz hz invert_axes devices opened
       = Raise IOError) /\
    (forall l, invert_axes = Some l -> List.length l = 4%nat ->
     (exists d, In d devices /\
                device_name d = "PLAYSTATION(R)3 Controller"%string) ->
     bind_defaults = false ->
     exists joystick,
       SixAxisResource_enter_opt bind_defaults dz hz invert_axes devices
         opened = Ok joystick /\
       is_connected joystick = true /\
       button_handlers joystick = [] /\
       is_connected (SixAxisResource_exit joystick) = false).
Proof.
  intros F N bind_defaults dz hz invert_axes devices opened.
  split; [|split; [|split]].
  - intros ->. reflexivity.
  - intros l -> Hlen.
    unfold SixAxisResource_enter_opt. rewrite SixAxis_new_without_connect.
    rewrite (SixAxis_init_bad dz hz l Hlen). reflexivity.
  - intros l -> Hlen Hno.
    unfold SixAxisResource_enter_opt. rewrite SixAxis_new_without_connect.
    destruct (SixAxis_init_ok dz hz l Hlen) as (s0 & E0 & Hc & _).
    rewrite E0. cbn [bind].
    rewrite (connect_no_device s0 _ devices opened); [reflexivity | | exact Hno].
    unfold is_connected. rewrite Hc. reflexivity.
  - intros l -> Hlen Hfound ->.
    unfold SixAxisResource_enter_opt. rewrite SixAxis_new_without_connect.
    destruct (SixAxis_init_ok dz hz l Hlen) as (s0 & E0 & Hc & Hh).
    rewrite E0. cbn [bind].
    unfold connect. rewrite Hc.
    destruct (find_controller_device_found _ devices Hfound) as (d & Efind).
    rewrite Efind. cbn [bind snd].
    eexists. split; [reflexivity|].
    cbn [is_connected _start_device_read_loop with_stop_function
         _stop_function button_handlers SixAxisResource_exit disconnect].
    auto.
Qed.

Lemma resource_enter_outcomes_witness :
  let pad := {| fn := "/dev/input/event5";
                device_name := "PLAYSTATION(R)3 Controller" |} in
  let opened := fun path => {| fn := path; device_name := "" |} in
  SixAxisResource_enter_opt (F:=float) true (lit 0.05) (lit 0) None [pad]
    opened = Raise TypeError /\
  List.length [false; false] <> 4%nat /\
  SixAxisResource_enter_opt (F:=float) true (lit 0.05) (lit 0)
    (Some [false; false]) [pad] opened = Raise AssertionError /\
  List.length [false; false; false; false] = 4%nat /\
  (exists d, In d [pad] /\
             device_name d = "PLAYSTATION(R)3 Controller"%string) /\
  exists joystick,
    SixAxisResource_enter_opt (F:=float) false (lit 0.05) (lit 0)
      (Some [false; false; false; false]) [pad] opened = Ok joystick /\
    is_connected joystick = true /\
    button_handlers joystick = [] /\
    is_connected (SixAxisResource_exit joystick) = false.
Proof.
  intros pad opened.
  assert (H2 : List.length [false; false] <> 4%nat) by discriminate.
  assert (H4 : List.length [false; false; false; false] = 4%nat)
    by reflexivity.
  assert (Hyes : exists d, In d [pad] /\
                   device_name d = "PLAYSTATION(R)3 Controller"%string).
  { exists pad. split; [apply in_eq | reflexivity]. }
  split.
  { exact (proj1 (resource_enter_outcomes float Num_float true (lit 0.05)
                    (lit 0) None [pad] opened) eq_refl). }
  split; [exact H2|]. split.
  { exact (proj1 (proj2 (resource_enter_outcomes float Num_float true
                           (lit 0.05) (lit 0) (Some [false; false]) [pad]
                           opened)) _ eq_refl H2). }
  split; [exact H4|]. split; [exact Hyes|].
  exact (proj2 (proj2 (proj2 (resource_enter_outcomes float Num_float false
                                (lit 0.05) (lit 0)
                                (Some [false; false; false; false]) [pad]
                                opened)))
           _ eq_refl H4 Hyes eq_refl).
Defined.

(** ** Calibration operations of the controller *)

(** X25.  [reset_axis_calibration()] and [set_axis_centres()] touch the
    calibration only: both keep the number of axes, the registrations, the
    button bitfield and the connection, and leave every axis its name, raw
    value, inversion, dead zone and hot zone.  The reset gives every axis
    the initial centre, min and max; recentring gives every axis its own
    value as centre and leaves min and max alone.  Each of the two does
    nothing when repeated. *)
Theorem calibration_operations_frame :
  forall (F : Type) (N : Num F) (self : SixAxis F),
    let r := reset_axis_calibration self in
    let c := set_axis_centres self in
    (button_handlers r = button_handlers self /\
     buttons_pressed r = buttons_pressed self /\
     is_connected r = is_connected self /\
     button_handlers c = button_handlers self /\
     buttons_pressed c = buttons_pressed self /\
     is_connected c = is_connected self) /\
    Forall2 (fun a a' =>
               name a' = name a /\ value a' = value a /\
               invert a' = invert a /\ dead_zone a' = dead_zone a /\
               hot_zone a' = hot_zone a /\
               centre a' = lit 0.5 /\ min a' = lit 0.1 /\ max a' = lit 0.9)
            (axes self) (axes r) /\
    Forall2 (fun a a' =>
               name a' = name a /\ value a' = value a /\
               invert a' = invert a /\ dead_zone a' = dead_zone a /\
               hot_zone a' = hot_zone a /\
               centre a' = value a /\ min a' = min a /\ max a' = max a)
            (axes self) (axes c) /\
    reset_axis_calibration r = r /\
    set_axis_centres c = c.
Proof.
  intros F N self r c. subst r c.
  unfold reset_axis_calibration, set_axis_centres, is_connected.
  cbn [button_handlers buttons_pressed _stop_function axes with_axes].
  split; [repeat split|].
  split; [|split; [|split]].
  - induction (axes self) as [|a l IH]; cbn [map]; constructor;
      [cbn; auto 10 | exact IH].
  - induction (axes self) as [|a l IH]; cbn [map]; constructor;
      [cbn; auto 10 | exact IH].
  - unfold with_axes. cbn [axes _stop_function button_handlers
                             buttons_pressed allocated].
    f_equal. rewrite map_map. apply map_ext. intro a. reflexivity.
  - unfold with_axes. cbn [axes _stop_function button_handlers
                             buttons_pressed allocated].
    f_equal. rewrite map_map. apply map_ext. intro a. reflexivity.
Qed.
